(** * lofi-api: the rate-limited cache-aside retrieval pipeline

    A shallow embedding of the server's read path:

    - [ProductsPersistenceService] and [MetricsPersistenceService]
      (two Redis clients),
    - [RateLimiter] (token bucket persisted in Redis),
    - [MetricsService] and [ProductService] (the orchestrator),
    - [App] (the HTTP routes and their timing middleware).

    Conventions of the embedding.

    - Time is [Date.now()], an integer number of milliseconds ([Z]).
    - Rate-limit points are JavaScript numbers; they are modelled by exact
      rationals ([Q]), so rounding of IEEE doubles is not represented.  An
      equality between points names the expression that the source
      evaluates; what is proved beyond that about points are bounds and
      comparisons that rounding to nearest preserves.
    - An [async] function is a computation over the [World] that either
      returns or throws.  A promise that the source does not [await] is run
      to completion at the point where it is created (one sequential
      schedule of the event loop); its rejection, if any, is seen by no
      [catch] and is collected in the [unhandled] rejections of the world.
    - A Redis database is split into typed key spaces, one per key prefix
      used by the services; [JSON.stringify] followed by [JSON.parse] is
      the identity on the documents stored there, so a stored string is
      represented by the document it encodes. *)

From Stdlib Require Import ZArith QArith Qround Qminmax Lqa Lia.
From Stdlib Require Import String Ascii List.
From Stdlib Require Import Decimal DecimalString DecimalPos DecimalZ.
From stdpp Require Import gmap strings.

Local Open Scope string_scope.
Local Open Scope list_scope.
Local Open Scope Z_scope.

(** ** JavaScript primitives used by the services *)

Module Js.

(** [Math.min], [Math.ceil], [Math.round] on numbers. *)
Definition Math_min (a b : Q) : Q := Qmin a b.
Definition Math_ceil (x : Q) : Z := Qceiling x.
Definition Math_round (x : Q) : Z := Qfloor (x + (1 # 2)).

(** [>=] on numbers. *)
Definition geq (a b : Q) : bool := Qle_bool b a.

(** [Array.prototype.join]. *)
Fixpoint join (sep : string) (l : list string) : string :=
  match l with
  | [] => ""
  | [x] => x
  | x :: rest => x +:+ sep +:+ join sep rest
  end.

(** [Number.prototype.toString] on an integer below 10^21 in absolute
    value, which JavaScript prints in plain decimal.  From 10^21 on it
    prints an exponent ("1e+21"); that form is not modelled. *)
Definition toString (z : Z) : string :=
  NilZero.string_of_int (Z.to_int z).

Definition digit_of (c : ascii) : option Z :=
  let n := Z.of_nat (nat_of_ascii c) in
  if (48 <=? n) && (n <=? 57) then Some (n - 48) else None.

(** Strings are sequences of bytes, in UTF-8 where a character is not
    ASCII.  The white space and the line terminators that [parseInt]
    skips: TAB, LF, VT, FF, CR and SP in one byte ... *)
Definition is_space (c : ascii) : bool :=
  let n := nat_of_ascii c in
  (n =? 32)%nat || ((9 <=? n)%nat && (n <=? 13)%nat).

(** ... U+00A0 in two bytes ... *)
Definition is_space2 (c1 c2 : ascii) : bool :=
  (nat_of_ascii c1 =? 194)%nat && (nat_of_ascii c2 =? 160)%nat.

(** ... and in three bytes U+1680, U+2000 to U+200A, U+2028, U+2029,
    U+202F, U+205F, U+3000 and U+FEFF. *)
Definition is_space3 (c1 c2 c3 : ascii) : bool :=
  let n1 := nat_of_ascii c1 in
  let n2 := nat_of_ascii c2 in
  let n3 := nat_of_ascii c3 in
  ((n1 =? 225) && (n2 =? 154) && (n3 =? 128))%nat
  || ((n1 =? 226) && (n2 =? 128)
      && (((128 <=? n3) && (n3 <=? 138))
          || (n3 =? 168) || (n3 =? 169) || (n3 =? 175)))%nat
  || ((n1 =? 226) && (n2 =? 129) && (n3 =? 159))%nat
  || ((n1 =? 227) && (n2 =? 128) && (n3 =? 128))%nat
  || ((n1 =? 239) && (n2 =? 187) && (n3 =? 191))%nat.

(** The first byte of a white-space character of more than one byte. *)
Definition is_lead (c : ascii) : bool :=
  let n := nat_of_ascii c in
  ((n =? 194) || (n =? 225) || (n =? 226) || (n =? 227) || (n =? 239))%nat.

Fixpoint skip_spaces (s : string) : string :=
  match s with
  | String c rest =>
      if is_space c then skip_spaces rest
      else if is_lead c then
        match rest with
        | String c2 rest2 =>
            if is_space2 c c2 then skip_spaces rest2
            else
              match rest2 with
              | String c3 rest3 =>
                  if is_space3 c c2 c3 then skip_spaces rest3 else s
              | EmptyString => s
              end
        | EmptyString => s
        end
      else s
  | EmptyString => s
  end.

(** The longest prefix of decimal digits, read as a number; [acc] is
    [None] until a first digit has been seen. *)
Fixpoint digits (s : string) (acc : option Z) : option Z :=
  match s with
  | EmptyString => acc
  | String c rest =>
      match digit_of c with
      | Some d => digits rest (Some (10 * default 0 acc + d))
      | None => acc
      end
  end.

(** [parseInt(s, 10)]; [None] is [NaN]. *)
Definition parseInt (s : string) : option Z :=
  match skip_spaces s with
  | String "-" rest => Z.opp <$> digits rest None
  | String "+" rest => digits rest None
  | s' => digits s' None
  end.

(** [a + b], [Math.max], [Math.min] on numbers that may be [NaN]. *)
Definition add (a b : option Z) : option Z :=
  match a, b with Some x, Some y => Some (x + y) | _, _ => None end.

Definition max_of (l : list (option Z)) : option Z :=
  match l with
  | [] => None
  | x :: rest =>
      fold_left (fun a b =>
        match a, b with Some u, Some v => Some (Z.max u v) | _, _ => None end)
        rest x
  end.

Definition min_of (l : list (option Z)) : option Z :=
  match l with
  | [] => None
  | x :: rest =>
      fold_left (fun a b =>
        match a, b with Some u, Some v => Some (Z.min u v) | _, _ => None end)
        rest x
  end.

(** A promise handed to code that does not await it.  As an object it is
    truthy whatever it settles to. *)
Inductive Promise (A : Type) : Type :=
| Fulfilled (value : A)
| Rejected.
Arguments Fulfilled {A} value.
Arguments Rejected {A}.

Definition ToBoolean {A} (p : Promise A) : bool := true.

End Js.

(** ** Redis key spaces with per-key expiry *)

Module Redis.

(** A stored value and its absolute expiry time in milliseconds; [None]
    is a key without TTL. *)
Record Entry (A : Type) : Type := mkEntry {
  payload : A;
  deadline : option Z
}.
Arguments mkEntry {A} payload deadline.
Arguments payload {A} e.
Arguments deadline {A} e.

Definition live {A} (now : Z) (e : Entry A) : bool :=
  match deadline e with
  | None => true
  | Some d => now <? d
  end.

Section KeySpace.
Context {A : Type}.
Implicit Types (m : gmap string (Entry A)) (key : string).

(** The entry a command sees: expired keys are gone. *)
Definition find (now : Z) m key : option (Entry A) :=
  match m !! key with
  | Some e => if live now e then Some e else None
  | None => None
  end.

(** GET *)
Definition get (now : Z) m key : option A :=
  payload <$> find now m key.

(** SET (drops any TTL) *)
Definition set m key (v : A) : gmap string (Entry A) :=
  <[key := mkEntry v None]> m.

(** SETEX key seconds value *)
Definition setEx (now : Z) m key (seconds : Z) (v : A) : gmap string (Entry A) :=
  <[key := mkEntry v (Some (now + seconds * 1000))]> m.

(** EXPIRE key seconds *)
Definition expire (now : Z) m key (seconds : Z) : gmap string (Entry A) :=
  match find now m key with
  | Some e => <[key := mkEntry (payload e) (Some (now + seconds * 1000))]> m
  | None => m
  end.

(** DEL *)
Definition del m (keys : list string) : gmap string (Entry A) :=
  fold_left (fun acc k => delete k acc) keys m.
End KeySpace.

(** LPUSH: prepend, creating the list when the key is absent. *)
Definition lPush (now : Z) (m : gmap string (Entry (list string)))
    (key : string) (x : string) : gmap string (Entry (list string)) :=
  match find now m key with
  | Some e => <[key := mkEntry (x :: payload e) (deadline e)]> m
  | None => <[key := mkEntry [x] None]> m
  end.

(** LRANGE key 0 -1 *)
Definition lRange (now : Z) (m : gmap string (Entry (list string)))
    (key : string) : list string :=
  match find now m key with
  | Some e => payload e
  | None => []
  end.

(** INCR: an absent key counts from zero. *)
Definition incr (now : Z) (m : gmap string (Entry Z)) (key : string)
    : gmap string (Entry Z) :=
  match find now m key with
  | Some e => <[key := mkEntry (payload e + 1) (deadline e)]> m
  | None => <[key := mkEntry 1 None]> m
  end.

End Redis.

(** ** Data model *)

(** [Product] of productService.ts. *)
Record Product : Type := mkProduct {
  product_id : string;
  title : string;
  price : string;
  inventory : Z;
  created_at : string
}.

Record Edge : Type := mkEdge {
  cursor : string;
  node : Product
}.

(** [ProductResponse]: a page of edges and [pageInfo.hasNextPage]. *)
Record ProductResponse : Type := mkPage {
  edges : list Edge;
  hasNextPage : bool
}.

(** The document stored under [ratelimiter:state]. *)
Record RateLimitState : Type := mkState {
  points : Q;
  lastRefillTime : Z
}.

(** The document stored under [metrics:<class>:<timestamp>]. *)
Record Sample : Type := mkSample {
  responseTimeMs : Z;
  timestamp : Z
}.

(** [ProductStats] of metricsService.ts; a field is [None] when the
    JavaScript number is [NaN]. *)
Record ProductStats : Type := mkStats {
  endpoint_average : option Z;
  endpoint_max : option Z;
  endpoint_min : option Z;
  total_endpoint_calls : option Z;
  average_shopify_call_responsetime_ms : option Z;
  total_shopify_api_calls : option Z
}.

(** *** What the upstream sends *)

(** A product node of the GraphQL response, as far as [marshallProduct]
    reads it. *)
Record RawNode : Type := mkRawNode {
  raw_id : string;
  raw_title : string;
  priceRange_minVariantPrice_amount : option string;
  totalInventory : option Z;
  createdAt : string
}.

Record RawEdge : Type := mkRawEdge {
  raw_cursor : string;
  raw_node : RawNode
}.

Record RawConnection : Type := mkRawConnection {
  raw_edges : list RawEdge;
  raw_hasNextPage : bool
}.

(** [response.data.data]: the fields the two queries select. *)
Record Data : Type := mkData {
  product : option RawNode;
  products : option RawConnection
}.

(** What [extensions.cost.actualQueryCost] evaluates to when
    [extensions.cost] is there: the number the upstream reports,
    [undefined] when the cost object has no such field, or [null]. *)
Inductive QueryCost : Type :=
| cost_number (q : Q)
| cost_undefined
| cost_null.

(** [response.data] of a 2xx reply; [extensions_cost] is [None] when the
    body has no [extensions] or no [extensions.cost]. *)
Record Body : Type := mkBody {
  data : option Data;
  errors : option (list string);          (* the [message] of each error *)
  extensions_cost : option QueryCost
}.

(** The cost a body reports, if it reports a number. *)
Definition actualQueryCost (body : Body) : option Q :=
  match extensions_cost body with
  | Some (cost_number q) => Some q
  | _ => None
  end.

Inductive Reply : Type :=
| NetworkFailure (reason : string)
| BadStatus (status : Z)
| Replied (body : Body).

(** The two GraphQL documents with their variables. *)
Inductive Request : Type :=
| GET_PRODUCT_BY_ID_QUERY (id : string)
| GET_PRODUCTS_QUERY (first : Z) (after : option string) (sortKey : string).

(** One HTTP exchange: what came back and how long it took. *)
Record Exchange : Type := mkExchange {
  reply : Reply;
  latency : N
}.

(** The upstream: what a request issued at a given time is answered. *)
Definition Upstream : Type := Z -> Request -> Exchange.

(** *** The two Redis databases *)

Record ProductsDb : Type := mkProductsDb {
  product_keys : gmap string (Redis.Entry Product);          (* product:<id> *)
  list_keys : gmap string (Redis.Entry ProductResponse);     (* products:list:<cursor> *)
  state_keys : gmap string (Redis.Entry RateLimitState)      (* ratelimiter:state *)
}.

Record MetricsDb : Type := mkMetricsDb {
  sample_keys : gmap string (Redis.Entry Sample);            (* metrics:<class>:<timestamp> *)
  times_keys : gmap string (Redis.Entry (list string));      (* metrics:<class>:times *)
  calls_keys : gmap string (Redis.Entry Z)                   (* metrics:<class>:calls *)
}.

(** State of a Redis client: [isConnected] is false when [Disconnected];
    when [Erroring] the flag is still set but every command rejects. *)
Inductive Status : Type := Connected | Disconnected | Erroring.

(** What the services do that is visible outside them, in order.  The
    first three are console lines of the source; the others mark the call
    of [setTimeout], of [api.post] and of the two recording entry points
    of [MetricsService]. *)
Inductive Event : Type :=
| Checking (cost : Q)
| Consuming (cost : Q)
| Waiting (ms : Z)
| Slept (ms : Z)
| Posted (req : Request)
| ShopifyCallReported (ms : Z)
| EndpointCallReported (ms : Z).

(** What is thrown, or what a promise rejects with. *)
Inductive Exn : Type :=
| Error (message : string)
| TypeError
| AxiosError (cause : Reply)
| RedisError.

(** [unhandled] collects the rejections of promises that nothing awaits
    and nothing catches.  The server installs no [unhandledRejection]
    handler, so each of them is left to the runtime, whose default since
    Node 15 is to end the process. *)
Record World : Type := mkWorld {
  clock : Z;
  products_status : Status;
  products_db : ProductsDb;
  metrics_status : Status;
  metrics_db : MetricsDb;
  trace : list Event;
  unhandled : list Exn
}.

Definition with_clock (t : Z) (w : World) : World :=
  mkWorld t (products_status w) (products_db w) (metrics_status w) (metrics_db w)
    (trace w) (unhandled w).

Definition with_products_db (db : ProductsDb) (w : World) : World :=
  mkWorld (clock w) (products_status w) db (metrics_status w) (metrics_db w)
    (trace w) (unhandled w).

Definition with_metrics_db (db : MetricsDb) (w : World) : World :=
  mkWorld (clock w) (products_status w) (products_db w) (metrics_status w) db
    (trace w) (unhandled w).

Definition with_trace (tr : list Event) (w : World) : World :=
  mkWorld (clock w) (products_status w) (products_db w) (metrics_status w)
    (metrics_db w) tr (unhandled w).

Definition with_products_status (st : Status) (w : World) : World :=
  mkWorld (clock w) st (products_db w) (metrics_status w) (metrics_db w)
    (trace w) (unhandled w).

Definition with_metrics_status (st : Status) (w : World) : World :=
  mkWorld (clock w) (products_status w) (products_db w) st (metrics_db w)
    (trace w) (unhandled w).

Definition with_unhandled (l : list Exn) (w : World) : World :=
  mkWorld (clock w) (products_status w) (products_db w) (metrics_status w)
    (metrics_db w) (trace w) l.

(** A promise rejected with [e] that nothing handles. *)
Definition rejected (e : Exn) (w : World) : World :=
  with_unhandled (unhandled w ++ [e]) w.

(** ** Asynchronous computations *)

Inductive Outcome (A : Type) : Type :=
| Returned (a : A)
| Thrown (e : Exn).
Arguments Returned {A} a.
Arguments Thrown {A} e.

Definition Async (A : Type) : Type := World -> Outcome A * World.

Definition ret {A} (a : A) : Async A := fun w => (Returned a, w).

Definition throw {A} (e : Exn) : Async A := fun w => (Thrown e, w).

Definition bind {A B} (c : Async A) (k : A -> Async B) : Async B :=
  fun w =>
    match c w with
    | (Returned a, w') => k a w'
    | (Thrown e, w') => (Thrown e, w')
    end.

(** [try { c } catch (e) { handler e }] *)
Definition try_catch {A} (c : Async A) (handler : Exn -> Async A) : Async A :=
  fun w =>
    match c w with
    | (Returned a, w') => (Returned a, w')
    | (Thrown e, w') => handler e w'
    end.

(** A call whose promise is dropped: the caller goes on whatever becomes
    of it, and a rejection is handled by nobody, even inside a [try]. *)
Definition detach {A} (c : Async A) : Async unit :=
  fun w =>
    match c w with
    | (Returned _, w') => (Returned tt, w')
    | (Thrown e, w') => (Returned tt, rejected e w')
    end.

(** A call whose promise is used as a value but neither awaited nor given
    a handler. *)
Definition spawn {A} (c : Async A) : Async (Js.Promise A) :=
  fun w =>
    match c w with
    | (Returned a, w') => (Returned (Js.Fulfilled a), w')
    | (Thrown e, w') => (Returned Js.Rejected, rejected e w')
    end.

Declare Scope async_scope.
Delimit Scope async_scope with async.
Notation "x <~ c ;; k" := (bind c (fun x => k))
  (at level 100, c at next level, right associativity) : async_scope.
Notation "c ;;; k" := (bind c (fun _ => k))
  (at level 100, right associativity) : async_scope.
Local Open Scope async_scope.

Definition Date_now : Async Z := fun w => (Returned (clock w), w).

Definition emit (e : Event) : Async unit :=
  fun w => (Returned tt, with_trace (trace w ++ [e]) w).

(** Time passes. *)
Definition elapse (ms : Z) : Async unit :=
  fun w => (Returned tt, with_clock (clock w + Z.max 0 ms) w).

(** A command sent on the products client, resp. the metrics client: it
    runs against the database at the current time, or rejects. *)
Definition products_command {A} (run : Z -> ProductsDb -> A * ProductsDb) : Async A :=
  fun w =>
    match products_status w with
    | Connected =>
        let '(a, db) := run (clock w) (products_db w) in
        (Returned a, with_products_db db w)
    | _ => (Thrown RedisError, w)
    end.

Definition metrics_command {A} (run : Z -> MetricsDb -> A * MetricsDb) : Async A :=
  fun w =>
    match metrics_status w with
    | Connected =>
        let '(a, db) := run (clock w) (metrics_db w) in
        (Returned a, with_metrics_db db w)
    | _ => (Thrown RedisError, w)
    end.

(** [s || fallback] on a string that may be null. *)
Definition or_string (s : option string) (fallback : string) : string :=
  match s with
  | Some "" | None => fallback
  | Some s' => s'
  end.

(** ** productsPersistenceService.ts *)

Module ProductsPersistenceService.

(** [!this.isConnected || !this.client]; the client always exists after
    construction. *)
Definition failedConnection : Async bool :=
  fun w =>
    (Returned match products_status w with Disconnected => true | _ => false end, w).

Definition ttlSeconds_default : Z := 300.

Definition cacheProduct (productId : string) (productData : Product)
    (ttlSeconds : Z) : Async unit :=
  failed <~ failedConnection ;;
  if failed : bool then ret tt else
  try_catch
    (let key := "product:" +:+ productId in
     detach (products_command (fun now db =>
       (tt, mkProductsDb
              (Redis.setEx now (product_keys db) key ttlSeconds productData)
              (list_keys db) (state_keys db)))))
    (fun err => ret tt).

Definition getCachedProduct (productId : string) : Async (option Product) :=
  failed <~ failedConnection ;;
  if failed : bool then ret None else
  try_catch
    (let key := "product:" +:+ productId in
     data <~ products_command (fun now db =>
               (Redis.get now (product_keys db) key, db)) ;;
     ret data)
    (fun err => ret None).

Definition cacheProductsList (cursor : option string)
    (productsData : ProductResponse) (ttlSeconds : Z) : Async unit :=
  failed <~ failedConnection ;;
  if failed : bool then ret tt else
  try_catch
    (let key := "products:list:" +:+ or_string cursor "start" in
     detach (products_command (fun now db =>
       (tt, mkProductsDb
              (product_keys db)
              (Redis.setEx now (list_keys db) key ttlSeconds productsData)
              (state_keys db)))))
    (fun err => ret tt).

Definition getCachedProductsList (cursor : option string)
    : Async (option ProductResponse) :=
  failed <~ failedConnection ;;
  if failed : bool then ret None else
  try_catch
    (let key := "products:list:" +:+ or_string cursor "start" in
     data <~ products_command (fun now db =>
               (Redis.get now (list_keys db) key, db)) ;;
     ret data)
    (fun err => ret None).

Definition updateRateLimitState (points : Q) (lastRefillTime : Z) : Async unit :=
  failed <~ failedConnection ;;
  if failed : bool then ret tt else
  try_catch
    (let key := "ratelimiter:state" in
     let state := mkState points lastRefillTime in
     detach (products_command (fun now db =>
       (tt, mkProductsDb (product_keys db) (list_keys db)
              (Redis.set (state_keys db) key state)))))
    (fun err => ret tt).

Definition getRateLimitState : Async (option RateLimitState) :=
  failed <~ failedConnection ;;
  if failed : bool then ret None else
  try_catch
    (let key := "ratelimiter:state" in
     data <~ products_command (fun now db =>
               (Redis.get now (state_keys db) key, db)) ;;
     ret data)
    (fun err => ret None).

(** [connect]: nothing to do when [isConnected] is set; otherwise
    [client.connect()] is awaited and the flag follows its outcome
    ([reachable]: whether that call succeeds). *)
Definition connect (reachable : bool) : Async unit :=
  fun w =>
    match products_status w with
    | Disconnected =>
        (Returned tt,
         with_products_status (if reachable then Connected else Disconnected) w)
    | _ => (Returned tt, w)
    end.

(** [disconnect]: [client.quit()] is awaited outside any [try]; the flag is
    cleared only after it resolved. *)
Definition disconnect : Async unit :=
  fun w =>
    match products_status w with
    | Connected => (Returned tt, with_products_status Disconnected w)
    | Erroring => (Thrown RedisError, w)
    | Disconnected => (Returned tt, w)
    end.

End ProductsPersistenceService.

(** ** metricsPersistenceService.ts *)

Module MetricsPersistenceService.

Definition failedConnection : Async bool :=
  fun w =>
    (Returned match metrics_status w with Disconnected => true | _ => false end, w).

Definition setEx_sample (key : string) (seconds : Z) (s : Sample) : Async unit :=
  metrics_command (fun now db =>
    (tt, mkMetricsDb (Redis.setEx now (sample_keys db) key seconds s)
           (times_keys db) (calls_keys db))).

Definition lPush (key : string) (x : string) : Async unit :=
  metrics_command (fun now db =>
    (tt, mkMetricsDb (sample_keys db)
           (Redis.lPush now (times_keys db) key x) (calls_keys db))).

Definition incr (key : string) : Async unit :=
  metrics_command (fun now db =>
    (tt, mkMetricsDb (sample_keys db) (times_keys db)
           (Redis.incr now (calls_keys db) key))).

(** EXPIRE acts on whichever key space holds the key. *)
Definition expire (key : string) (seconds : Z) : Async unit :=
  metrics_command (fun now db =>
    (tt, mkMetricsDb
           (Redis.expire now (sample_keys db) key seconds)
           (Redis.expire now (times_keys db) key seconds)
           (Redis.expire now (calls_keys db) key seconds))).

Definition lRange (key : string) : Async (list string) :=
  metrics_command (fun now db => (Redis.lRange now (times_keys db) key, db)).

(** GET of a counter: Redis answers with its decimal text. *)
Definition get (key : string) : Async (option string) :=
  metrics_command (fun now db =>
    (Js.toString <$> Redis.get now (calls_keys db) key, db)).

Definition del (keys : list string) : Async unit :=
  metrics_command (fun now db =>
    (tt, mkMetricsDb
           (Redis.del (sample_keys db) keys)
           (Redis.del (times_keys db) keys)
           (Redis.del (calls_keys db) keys))).

Definition recordEndpointMetric (responseTimeMs : Z) : Async unit :=
  failed <~ failedConnection ;;
  if failed : bool then ret tt else
  try_catch
    (timestamp <~ Date_now ;;
     let key := "metrics:endpoint:" +:+ Js.toString timestamp in
     detach (setEx_sample key 3600 (mkSample responseTimeMs timestamp)) ;;;
     detach (lPush "metrics:endpoint:times" (Js.toString responseTimeMs)) ;;;
     detach (expire "metrics:endpoint:times" 3600) ;;;
     detach (incr "metrics:endpoint:calls") ;;;
     detach (expire "metrics:endpoint:calls" 3600))
    (fun err => ret tt).

Definition recordShopifyMetric (responseTimeMs : Z) : Async unit :=
  failed <~ failedConnection ;;
  if failed : bool then ret tt else
  try_catch
    (timestamp <~ Date_now ;;
     let key := "metrics:shopify:" +:+ Js.toString timestamp in
     detach (setEx_sample key 3600 (mkSample responseTimeMs timestamp)) ;;;
     detach (lPush "metrics:shopify:times" (Js.toString responseTimeMs)) ;;;
     detach (expire "metrics:shopify:times" 3600) ;;;
     detach (incr "metrics:shopify:calls") ;;;
     detach (expire "metrics:shopify:calls" 3600))
    (fun err => ret tt).

Definition zero_stats : ProductStats :=
  mkStats (Some 0) (Some 0) (Some 0) (Some 0) (Some 0) (Some 0).

(** [times.reduce((a, b) => a + b, 0) / times.length] *)
Definition average (times : list (option Z)) : option Q :=
  (fun sum => inject_Z sum / inject_Z (Z.of_nat (length times)))%Q
    <$> fold_left Js.add times (Some 0).

Definition getMetrics : Async ProductStats :=
  failed <~ failedConnection ;;
  if failed : bool then ret zero_stats else
  try_catch
    (endpointTimes <~ lRange "metrics:endpoint:times" ;;
     endpointCalls <~ get "metrics:endpoint:calls" ;;
     shopifyTimes <~ lRange "metrics:shopify:times" ;;
     shopifyCalls <~ get "metrics:shopify:calls" ;;
     let '(endpointAvg, endpointMax, endpointMin) :=
       if (0 <? length endpointTimes)%nat then
         let times := map Js.parseInt endpointTimes in
         (average times, Js.max_of times, Js.min_of times)
       else (Some 0%Q, Some 0, Some 0) in
     let shopifyAvg :=
       if (0 <? length shopifyTimes)%nat then
         let times := map Js.parseInt shopifyTimes in
         average times
       else Some 0%Q in
     ret (mkStats
            (Js.Math_round <$> endpointAvg)
            endpointMax
            endpointMin
            (Js.parseInt (or_string endpointCalls "0"))
            (Js.Math_round <$> shopifyAvg)
            (Js.parseInt (or_string shopifyCalls "0"))))
    (fun err => ret zero_stats).

Definition resetMetrics : Async unit :=
  failed <~ failedConnection ;;
  if failed : bool then ret tt else
  try_catch
    (del ["metrics:endpoint:times"; "metrics:endpoint:calls";
          "metrics:shopify:times"; "metrics:shopify:calls"])
    (fun err => ret tt).

Definition connect (reachable : bool) : Async unit :=
  fun w =>
    match metrics_status w with
    | Disconnected =>
        (Returned tt,
         with_metrics_status (if reachable then Connected else Disconnected) w)
    | _ => (Returned tt, w)
    end.

(** [disconnect]: [client.quit()] is not awaited here, so the flag is
    cleared whatever becomes of it, and its rejection is handled by
    nobody. *)
Definition disconnect : Async unit :=
  fun w =>
    match metrics_status w with
    | Connected => (Returned tt, with_metrics_status Disconnected w)
    | Erroring =>
        (Returned tt, with_metrics_status Disconnected (rejected RedisError w))
    | Disconnected => (Returned tt, w)
    end.

End MetricsPersistenceService.

(** ** metricsService.ts *)

Module MetricsService.

Definition recordEndpointCall (responseTimeMs : Z) : Async unit :=
  emit (EndpointCallReported responseTimeMs) ;;;
  detach (MetricsPersistenceService.recordEndpointMetric responseTimeMs).

Definition recordShopifyCall (responseTimeMs : Z) : Async unit :=
  emit (ShopifyCallReported responseTimeMs) ;;;
  detach (MetricsPersistenceService.recordShopifyMetric responseTimeMs).

Definition getMetrics : Async ProductStats :=
  MetricsPersistenceService.getMetrics.

Definition resetMetrics : Async unit :=
  detach MetricsPersistenceService.resetMetrics.

End MetricsService.

(** ** rateLimiter.ts *)

Module RateLimiter.

Definition MAX_POINTS : Q := 1000.
Definition REFILL_RATE : Q := 50.

(** [refillBucket], given what [Date.now()] and the state read gave:
    the points available after the refill. *)
Definition refilled (now : Z) (state : RateLimitState) : Q :=
  let timeSinceLastRefill := (inject_Z (now - lastRefillTime state) / 1000)%Q in
  let pointsToAdd := (timeSinceLastRefill * REFILL_RATE)%Q in
  Js.Math_min MAX_POINTS (points state + pointsToAdd)%Q.

Definition refillBucket : Async Q :=
  now <~ Date_now ;;
  persisted <~ ProductsPersistenceService.getRateLimitState ;;
  let state := default (mkState MAX_POINTS now) persisted in
  let availablePoints := refilled now state in
  detach (ProductsPersistenceService.updateRateLimitState availablePoints now) ;;;
  ret availablePoints.

Definition canExecute (queryComplexity : Q) : Async bool :=
  emit (Checking queryComplexity) ;;;
  availablePoints <~ refillBucket ;;
  ret (Js.geq availablePoints queryComplexity).

(** The number [consume] works with when it is handed
    [extensions.cost.actualQueryCost]: the default of its parameter,
    [queryComplexity = 5], stands in for [undefined], and [null] counts
    for 0 in [state.points - queryComplexity]. *)
Definition queryComplexity_of (cost : QueryCost) : Q :=
  match cost with
  | cost_number q => q
  | cost_undefined => 5
  | cost_null => 0
  end.

Definition consume (queryComplexity : Q) : Async unit :=
  emit (Consuming queryComplexity) ;;;
  detach
    (state <~ ProductsPersistenceService.getRateLimitState ;;
     match state with
     | Some state =>
         detach (ProductsPersistenceService.updateRateLimitState
                   (points state - queryComplexity)%Q
                   (lastRefillTime state))
     | None => ret tt
     end).

Definition getWaitTimeMs (queryComplexity : Q) : Async Z :=
  points <~ refillBucket ;;
  if Js.geq points queryComplexity then ret 0
  else
    let pointsNeeded := (queryComplexity - points)%Q in
    let secondsToWait := (pointsNeeded / REFILL_RATE)%Q in
    ret (Js.Math_ceil (secondsToWait * 1000)%Q).

End RateLimiter.

(** ** productService.ts *)

Module ProductService.

(** [cursor || null] *)
Definition or_null (cursor : option string) : option string :=
  match cursor with
  | Some "" | None => None
  | Some c => Some c
  end.

Definition marshallProduct (node : RawNode) : Product :=
  mkProduct
    (raw_id node)
    (raw_title node)
    (or_string (priceRange_minVariantPrice_amount node) "0")
    (default 0 (totalInventory node))
    (createdAt node).

Definition sleep (ms : Z) : Async unit :=
  emit (Slept ms) ;;; elapse ms.

Section WithUpstream.
Variable shopify : Upstream.

(** [this.api.post('graphql.json', { query, variables })]: axios throws
    on a network failure and on a status outside 2xx. *)
Definition api_post (req : Request) : Async Body :=
  fun w =>
    let exchange := shopify (clock w) req in
    let w' := with_clock (clock w + Z.of_N (latency exchange))
                (with_trace (trace w ++ [Posted req]) w) in
    match reply exchange with
    | Replied body => (Returned body, w')
    | failure => (Thrown (AxiosError failure), w')
    end.

Definition executeQuery (req : Request) : Async (option Data) :=
  let queryComplexity := 10%Q in
  allowed <~ spawn (RateLimiter.canExecute queryComplexity) ;;
  (if negb (Js.ToBoolean allowed) then
     waitTime <~ RateLimiter.getWaitTimeMs queryComplexity ;;
     emit (Waiting waitTime) ;;;
     sleep waitTime
   else ret tt) ;;;
  startTime <~ Date_now ;;
  try_catch
    (response <~ api_post req ;;
     cost <~ match extensions_cost response with
             | Some cost => ret cost
             | None => throw TypeError
             end ;;
     RateLimiter.consume (RateLimiter.queryComplexity_of cost) ;;;
     endTime <~ Date_now ;;
     detach (MetricsService.recordShopifyCall (endTime - startTime)) ;;;
     match errors response with
     | Some errs =>
         let errorMessage := Js.join "; " errs in
         throw (Error ("GraphQL Error: " +:+ errorMessage))
     | None => ret (data response)
     end)
    (fun error =>
       endTime <~ Date_now ;;
       detach (MetricsService.recordShopifyCall (endTime - startTime)) ;;;
       throw error).

Definition getProductById (id : string) : Async (option Product) :=
  try_catch
    (let id := "gid://shopify/Product/" +:+ id in
     cached <~ ProductsPersistenceService.getCachedProduct id ;;
     match cached with
     | Some cached => ret (Some cached)
     | None =>
         response <~ executeQuery (GET_PRODUCT_BY_ID_QUERY id) ;;
         match response with
         | None => throw TypeError
         | Some response =>
             match product response with
             | None => ret None
             | Some raw =>
                 let product := marshallProduct raw in
                 detach (ProductsPersistenceService.cacheProduct id product
                           ProductsPersistenceService.ttlSeconds_default) ;;;
                 ret (Some product)
             end
         end
     end)
    (fun error => ret None).

(** [cached && cached.edges.length >= limit]: the page to return from
    the cache, if any. *)
Definition usable (cached : option ProductResponse) (limit : Z)
    : option ProductResponse :=
  match cached with
  | Some page =>
      if limit <=? Z.of_nat (length (edges page)) then Some page else None
  | None => None
  end.

Definition listProducts (limit : Z) (cursor : option string)
    : Async ProductResponse :=
  try_catch
    (let first := Z.min (Z.max 1 limit) 250 in
     cached <~ ProductsPersistenceService.getCachedProductsList cursor ;;
     match usable cached limit with
     | Some cached => ret cached
     | None =>
         response <~ executeQuery
                       (GET_PRODUCTS_QUERY first (or_null cursor) "TITLE") ;;
         match response with
         | None => throw TypeError
         | Some response =>
             match products response with
             | None => throw TypeError
             | Some connection =>
                 let edges :=
                   map (fun edge =>
                          mkEdge (raw_cursor edge)
                                 (marshallProduct (raw_node edge)))
                       (raw_edges connection) in
                 let page := mkPage edges (raw_hasNextPage connection) in
                 detach (ProductsPersistenceService.cacheProductsList
                           cursor page
                           ProductsPersistenceService.ttlSeconds_default) ;;;
                 ret page
             end
         end
     end)
    (fun error => ret (mkPage [] false)).
End WithUpstream.

End ProductService.

(** ** index.ts *)

Module App.

(** The four routes with what they read of the request: the [limit] and
    [cursor] query parameters, the [id] path parameter. *)
Inductive HttpRequest : Type :=
| GET_products (limit cursor : option string)
| GET_products_id (id : string)
| GET_api_stats
| POST_reset_stats.

(** What [c.json] and [c.text] are given. *)
Inductive Content : Type :=
| error_json (error : string)
| products_json (products : list Product) (nextPage : option string)
| product_json (p : Product)
| stats_json (stats : ProductStats)
| text (message : string).

Record HttpResponse : Type := mkResponse {
  status : Z;
  content : Content
}.

(** [postProcess]: record endpoint metrics. *)
Definition postProcess (startTime : Z) : Async unit :=
  endTime <~ Date_now ;;
  let responseTime := endTime - startTime in
  detach (MetricsService.recordEndpointCall responseTime).

Section WithUpstream.
Variable shopify : Upstream.

(** The handler of each route. *)
Definition handler (req : HttpRequest) : Async HttpResponse :=
  match req with
  | GET_products limit_query cursor_query =>
      let limit := Js.parseInt (or_string limit_query "10") in
      let after := ProductService.or_null cursor_query in
      match limit with
      | None => ret (mkResponse 400 (error_json "Invalid limit parameter"))
      | Some limit =>
          if limit <? 1
          then ret (mkResponse 400 (error_json "Invalid limit parameter"))
          else
            page <~ ProductService.listProducts shopify limit after ;;
            ret (mkResponse 200
                   (products_json
                      (map node (edges page))
                      (cursor <$> last (edges page))))
      end
  | GET_products_id id =>
      product <~ ProductService.getProductById shopify id ;;
      match product with
      | None => ret (mkResponse 404 (error_json "Product not found"))
      | Some product => ret (mkResponse 200 (product_json product))
      end
  | GET_api_stats =>
      stats <~ MetricsService.getMetrics ;;
      ret (mkResponse 200 (stats_json stats))
  | POST_reset_stats =>
      MetricsService.resetMetrics ;;;
      ret (mkResponse 200 (text "Metrics reset successfully"))
  end.

(** The middleware on every route, once the services are initialised:
    [preProcess], the handler, then [postProcess], which is not awaited. *)
Definition middleware (req : HttpRequest) : Async HttpResponse :=
  startTime <~ Date_now ;;
  response <~ handler req ;;
  detach (postProcess startTime) ;;;
  ret response.
End WithUpstream.

End App.

(** ** Observations on a world *)

(** What a read of the persisted documents yields in a world: nothing
    unless the products client is connected and healthy. *)
Definition persisted_state (w : World) : option RateLimitState :=
  match products_status w with
  | Connected =>
      Redis.get (clock w) (state_keys (products_db w)) "ratelimiter:state"
  | _ => None
  end.

Definition cached_product (gid : string) (w : World) : option Product :=
  match products_status w with
  | Connected =>
      Redis.get (clock w) (product_keys (products_db w)) ("product:" +:+ gid)
  | _ => None
  end.

Definition cached_page (cursor : option string) (w : World)
    : option ProductResponse :=
  match products_status w with
  | Connected =>
      Redis.get (clock w) (list_keys (products_db w))
        ("products:list:" +:+ or_string cursor "start")
  | _ => None
  end.

(** The world after a write of the products client: it went through, or
    it was rejected with nobody to handle the rejection (the client is
    erroring), or it was not sent (the client is not connected). *)
Definition write_state (s : RateLimitState) (w : World) : World :=
  match products_status w with
  | Connected =>
      with_products_db
        (mkProductsDb (product_keys (products_db w)) (list_keys (products_db w))
           (Redis.set (state_keys (products_db w)) "ratelimiter:state" s)) w
  | Erroring => rejected RedisError w
  | Disconnected => w
  end.

Definition write_product (gid : string) (p : Product) (ttl : Z) (w : World) : World :=
  match products_status w with
  | Connected =>
      with_products_db
        (mkProductsDb
           (Redis.setEx (clock w) (product_keys (products_db w))
              ("product:" +:+ gid) ttl p)
           (list_keys (products_db w)) (state_keys (products_db w))) w
  | Erroring => rejected RedisError w
  | Disconnected => w
  end.

Definition write_page (cursor : option string) (pg : ProductResponse) (ttl : Z)
    (w : World) : World :=
  match products_status w with
  | Connected =>
      with_products_db
        (mkProductsDb
           (product_keys (products_db w))
           (Redis.setEx (clock w) (list_keys (products_db w))
              ("products:list:" +:+ or_string cursor "start") ttl pg)
           (state_keys (products_db w))) w
  | Erroring => rejected RedisError w
  | Disconnected => w
  end.

(** The upstream requests in a trace, in order. *)
Fixpoint posts (tr : list Event) : list Request :=
  match tr with
  | Posted req :: rest => req :: posts rest
  | _ :: rest => posts rest
  | [] => []
  end.

(** The sleeps in a trace, in order. *)
Fixpoint sleeps (tr : list Event) : list Z :=
  match tr with
  | Slept ms :: rest => ms :: sleeps rest
  | _ :: rest => sleeps rest
  | [] => []
  end.

(** The response times handed to [recordShopifyCall] in a trace. *)
Fixpoint shopify_reports (tr : list Event) : list Z :=
  match tr with
  | ShopifyCallReported ms :: rest => ms :: shopify_reports rest
  | _ :: rest => shopify_reports rest
  | [] => []
  end.

(** The invariant of the data model on a [RateLimitState]. *)
Definition bucket_ok (s : RateLimitState) : Prop :=
  (0 <= points s /\ points s <= RateLimiter.MAX_POINTS)%Q.

(** The two metric windows as they are read at time [now]. *)
Definition window_samples (class : string) (now : Z) (w : World) : list string :=
  Redis.lRange now (times_keys (metrics_db w)) ("metrics:" +:+ class +:+ ":times").

Definition window_calls (class : string) (now : Z) (w : World) : Z :=
  default 0 (Redis.get now (calls_keys (metrics_db w))
               ("metrics:" +:+ class +:+ ":calls")).

(** The arithmetic of [getMetrics] on what the four reads returned. *)
Definition snapshot (endpointTimes : list string) (endpointCalls : option string)
    (shopifyTimes : list string) (shopifyCalls : option string) : ProductStats :=
  let '(endpointAvg, endpointMax, endpointMin) :=
    if (0 <? length endpointTimes)%nat then
      let times := map Js.parseInt endpointTimes in
      (MetricsPersistenceService.average times, Js.max_of times, Js.min_of times)
    else (Some 0%Q, Some 0, Some 0) in
  let shopifyAvg :=
    if (0 <? length shopifyTimes)%nat then
      MetricsPersistenceService.average (map Js.parseInt shopifyTimes)
    else Some 0%Q in
  mkStats
    (Js.Math_round <$> endpointAvg) endpointMax endpointMin
    (Js.parseInt (or_string endpointCalls "0"))
    (Js.Math_round <$> shopifyAvg)
    (Js.parseInt (or_string shopifyCalls "0")).

(** The counter of a metric class as GET returns it. *)
Definition window_counter (class : string) (now : Z) (w : World) : option string :=
  Js.toString <$> Redis.get now (calls_keys (metrics_db w))
                    ("metrics:" +:+ class +:+ ":calls").

(** The world after [resetMetrics]. *)
Definition cleared (w : World) : World :=
  let keys := ["metrics:endpoint:times"; "metrics:endpoint:calls";
               "metrics:shopify:times"; "metrics:shopify:calls"] in
  match metrics_status w with
  | Connected =>
      with_metrics_db
        (mkMetricsDb
           (Redis.del (sample_keys (metrics_db w)) keys)
           (Redis.del (times_keys (metrics_db w)) keys)
           (Redis.del (calls_keys (metrics_db w)) keys)) w
  | _ => w
  end.

(** The number a decimal numeral denotes when it is read left to right,
    [acc] being the value of the digits already read. *)
Fixpoint decimal_value (d : uint) (acc : Z) : Z :=
  match d with
  | Nil => acc
  | D0 l => decimal_value l (10 * acc + 0)
  | D1 l => decimal_value l (10 * acc + 1)
  | D2 l => decimal_value l (10 * acc + 2)
  | D3 l => decimal_value l (10 * acc + 3)
  | D4 l => decimal_value l (10 * acc + 4)
  | D5 l => decimal_value l (10 * acc + 5)
  | D6 l => decimal_value l (10 * acc + 6)
  | D7 l => decimal_value l (10 * acc + 7)
  | D8 l => decimal_value l (10 * acc + 8)
  | D9 l => decimal_value l (10 * acc + 9)
  end.

(** Endpoint calls recorded one after the other. *)
Fixpoint record_endpoint_calls (samples : list Z) (w : World) : World :=
  match samples with
  | [] => w
  | ms :: rest =>
      record_endpoint_calls rest (snd (MetricsService.recordEndpointCall ms w))
  end.

Definition sum_of (l : list Z) : Z := fold_right Z.add 0 l.

(** Time passing between two requests. *)
Definition later (ms : Z) (w : World) : World :=
  with_clock (clock w + ms) w.

(** An upstream reply that is a failure of the call: no connection, a
    status outside 2xx, or a body that carries a GraphQL error list. *)
Definition upstream_failure (r : Reply) : Prop :=
  match r with
  | NetworkFailure _ | BadStatus _ => True
  | Replied body => is_Some (errors body)
  end.

(** The state the refill works from, and what it makes available. *)
Definition refill_base (w : World) : RateLimitState :=
  default (mkState RateLimiter.MAX_POINTS (clock w)) (persisted_state w).

Definition available (w : World) : Q :=
  RateLimiter.refilled (clock w) (refill_base w).

(** What [consume] leaves behind. *)
Definition debited (cost : Q) (w : World) : World :=
  match persisted_state w with
  | Some s => write_state (mkState (points s - cost)%Q (lastRefillTime s)) w
  | None => w
  end.

(** The five commands of [recordEndpointMetric] and [recordShopifyMetric]
    on the metrics database, for the metric class in the key. *)
Definition record_db (class : string) (now : Z) (ms : Z) (db : MetricsDb) : MetricsDb :=
  let times := "metrics:" +:+ class +:+ ":times" in
  let calls := "metrics:" +:+ class +:+ ":calls" in
  let db1 := mkMetricsDb
               (Redis.setEx now (sample_keys db)
                  ("metrics:" +:+ class +:+ ":" +:+ Js.toString now) 3600
                  (mkSample ms now))
               (times_keys db) (calls_keys db) in
  let db2 := mkMetricsDb (sample_keys db1)
               (Redis.lPush now (times_keys db1) times (Js.toString ms))
               (calls_keys db1) in
  let db3 := mkMetricsDb
               (Redis.expire now (sample_keys db2) times 3600)
               (Redis.expire now (times_keys db2) times 3600)
               (Redis.expire now (calls_keys db2) times 3600) in
  let db4 := mkMetricsDb (sample_keys db3) (times_keys db3)
               (Redis.incr now (calls_keys db3) calls) in
  mkMetricsDb
    (Redis.expire now (sample_keys db4) calls 3600)
    (Redis.expire now (times_keys db4) calls 3600)
    (Redis.expire now (calls_keys db4) calls 3600).

(** The world after a metric was recorded: the five commands went
    through, or each of them was rejected with nobody to handle it, or
    none was sent. *)
Definition recorded (class : string) (ms : Z) (w : World) : World :=
  match metrics_status w with
  | Connected => with_metrics_db (record_db class (clock w) ms (metrics_db w)) w
  | Erroring =>
      rejected RedisError
        (rejected RedisError
           (rejected RedisError (rejected RedisError (rejected RedisError w))))
  | Disconnected => w
  end.

(** The world after [recordShopifyCall]. *)
Definition reported (ms : Z) (w : World) : World :=
  recorded "shopify" ms (with_trace (trace w ++ [ShopifyCallReported ms]) w).

(** The world after [api.post] came back. *)
Definition posted (req : Request) (took : N) (w : World) : World :=
  with_clock (clock w + Z.of_N took) (with_trace (trace w ++ [Posted req]) w).

(** The world after the gate of [executeQuery]. *)
Definition gated (w : World) : World :=
  write_state (mkState (available w) (clock w))
    (with_trace (trace w ++ [Checking 10%Q]) w).

(** What [executeQuery] hands to [consume] for a body, when it gets that
    far. *)
Definition charged (body : Body) : option Q :=
  RateLimiter.queryComplexity_of <$> extensions_cost body.

(** [executeQuery] in straight-line form: the outcome and the world it
    leaves, by the shape of the upstream's answer. *)
Definition answered (shopify : Upstream) (req : Request) (w : World)
    : Outcome (option Data) * World :=
  let w1 := gated w in
  let exchange := shopify (clock w) req in
  let w2 := posted req (latency exchange) w1 in
  let took := Z.of_N (latency exchange) in
  match reply exchange with
  | Replied body =>
      match charged body with
      | Some cost =>
          let w3 := reported took
                      (debited cost
                         (with_trace (trace w2 ++ [Consuming cost]) w2)) in
          match errors body with
          | Some errs =>
              (Thrown (Error ("GraphQL Error: " +:+ Js.join "; " errs)),
               reported took w3)
          | None => (Returned (data body), w3)
          end
      | None => (Thrown TypeError, reported took w2)
      end
  | failure => (Thrown (AxiosError failure), reported took w2)
  end.

(** [getProductById] and [listProducts] in straight-line form. *)
Definition product_found (shopify : Upstream) (id : string) (w : World)
    : Outcome (option Product) * World :=
  let gid := "gid://shopify/Product/" +:+ id in
  match cached_product gid w with
  | Some cached => (Returned (Some cached), w)
  | None =>
      match answered shopify (GET_PRODUCT_BY_ID_QUERY gid) w with
      | (Returned (Some response), w') =>
          match product response with
          | Some raw =>
              let p := ProductService.marshallProduct raw in
              (Returned (Some p),
               write_product gid p ProductsPersistenceService.ttlSeconds_default w')
          | None => (Returned None, w')
          end
      | (Returned None, w') => (Returned None, w')
      | (Thrown _, w') => (Returned None, w')
      end
  end.

Definition clamped (limit : Z) : Z := Z.min (Z.max 1 limit) 250.

Definition marshalled_page (connection : RawConnection) : ProductResponse :=
  mkPage
    (map (fun edge =>
            mkEdge (raw_cursor edge)
                   (ProductService.marshallProduct (raw_node edge)))
         (raw_edges connection))
    (raw_hasNextPage connection).

Definition page_listed (shopify : Upstream) (limit : Z) (cursor : option string)
    (w : World) : Outcome ProductResponse * World :=
  match ProductService.usable (cached_page cursor w) limit with
  | Some cached => (Returned cached, w)
  | None =>
      match answered shopify
              (GET_PRODUCTS_QUERY (clamped limit)
                 (ProductService.or_null cursor) "TITLE") w with
      | (Returned (Some response), w') =>
          match products response with
          | Some connection =>
              let page := marshalled_page connection in
              (Returned page,
               write_page cursor page
                 ProductsPersistenceService.ttlSeconds_default w')
          | None => (Returned (mkPage [] false), w')
          end
      | (Returned None, w') => (Returned (mkPage [] false), w')
      | (Thrown _, w') => (Returned (mkPage [] false), w')
      end
  end.

(** *** Sample worlds *)

Definition fresh_world (t : Z) : World :=
  mkWorld t Connected (mkProductsDb ∅ ∅ ∅) Connected (mkMetricsDb ∅ ∅ ∅) [] [].

Definition offline_world (t : Z) : World :=
  mkWorld t Disconnected (mkProductsDb ∅ ∅ ∅)
    Disconnected (mkMetricsDb ∅ ∅ ∅) [] [].

(** An upstream that gives one answer to everything. *)
Definition serving (body : Body) (took : N) : Upstream :=
  fun _ _ => mkExchange (Replied body) took.

Definition unreachable (took : N) : Upstream :=
  fun _ _ => mkExchange (NetworkFailure "ECONNREFUSED") took.

Definition sample_node : RawNode :=
  mkRawNode "gid://shopify/Product/1" "Tape" (Some "9.99") (Some 3) "2024-01-01".

(** The body for a product that exists, resp. does not exist. *)
Definition product_body (raw : option RawNode) (cost : Q) : Body :=
  mkBody (Some (mkData raw None)) None (Some (cost_number cost)).

(** A 2xx body that carries GraphQL errors: with the cost extension, and
    without any extension (a query rejected before it is run). *)
Definition failed_body (messages : list string) (cost : Q) : Body :=
  mkBody None (Some messages) (Some (cost_number cost)).

Definition rejected_body (messages : list string) : Body :=
  mkBody None (Some messages) None.

(** Both clients connected, every command of the products client
    rejected. *)
Definition erroring_world (t : Z) : World :=
  mkWorld t Erroring (mkProductsDb ∅ ∅ ∅) Connected (mkMetricsDb ∅ ∅ ∅) [] [].

(** A world whose metrics client is down while the products client is up. *)
Definition metrics_down_world (t : Z) : World :=
  mkWorld t Connected (mkProductsDb ∅ ∅ ∅) Disconnected (mkMetricsDb ∅ ∅ ∅) [] [].

(** A healthy world whose bucket holds [s]. *)
Definition world_with_bucket (t : Z) (s : RateLimitState) : World :=
  write_state s (fresh_world t).

(** What one upstream exchange adds to the trace after the gate and the
    request. *)
Definition settlement (exchange : Exchange) : list Event :=
  let took := Z.of_N (latency exchange) in
  match reply exchange with
  | Replied body =>
      match charged body with
      | Some cost =>
          match errors body with
          | Some _ =>
              [Consuming cost; ShopifyCallReported took; ShopifyCallReported took]
          | None => [Consuming cost; ShopifyCallReported took]
          end
      | None => [ShopifyCallReported took]
      end
  | _ => [ShopifyCallReported took]
  end.

(** The response times handed to [recordEndpointCall] in a trace. *)
Fixpoint endpoint_reports (tr : list Event) : list Z :=
  match tr with
  | EndpointCallReported ms :: rest => ms :: endpoint_reports rest
  | _ :: rest => endpoint_reports rest
  | [] => []
  end.

(** The costs handed to [consume] in a trace. *)
Fixpoint debits (tr : list Event) : list Q :=
  match tr with
  | Consuming cost :: rest => cost :: debits rest
  | _ :: rest => debits rest
  | [] => []
  end.

(** Endpoint calls recorded one after the other, each followed by a
    pause: the list holds the response time and the pause after it. *)
Fixpoint record_spaced (calls : list (Z * Z)) (w : World) : World :=
  match calls with
  | [] => w
  | (ms, pause) :: rest =>
      record_spaced rest
        (later pause (snd (MetricsService.recordEndpointCall ms w)))
  end.

(** A page of one product as the upstream sends it, and the body that
    carries a page. *)
Definition sample_connection : RawConnection :=
  mkRawConnection [mkRawEdge "cursor-1" sample_node] true.

Definition page_body (connection : RawConnection) (cost : Q) : Body :=
  mkBody (Some (mkData None (Some connection))) None (Some (cost_number cost)).

(** ** The persistence layer, run *)

Section PersistenceRuns.
Import ProductsPersistenceService.

Lemma getRateLimitState_run w :
  getRateLimitState w = (Returned (persisted_state w), w).
Proof.
  unfold getRateLimitState, persisted_state, bind, try_catch,
    failedConnection, products_command, ret.
  destruct w as [t ps pdb ms mdb tr ur]; simpl.
  destruct ps; reflexivity.
Qed.

Lemma updateRateLimitState_run p t w :
  updateRateLimitState p t w = (Returned tt, write_state (mkState p t) w).
Proof.
  unfold updateRateLimitState, write_state, bind, try_catch, detach,
    failedConnection, products_command, ret.
  destruct w as [t' ps pdb ms mdb tr ur]; simpl.
  destruct ps; reflexivity.
Qed.

Lemma getCachedProduct_run gid w :
  getCachedProduct gid w = (Returned (cached_product gid w), w).
Proof.
  unfold getCachedProduct, cached_product, bind, try_catch,
    failedConnection, products_command, ret.
  destruct w as [t ps pdb ms mdb tr ur]; simpl.
  destruct ps; reflexivity.
Qed.

Lemma cacheProduct_run gid p ttl w :
  cacheProduct gid p ttl w = (Returned tt, write_product gid p ttl w).
Proof.
  unfold cacheProduct, write_product, bind, try_catch, detach,
    failedConnection, products_command, ret.
  destruct w as [t' ps pdb ms mdb tr ur]; simpl.
  destruct ps; reflexivity.
Qed.

Lemma getCachedProductsList_run cursor w :
  getCachedProductsList cursor w = (Returned (cached_page cursor w), w).
Proof.
  unfold getCachedProductsList, cached_page, bind, try_catch,
    failedConnection, products_command, ret.
  destruct w as [t ps pdb ms mdb tr ur]; simpl.
  destruct ps; reflexivity.
Qed.

Lemma cacheProductsList_run cursor pg ttl w :
  cacheProductsList cursor pg ttl w = (Returned tt, write_page cursor pg ttl w).
Proof.
  unfold cacheProductsList, write_page, bind, try_catch, detach,
    failedConnection, products_command, ret.
  destruct w as [t' ps pdb ms mdb tr ur]; simpl.
  destruct ps; reflexivity.
Qed.
End PersistenceRuns.

(** Reading back what was just written. *)
Lemma persisted_write_state s w :
  products_status w = Connected -> persisted_state (write_state s w) = Some s.
Proof.
  intros H. unfold persisted_state, write_state. rewrite H. simpl. rewrite H.
  unfold Redis.get, Redis.find, Redis.set. rewrite lookup_insert_eq. reflexivity.
Qed.

Lemma persisted_write_state_down s w :
  products_status w <> Connected -> persisted_state (write_state s w) = None.
Proof.
  intros H. unfold persisted_state, write_state.
  destruct (products_status w) eqn:E; try congruence; simpl; rewrite E;
    reflexivity.
Qed.

(** ** The limiter, run *)

Lemma refilled_le_max now s : (RateLimiter.refilled now s <= RateLimiter.MAX_POINTS)%Q.
Proof. unfold RateLimiter.refilled, Js.Math_min. apply Q.le_min_l. Qed.

Lemma refilled_nonneg now s :
  (0 <= points s)%Q -> lastRefillTime s <= now ->
  (0 <= RateLimiter.refilled now s)%Q.
Proof.
  intros Hp Ht.
  unfold RateLimiter.refilled, Js.Math_min, RateLimiter.MAX_POINTS,
    RateLimiter.REFILL_RATE.
  apply Q.min_glb; [lra|].
  assert (0 <= inject_Z (now - lastRefillTime s))%Q as Hd.
  { change 0%Q with (inject_Z 0). rewrite <- Zle_Qle. lia. }
  set (d := inject_Z _) in *.
  assert (0 <= d / 1000 * 50)%Q; [|lra].
  apply Qmult_le_0_compat; [|lra]. apply Qle_shift_div_l; lra.
Qed.

(** A full bucket read at the instant it was filled stays full. *)
Lemma refilled_full now later_on :
  now <= later_on ->
  (RateLimiter.refilled later_on (mkState RateLimiter.MAX_POINTS now)
   == RateLimiter.MAX_POINTS)%Q.
Proof.
  intros Ht.
  unfold RateLimiter.refilled, Js.Math_min, RateLimiter.MAX_POINTS,
    RateLimiter.REFILL_RATE; simpl.
  apply Q.min_l.
  assert (0 <= inject_Z (later_on - now))%Q as Hd.
  { change 0%Q with (inject_Z 0). rewrite <- Zle_Qle. lia. }
  set (d := inject_Z _) in *.
  assert (0 <= d / 1000 * 50)%Q; [|lra].
  apply Qmult_le_0_compat; [|lra]. apply Qle_shift_div_l; lra.
Qed.

Lemma geq_true a b : (b <= a)%Q -> Js.geq a b = true.
Proof. intros H. unfold Js.geq. apply Qle_bool_iff. exact H. Qed.

Lemma geq_false a b : (a < b)%Q -> Js.geq a b = false.
Proof.
  intros H. unfold Js.geq. destruct (Qle_bool b a) eqn:E; [|reflexivity].
  apply Qle_bool_iff in E. lra.
Qed.

Section LimiterRuns.
Import RateLimiter.

Lemma refillBucket_run w :
  refillBucket w
  = (Returned (available w), write_state (mkState (available w) (clock w)) w).
Proof.
  unfold refillBucket, bind, Date_now, detach, ret.
  rewrite getRateLimitState_run, updateRateLimitState_run. reflexivity.
Qed.

Lemma canExecute_run cost w :
  canExecute cost w
  = (Returned (Js.geq (available w) cost),
     write_state (mkState (available w) (clock w))
       (with_trace (trace w ++ [Checking cost]) w)).
Proof.
  unfold canExecute, bind, emit, ret. rewrite refillBucket_run. reflexivity.
Qed.

Lemma consume_run cost w :
  consume cost w
  = (Returned tt, debited cost (with_trace (trace w ++ [Consuming cost]) w)).
Proof.
  unfold consume, debited, bind, emit, detach, ret.
  rewrite getRateLimitState_run.
  change (persisted_state (with_trace (trace w ++ [Consuming cost]) w))
    with (persisted_state w).
  destruct (persisted_state w); [|reflexivity].
  rewrite updateRateLimitState_run. reflexivity.
Qed.

Lemma getWaitTimeMs_run cost w :
  getWaitTimeMs cost w
  = (Returned (if Js.geq (available w) cost then 0
               else Js.Math_ceil ((cost - available w) / REFILL_RATE * 1000)%Q),
     write_state (mkState (available w) (clock w)) w).
Proof.
  unfold getWaitTimeMs, bind, ret. rewrite refillBucket_run.
  destruct (Js.geq (available w) cost); reflexivity.
Qed.
End LimiterRuns.

(** ** The metrics layer, run *)

Lemma recordShopifyMetric_run ms w :
  MetricsPersistenceService.recordShopifyMetric ms w
  = (Returned tt, recorded "shopify" ms w).
Proof.
  unfold MetricsPersistenceService.recordShopifyMetric, recorded, bind,
    try_catch, detach, MetricsPersistenceService.failedConnection, Date_now, ret,
    MetricsPersistenceService.setEx_sample, MetricsPersistenceService.lPush,
    MetricsPersistenceService.expire, MetricsPersistenceService.incr,
    metrics_command.
  destruct w as [t ps pdb ms' mdb tr ur]; simpl.
  destruct ms'; reflexivity.
Qed.

Lemma recordEndpointMetric_run ms w :
  MetricsPersistenceService.recordEndpointMetric ms w
  = (Returned tt, recorded "endpoint" ms w).
Proof.
  unfold MetricsPersistenceService.recordEndpointMetric, recorded, bind,
    try_catch, detach, MetricsPersistenceService.failedConnection, Date_now, ret,
    MetricsPersistenceService.setEx_sample, MetricsPersistenceService.lPush,
    MetricsPersistenceService.expire, MetricsPersistenceService.incr,
    metrics_command.
  destruct w as [t ps pdb ms' mdb tr ur]; simpl.
  destruct ms'; reflexivity.
Qed.

Lemma recordShopifyCall_run ms w :
  MetricsService.recordShopifyCall ms w = (Returned tt, reported ms w).
Proof.
  unfold MetricsService.recordShopifyCall, reported, bind, emit, detach.
  rewrite recordShopifyMetric_run. reflexivity.
Qed.

(** ** Frame properties of the effects *)

Ltac crush_world w :=
  destruct w as [? [] ? [] ? ? ?]; reflexivity.

Lemma clock_write_state s w : clock (write_state s w) = clock w.
Proof. unfold write_state. crush_world w. Qed.

Lemma trace_write_state s w : trace (write_state s w) = trace w.
Proof. unfold write_state. crush_world w. Qed.

Lemma products_status_write_state s w :
  products_status (write_state s w) = products_status w.
Proof. unfold write_state. crush_world w. Qed.

Lemma metrics_status_write_state s w :
  metrics_status (write_state s w) = metrics_status w.
Proof. unfold write_state. crush_world w. Qed.

Lemma metrics_db_write_state s w : metrics_db (write_state s w) = metrics_db w.
Proof. unfold write_state. crush_world w. Qed.

Lemma clock_recorded class ms w : clock (recorded class ms w) = clock w.
Proof. unfold recorded. crush_world w. Qed.

Lemma trace_recorded class ms w : trace (recorded class ms w) = trace w.
Proof. unfold recorded. crush_world w. Qed.

Lemma products_status_recorded class ms w :
  products_status (recorded class ms w) = products_status w.
Proof. unfold recorded. crush_world w. Qed.

Lemma metrics_status_recorded class ms w :
  metrics_status (recorded class ms w) = metrics_status w.
Proof. unfold recorded. crush_world w. Qed.

Lemma products_db_recorded class ms w :
  products_db (recorded class ms w) = products_db w.
Proof. unfold recorded. crush_world w. Qed.

Lemma clock_debited cost w : clock (debited cost w) = clock w.
Proof.
  unfold debited. destruct (persisted_state w); [apply clock_write_state | reflexivity].
Qed.

Lemma trace_debited cost w : trace (debited cost w) = trace w.
Proof.
  unfold debited. destruct (persisted_state w); [apply trace_write_state | reflexivity].
Qed.

Lemma products_status_debited cost w :
  products_status (debited cost w) = products_status w.
Proof.
  unfold debited.
  destruct (persisted_state w); [apply products_status_write_state | reflexivity].
Qed.

Lemma metrics_status_debited cost w :
  metrics_status (debited cost w) = metrics_status w.
Proof.
  unfold debited.
  destruct (persisted_state w); [apply metrics_status_write_state | reflexivity].
Qed.

Lemma metrics_db_debited cost w : metrics_db (debited cost w) = metrics_db w.
Proof.
  unfold debited.
  destruct (persisted_state w); [apply metrics_db_write_state | reflexivity].
Qed.

Lemma clock_reported ms w : clock (reported ms w) = clock w.
Proof. unfold reported. rewrite clock_recorded. reflexivity. Qed.

Lemma trace_reported ms w :
  trace (reported ms w) = trace w ++ [ShopifyCallReported ms].
Proof. unfold reported. rewrite trace_recorded. reflexivity. Qed.

Lemma products_status_reported ms w :
  products_status (reported ms w) = products_status w.
Proof. unfold reported. rewrite products_status_recorded. reflexivity. Qed.

Lemma products_db_reported ms w : products_db (reported ms w) = products_db w.
Proof. unfold reported. rewrite products_db_recorded. reflexivity. Qed.

Lemma metrics_status_reported ms w :
  metrics_status (reported ms w) = metrics_status w.
Proof. unfold reported. rewrite metrics_status_recorded. reflexivity. Qed.

Lemma clock_gated w : clock (gated w) = clock w.
Proof. unfold gated. rewrite clock_write_state. reflexivity. Qed.

Lemma trace_gated w : trace (gated w) = trace w ++ [Checking 10%Q].
Proof. unfold gated. rewrite trace_write_state. reflexivity. Qed.

Lemma products_status_gated w : products_status (gated w) = products_status w.
Proof.
  unfold gated. rewrite products_status_write_state. reflexivity.
Qed.

Lemma metrics_status_gated w : metrics_status (gated w) = metrics_status w.
Proof.
  unfold gated. rewrite metrics_status_write_state. reflexivity.
Qed.

Lemma metrics_db_gated w : metrics_db (gated w) = metrics_db w.
Proof. unfold gated. rewrite metrics_db_write_state. reflexivity. Qed.

(** The reads of the products client depend on its status, its database
    and the clock only. *)
Lemma persisted_state_ext w w' :
  products_status w = products_status w' -> products_db w = products_db w' ->
  clock w = clock w' -> persisted_state w = persisted_state w'.
Proof. intros H1 H2 H3. unfold persisted_state. rewrite H1, H2, H3. reflexivity. Qed.

Create Rewrite HintDb world.
#[local] Hint Rewrite
  clock_write_state trace_write_state products_status_write_state
  metrics_status_write_state metrics_db_write_state
  clock_recorded trace_recorded products_status_recorded
  metrics_status_recorded products_db_recorded
  clock_debited trace_debited products_status_debited metrics_status_debited
  metrics_db_debited
  clock_reported trace_reported products_status_reported products_db_reported
  metrics_status_reported
  clock_gated trace_gated products_status_gated metrics_status_gated
  metrics_db_gated : world.

(** ** The orchestrator, run *)

Lemma charged_number body cost :
  actualQueryCost body = Some cost -> charged body = Some cost.
Proof.
  unfold actualQueryCost, charged.
  destruct (extensions_cost body) as [[q| |]|]; try discriminate.
  intros [= ->]. reflexivity.
Qed.

Lemma executeQuery_run shopify req w :
  ProductService.executeQuery shopify req w = answered shopify req w.
Proof.
  unfold ProductService.executeQuery, answered.
  unfold bind at 1. unfold spawn. rewrite canExecute_run. cbv beta iota.
  fold (gated w).
  unfold Js.ToBoolean, negb. cbv iota.
  unfold bind at 1. unfold ret at 1. cbv beta iota.
  unfold bind at 1. unfold Date_now at 1. cbv beta iota.
  unfold try_catch, ProductService.api_post.
  unfold bind at 1. cbv beta iota zeta.
  rewrite clock_gated.
  set (exchange := shopify (clock w) req).
  assert (with_clock (clock w + Z.of_N (latency exchange))
            (with_trace (trace (gated w) ++ [Posted req]) (gated w))
          = posted req (latency exchange) (gated w)) as ->.
  { unfold posted. rewrite clock_gated. reflexivity. }
  set (w2 := posted req (latency exchange) (gated w)).
  assert (clock w2 - clock w = Z.of_N (latency exchange)) as Htook.
  { unfold w2, posted. simpl. rewrite clock_gated. lia. }
  destruct (reply exchange) as [reason | status | body]; cbv beta iota.
  - unfold bind, Date_now, detach, throw.
    rewrite recordShopifyCall_run, Htook. reflexivity.
  - unfold bind, Date_now, detach, throw.
    rewrite recordShopifyCall_run, Htook. reflexivity.
  - unfold charged.
    destruct (extensions_cost body) as [c|]; cbn [fmap option_fmap option_map].
    + unfold bind at 1. unfold ret at 1. cbv beta iota.
      generalize (RateLimiter.queryComplexity_of c) as cost. intros cost.
      unfold bind at 1. rewrite consume_run. cbv beta iota.
      unfold bind at 1. unfold Date_now at 1. cbv beta iota.
      unfold bind at 1. unfold detach at 1.
      rewrite recordShopifyCall_run. cbv beta iota.
      rewrite clock_debited.
      change (clock (with_trace (trace w2 ++ [Consuming cost]) w2))
        with (clock w2).
      rewrite Htook. unfold snd.
      destruct (errors body) as [errs|].
      * unfold throw at 1. cbv beta iota.
        unfold bind, Date_now, detach, throw.
        rewrite recordShopifyCall_run. unfold snd.
        rewrite clock_reported, clock_debited.
        change (clock (with_trace (trace w2 ++ [Consuming cost]) w2))
          with (clock w2).
        rewrite Htook. reflexivity.
      * reflexivity.
    + unfold bind at 1. unfold throw at 1. cbv beta iota.
      unfold bind, Date_now, detach, throw.
      rewrite recordShopifyCall_run, Htook. reflexivity.
Qed.

Lemma getProductById_run shopify id w :
  ProductService.getProductById shopify id w = product_found shopify id w.
Proof.
  unfold ProductService.getProductById, product_found, try_catch.
  unfold bind at 1. rewrite getCachedProduct_run. cbv beta iota zeta.
  destruct (cached_product _ w) as [cached|]; [reflexivity|].
  unfold bind at 1. rewrite executeQuery_run.
  destruct (answered shopify _ w) as [[[response|]|e] w']; try reflexivity.
  destruct (product response) as [raw|]; [|reflexivity].
  unfold bind, detach, ret. rewrite cacheProduct_run. reflexivity.
Qed.

Lemma listProducts_run shopify limit cursor w :
  ProductService.listProducts shopify limit cursor w
  = page_listed shopify limit cursor w.
Proof.
  unfold ProductService.listProducts, page_listed, try_catch.
  unfold bind at 1. rewrite getCachedProductsList_run. cbv beta iota zeta.
  destruct (ProductService.usable _ limit) as [cached|]; [reflexivity|].
  unfold bind at 1. rewrite executeQuery_run. fold (clamped limit).
  destruct (answered shopify _ w) as [[[response|]|e] w']; try reflexivity.
  destruct (products response) as [connection|]; [|reflexivity].
  unfold bind, detach, ret. rewrite cacheProductsList_run. reflexivity.
Qed.

(** ** The token bucket *)

Lemma persisted_state_connected w s :
  persisted_state w = Some s -> products_status w = Connected.
Proof.
  unfold persisted_state. destruct (products_status w); congruence.
Qed.

Lemma persisted_state_with_trace tr w :
  persisted_state (with_trace tr w) = persisted_state w.
Proof. reflexivity. Qed.

Lemma available_with_trace tr w : available (with_trace tr w) = available w.
Proof. reflexivity. Qed.

(** C3, as stated, fails: [consume] writes [points - cost] back without
    clamping, so a bucket holding 5 points is left at -5 by a query whose
    actual cost is 10; and [refillBucket] adds a negative amount when the
    state carries a [lastRefillTime] ahead of the reader's clock (written
    by an instance whose clock runs ahead), so an empty bucket stamped
    one second ahead is written back at -50. *)
Lemma C3_writes_leave_the_bounds :
  bucket_ok (mkState 5 0)
  /\ persisted_state (world_with_bucket 0 (mkState 5 0)) = Some (mkState 5 0)
  /\ (exists s',
        persisted_state
          (snd (RateLimiter.consume 10 (world_with_bucket 0 (mkState 5 0))))
        = Some s'
        /\ (points s' == -5)%Q
        /\ ~ bucket_ok s')
  /\ bucket_ok (mkState 0 1000)
  /\ persisted_state (world_with_bucket 0 (mkState 0 1000))
     = Some (mkState 0 1000)
  /\ (exists s',
        persisted_state
          (snd (RateLimiter.refillBucket (world_with_bucket 0 (mkState 0 1000))))
        = Some s'
        /\ (points s' == -50)%Q
        /\ ~ bucket_ok s').
Proof.
  split; [unfold bucket_ok, RateLimiter.MAX_POINTS; simpl; lra|].
  split; [reflexivity|].
  split.
  { exists (mkState (5 - 10) 0). split; [reflexivity|].
    split; [reflexivity|].
    unfold bucket_ok; simpl. intros [H _]. revert H. unfold Qle; simpl. lia. }
  split; [unfold bucket_ok, RateLimiter.MAX_POINTS; simpl; lra|].
  split; [reflexivity|].
  eexists. split; [reflexivity|].
  split; [reflexivity|].
  unfold bucket_ok. intros [H _]. revert H. vm_compute. congruence.
Qed.

(** C3, amended: from a persisted state within the bounds, read no earlier
    than its [lastRefillTime], [refillBucket] writes back a state within
    the bounds; [consume(cost)] writes back [points - cost] with the same
    [lastRefillTime], which is within the bounds when
    [0 <= cost <= points]. *)
Theorem C3_bounds_preserved (w : World) (s : RateLimitState) (cost : Q)
    (Hs : persisted_state w = Some s)
    (Hok : bucket_ok s)
    (Hnow : lastRefillTime s <= clock w)
    (Hcost : (0 <= cost /\ cost <= points s)%Q) :
  (exists s1,
     persisted_state (snd (RateLimiter.refillBucket w)) = Some s1
     /\ bucket_ok s1)
  /\ (exists s2,
        persisted_state (snd (RateLimiter.consume cost w)) = Some s2
        /\ s2 = mkState (points s - cost)%Q (lastRefillTime s)
        /\ bucket_ok s2).
Proof.
  pose proof (persisted_state_connected _ _ Hs) as Hup.
  destruct Hok as [Hlo Hhi]. destruct Hcost as [Hc0 Hc1].
  split.
  - rewrite refillBucket_run. unfold snd.
    eexists. split; [apply persisted_write_state; exact Hup|].
    unfold bucket_ok, available, refill_base. rewrite Hs. simpl.
    split; [apply refilled_nonneg; assumption | apply refilled_le_max].
  - rewrite consume_run. unfold snd, debited.
    rewrite persisted_state_with_trace, Hs.
    eexists. split; [apply persisted_write_state; exact Hup|].
    split; [reflexivity|].
    unfold bucket_ok, RateLimiter.MAX_POINTS in *. simpl. split; lra.
Qed.

Lemma C3_bounds_preserved_witness :
  exists s2,
    persisted_state
      (snd (RateLimiter.consume 10 (world_with_bucket 0 (mkState 40 0))))
    = Some s2
    /\ bucket_ok s2.
Proof.
  destruct (C3_bounds_preserved (world_with_bucket 0 (mkState 40 0))
              (mkState 40 0) 10) as [_ [s2 [H2 [_ Hok]]]].
  - reflexivity.
  - unfold bucket_ok, RateLimiter.MAX_POINTS. simpl. split; unfold Qle; simpl; lia.
  - simpl. lia.
  - simpl. split; unfold Qle; simpl; lia.
  - exists s2. split; assumption.
Defined.

(** The upper bound needs no assumption at all. *)
Lemma refillBucket_capped w :
  exists a, fst (RateLimiter.refillBucket w) = Returned a
            /\ (a <= RateLimiter.MAX_POINTS)%Q.
Proof.
  rewrite refillBucket_run. eexists. split; [reflexivity|].
  apply refilled_le_max.
Qed.

(** C4: [refillBucket] works from the persisted state, or from
    [{MAX_POINTS, now}] when there is none; it returns
    [min(MAX_POINTS, points + (now - lastRefillTime) / 1000 * REFILL_RATE)]
    and persists it with [now]; from an empty bucket it makes [MAX_POINTS]
    available, so [canExecute(cost)] holds for every [cost <= MAX_POINTS],
    then and on the next call. *)
Theorem C4_refillBucket (w : World) (cost : Q) (later_on : Z)
    (Hcost : (cost <= RateLimiter.MAX_POINTS)%Q)
    (Hlater : 0 <= later_on) :
  let now := clock w in
  let formula (s : RateLimitState) : Q :=
    Qmin 1000 (points s + inject_Z (now - lastRefillTime s) / 1000 * 50)%Q in
  RateLimiter.MAX_POINTS = 1000%Q /\ RateLimiter.REFILL_RATE = 50%Q /\
  match persisted_state w with
  | Some s =>
      fst (RateLimiter.refillBucket w) = Returned (formula s)
      /\ persisted_state (snd (RateLimiter.refillBucket w))
         = Some (mkState (formula s) now)
  | None =>
      fst (RateLimiter.refillBucket w)
      = Returned (formula (mkState RateLimiter.MAX_POINTS now))
      /\ (formula (mkState RateLimiter.MAX_POINTS now) == RateLimiter.MAX_POINTS)%Q
      /\ persisted_state (snd (RateLimiter.refillBucket w))
         = match products_status w with
           | Connected => Some (mkState (formula (mkState RateLimiter.MAX_POINTS now)) now)
           | _ => None
           end
      /\ fst (RateLimiter.canExecute cost w) = Returned true
      /\ fst (RateLimiter.canExecute cost
                (later later_on (snd (RateLimiter.refillBucket w))))
         = Returned true
  end.
Proof.
  intros now formula. split; [reflexivity|]. split; [reflexivity|].
  rewrite refillBucket_run. unfold fst, snd.
  destruct (persisted_state w) as [s|] eqn:Hs.
  - split.
    + unfold available, refill_base. rewrite Hs. reflexivity.
    + rewrite persisted_write_state by (eapply persisted_state_connected; eauto).
      unfold available, refill_base. rewrite Hs. reflexivity.
  - assert (available w = formula (mkState RateLimiter.MAX_POINTS now)) as Hav.
    { unfold available, refill_base. rewrite Hs. reflexivity. }
    assert (formula (mkState RateLimiter.MAX_POINTS now) == RateLimiter.MAX_POINTS)%Q
      as Hfull.
    { apply (refilled_full now now). lia. }
    rewrite Hav.
    split; [reflexivity|]. split; [exact Hfull|].
    split.
    { destruct (products_status w) eqn:Hst.
      - apply persisted_write_state; assumption.
      - apply persisted_write_state_down; congruence.
      - apply persisted_write_state_down; congruence. }
    split.
    + rewrite canExecute_run. unfold fst. f_equal. apply geq_true.
      rewrite Hav, Hfull. exact Hcost.
    + rewrite canExecute_run. unfold fst. f_equal. apply geq_true.
      eapply Qle_trans; [exact Hcost|].
      unfold available, refill_base, later.
      set (w1 := write_state _ w).
      destruct (products_status w) eqn:Hst.
      * assert (persisted_state (with_clock (clock w1 + later_on) w1)
                = Some (mkState (formula (mkState RateLimiter.MAX_POINTS now)) now))
          as ->.
        { unfold persisted_state, w1, write_state. rewrite Hst. simpl.
          rewrite Hst. unfold Redis.get, Redis.find, Redis.set.
          rewrite lookup_insert_eq. reflexivity. }
        simpl. unfold w1. rewrite clock_write_state. fold now.
        unfold RateLimiter.refilled, Js.Math_min. simpl.
        apply Q.min_glb; [lra|].
        assert (0 <= inject_Z (now + later_on - now))%Q as Hd.
        { change 0%Q with (inject_Z 0). rewrite <- Zle_Qle. lia. }
        set (d := inject_Z _) in *.
        assert (0 <= d / 1000 * RateLimiter.REFILL_RATE)%Q.
        { unfold RateLimiter.REFILL_RATE.
          apply Qmult_le_0_compat; [|lra]. apply Qle_shift_div_l; lra. }
        rewrite Hfull. lra.
      * assert (persisted_state (with_clock (clock w1 + later_on) w1) = None) as ->.
        { unfold persisted_state, w1, write_state. rewrite Hst. simpl.
          rewrite Hst. reflexivity. }
        simpl. rewrite (refilled_full _ _ (Z.le_refl _)). lra.
      * assert (persisted_state (with_clock (clock w1 + later_on) w1) = None) as ->.
        { unfold persisted_state, w1, write_state. rewrite Hst. simpl.
          rewrite Hst. reflexivity. }
        simpl. rewrite (refilled_full _ _ (Z.le_refl _)). lra.
Qed.

Lemma C4_refillBucket_witness :
  fst (RateLimiter.canExecute 1000 (fresh_world 0)) = Returned true.
Proof.
  pose proof (C4_refillBucket (fresh_world 0) 1000 0) as H.
  simpl in H.
  destruct H as (_ & _ & _ & _ & _ & H & _).
  - unfold RateLimiter.MAX_POINTS, Qle; simpl; lia.
  - lia.
  - exact H.
Defined.

(** ** Traces of the orchestrator *)

Lemma trace_write_product gid p ttl w : trace (write_product gid p ttl w) = trace w.
Proof. unfold write_product. crush_world w. Qed.

Lemma trace_write_page cursor pg ttl w : trace (write_page cursor pg ttl w) = trace w.
Proof. unfold write_page. crush_world w. Qed.

Lemma trace_with_trace tr w : trace (with_trace tr w) = tr.
Proof. reflexivity. Qed.

Lemma trace_answered shopify req w :
  trace (snd (answered shopify req w))
  = trace w ++ [Checking 10%Q; Posted req] ++ settlement (shopify (clock w) req).
Proof.
  unfold answered, settlement.
  set (exchange := shopify (clock w) req).
  assert (trace (posted req (latency exchange) (gated w))
          = trace w ++ [Checking 10%Q; Posted req]) as Hposted.
  { unfold posted. simpl. rewrite trace_gated, <- app_assoc. reflexivity. }
  destruct (reply exchange) as [reason | status | body]; unfold snd.
  - rewrite trace_reported, Hposted, <- app_assoc. reflexivity.
  - rewrite trace_reported, Hposted, <- app_assoc. reflexivity.
  - destruct (charged body) as [cost|].
    + destruct (errors body) as [errs|]; unfold snd;
        rewrite ?trace_reported, trace_debited, trace_with_trace, Hposted,
          <- ?app_assoc; reflexivity.
    + rewrite trace_reported, Hposted, <- app_assoc. reflexivity.
Qed.

Lemma sleeps_app tr1 tr2 : sleeps (tr1 ++ tr2) = sleeps tr1 ++ sleeps tr2.
Proof.
  induction tr1 as [|e tr1 IH]; [reflexivity|].
  destruct e; simpl; rewrite IH; reflexivity.
Qed.

Lemma posts_app tr1 tr2 : posts (tr1 ++ tr2) = posts tr1 ++ posts tr2.
Proof.
  induction tr1 as [|e tr1 IH]; [reflexivity|].
  destruct e; simpl; rewrite IH; reflexivity.
Qed.

Lemma shopify_reports_app tr1 tr2 :
  shopify_reports (tr1 ++ tr2) = shopify_reports tr1 ++ shopify_reports tr2.
Proof.
  induction tr1 as [|e tr1 IH]; [reflexivity|].
  destruct e; simpl; rewrite IH; reflexivity.
Qed.

Lemma sleeps_settlement exchange : sleeps (settlement exchange) = [].
Proof.
  unfold settlement. destruct (reply exchange) as [| |body]; try reflexivity.
  destruct (charged body); [destruct (errors body)|]; reflexivity.
Qed.

Lemma posts_settlement exchange : posts (settlement exchange) = [].
Proof.
  unfold settlement. destruct (reply exchange) as [| |body]; try reflexivity.
  destruct (charged body); [destruct (errors body)|]; reflexivity.
Qed.

(** X11. The gate of [executeQuery] never sleeps, whatever the bucket
    holds: the promise of [canExecute] is tested, not its value. *)
Lemma executeQuery_never_sleeps shopify req w :
  sleeps (trace (snd (ProductService.executeQuery shopify req w)))
  = sleeps (trace w).
Proof.
  rewrite executeQuery_run, trace_answered, !sleeps_app, sleeps_settlement.
  simpl. rewrite app_nil_r. reflexivity.
Qed.

(** Every query that is executed is posted exactly once. *)
Lemma executeQuery_posts_once shopify req w :
  posts (trace (snd (ProductService.executeQuery shopify req w)))
  = posts (trace w) ++ [req].
Proof.
  rewrite executeQuery_run, trace_answered, !posts_app, posts_settlement.
  reflexivity.
Qed.

(** C1, at an empty bucket: [canExecute(10)] resolves to false and the
    wait would be 200 ms, yet [getProductById] posts its query without
    sleeping. *)
Theorem C1_empty_bucket_not_waited_for :
  let w := world_with_bucket 0 (mkState 0 0) in
  let shopify := serving (product_body (Some sample_node) 7) 120 in
  fst (RateLimiter.canExecute 10 w) = Returned false
  /\ fst (RateLimiter.getWaitTimeMs 10 w) = Returned 200
  /\ cached_product "gid://shopify/Product/1" w = None
  /\ trace (snd (ProductService.getProductById shopify "1" w))
     = [Checking 10%Q;
        Posted (GET_PRODUCT_BY_ID_QUERY "gid://shopify/Product/1");
        Consuming 7%Q;
        ShopifyCallReported 120]
  /\ sleeps (trace (snd (ProductService.getProductById shopify "1" w))) = [].
Proof. vm_compute. repeat split; reflexivity. Qed.

(** ** Redis commands, read back *)

Section RedisFacts.
Context {A : Type}.
Implicit Types (m : gmap string (Redis.Entry A)) (key : string).

Lemma find_insert_eq now m key (e : Redis.Entry A) :
  Redis.find now (<[key := e]> m) key = if Redis.live now e then Some e else None.
Proof. unfold Redis.find. rewrite lookup_insert_eq. reflexivity. Qed.

Lemma find_insert_ne now m key key' (e : Redis.Entry A) :
  key <> key' -> Redis.find now (<[key := e]> m) key' = Redis.find now m key'.
Proof. intros H. unfold Redis.find. rewrite lookup_insert_ne by exact H. reflexivity. Qed.

Lemma find_live now m key (e : Redis.Entry A) :
  Redis.find now m key = Some e -> Redis.live now e = true.
Proof.
  unfold Redis.find. destruct (m !! key) as [e'|]; [|discriminate].
  destruct (Redis.live now e') eqn:E; [|discriminate].
  intros [= <-]. exact E.
Qed.

Lemma live_fresh now now' seconds (v : A) :
  now <= now' < now + seconds * 1000 ->
  Redis.live now' (Redis.mkEntry v (Some (now + seconds * 1000))) = true.
Proof. intros H. unfold Redis.live. simpl. apply Z.ltb_lt. lia. Qed.

Lemma find_expire_ne now m key key' seconds :
  key <> key' ->
  Redis.find now (Redis.expire now m key seconds) key' = Redis.find now m key'.
Proof.
  intros H. unfold Redis.expire.
  destruct (Redis.find now m key); [apply find_insert_ne; exact H | reflexivity].
Qed.

Lemma lookup_expire_ne now m key key' seconds :
  key <> key' -> Redis.expire now m key seconds !! key' = m !! key'.
Proof.
  intros H. unfold Redis.expire.
  destruct (Redis.find now m key); [apply lookup_insert_ne; exact H | reflexivity].
Qed.

(** After EXPIRE, a key that was there is read with its old payload for
    the whole of the new TTL. *)
Lemma find_expire_eq now now' m key seconds (e : Redis.Entry A) :
  Redis.find now m key = Some e ->
  now <= now' < now + seconds * 1000 ->
  Redis.find now' (Redis.expire now m key seconds) key
  = Some (Redis.mkEntry (Redis.payload e) (Some (now + seconds * 1000))).
Proof.
  intros Hfind Ht. unfold Redis.expire. rewrite Hfind, find_insert_eq.
  rewrite live_fresh by exact Ht. reflexivity.
Qed.

Lemma get_setEx now now' m key seconds (v : A) :
  now <= now' < now + seconds * 1000 ->
  Redis.get now' (Redis.setEx now m key seconds v) key = Some v.
Proof.
  intros Ht. unfold Redis.get, Redis.setEx. rewrite find_insert_eq.
  rewrite live_fresh by exact Ht. reflexivity.
Qed.

Lemma lookup_del_in m key (keys : list string) :
  In key keys -> Redis.del m keys !! key = None.
Proof.
  unfold Redis.del. revert m.
  induction keys as [|k keys IH]; intros m Hin; [destruct Hin|].
  simpl. destruct (decide (key ∈ keys)) as [Hk|Hk].
  - apply IH. apply list_elem_of_In. exact Hk.
  - destruct Hin as [->|Hin]; [|exfalso; apply Hk, list_elem_of_In, Hin].
    clear IH. revert m. induction keys as [|k' keys IH]; intros m.
    + simpl. apply lookup_delete_eq.
    + simpl. rewrite not_elem_of_cons in Hk. destruct Hk as [Hne Hk].
      rewrite delete_delete. apply IH. exact Hk.
Qed.
End RedisFacts.

Lemma find_lPush now m key x :
  exists d,
    Redis.find now (Redis.lPush now m key x) key
    = Some (Redis.mkEntry (x :: Redis.lRange now m key) d).
Proof.
  unfold Redis.lPush, Redis.lRange.
  destruct (Redis.find now m key) as [e|] eqn:Hfind.
  - exists (Redis.deadline e). rewrite find_insert_eq.
    pose proof (find_live _ _ _ _ Hfind) as Hlive.
    unfold Redis.live in *. simpl. rewrite Hlive. reflexivity.
  - exists None. rewrite find_insert_eq. reflexivity.
Qed.

Lemma find_incr now m key :
  exists d,
    Redis.find now (Redis.incr now m key) key
    = Some (Redis.mkEntry (default 0 (Redis.get now m key) + 1) d).
Proof.
  unfold Redis.incr, Redis.get.
  destruct (Redis.find now m key) as [e|] eqn:Hfind.
  - exists (Redis.deadline e). rewrite find_insert_eq.
    pose proof (find_live _ _ _ _ Hfind) as Hlive.
    unfold Redis.live in *. simpl. rewrite Hlive. reflexivity.
  - exists None. rewrite find_insert_eq. reflexivity.
Qed.

Lemma times_calls_differ class :
  "metrics:" +:+ class +:+ ":times" <> "metrics:" +:+ class +:+ ":calls".
Proof.
  intros H. apply (inj (String.app "metrics:")) in H.
  apply (inj (String.app class)) in H. discriminate.
Qed.

(** A sample recorded at [now] is read, with what the window held at
    [now], for the next 3600 seconds. *)
Lemma record_db_samples class now now' ms db :
  now <= now' < now + 3600 * 1000 ->
  Redis.lRange now' (times_keys (record_db class now ms db))
    ("metrics:" +:+ class +:+ ":times")
  = Js.toString ms
    :: Redis.lRange now (times_keys db) ("metrics:" +:+ class +:+ ":times").
Proof.
  intros Ht. unfold record_db. cbv zeta. simpl times_keys.
  pose proof (times_calls_differ class) as Hne.
  set (times := "metrics:" +:+ class +:+ ":times") in *.
  set (calls := "metrics:" +:+ class +:+ ":calls") in *.
  destruct (find_lPush now (times_keys db) times (Js.toString ms)) as [d Hpush].
  unfold Redis.lRange at 1. unfold Redis.find.
  rewrite lookup_expire_ne by congruence.
  fold (Redis.find now' (Redis.expire now
          (Redis.lPush now (times_keys db) times (Js.toString ms)) times 3600) times).
  rewrite (find_expire_eq _ _ _ _ _ _ Hpush Ht). reflexivity.
Qed.

Lemma record_db_calls class now now' ms db :
  now <= now' < now + 3600 * 1000 ->
  Redis.get now' (calls_keys (record_db class now ms db))
    ("metrics:" +:+ class +:+ ":calls")
  = Some (default 0 (Redis.get now (calls_keys db)
                       ("metrics:" +:+ class +:+ ":calls")) + 1).
Proof.
  intros Ht. unfold record_db. cbv zeta. simpl calls_keys.
  pose proof (times_calls_differ class) as Hne.
  set (times := "metrics:" +:+ class +:+ ":times") in *.
  set (calls := "metrics:" +:+ class +:+ ":calls") in *.
  set (m1 := Redis.expire now (calls_keys db) times 3600).
  assert (Redis.get now m1 calls = Redis.get now (calls_keys db) calls) as Hsame.
  { unfold Redis.get, m1. rewrite find_expire_ne by exact Hne. reflexivity. }
  destruct (find_incr now m1 calls) as [d Hincr].
  unfold Redis.get at 1.
  rewrite (find_expire_eq _ _ _ _ _ _ Hincr Ht). simpl.
  rewrite Hsame. reflexivity.
Qed.

(** ** The metric windows *)

Lemma window_samples_recorded class ms now' w :
  metrics_status w = Connected ->
  clock w <= now' < clock w + 3600 * 1000 ->
  window_samples class now' (recorded class ms w)
  = Js.toString ms :: window_samples class (clock w) w.
Proof.
  intros Hup Ht. unfold window_samples, recorded. rewrite Hup. simpl.
  apply record_db_samples. exact Ht.
Qed.

Lemma window_calls_recorded class ms now' w :
  metrics_status w = Connected ->
  clock w <= now' < clock w + 3600 * 1000 ->
  window_calls class now' (recorded class ms w)
  = window_calls class (clock w) w + 1.
Proof.
  intros Hup Ht. unfold window_calls, recorded. rewrite Hup.
  change (metrics_db (with_metrics_db ?db w)) with db.
  rewrite record_db_calls by exact Ht. reflexivity.
Qed.

Lemma window_samples_ext class now w w' :
  metrics_db w = metrics_db w' ->
  window_samples class now w = window_samples class now w'.
Proof. intros H. unfold window_samples. rewrite H. reflexivity. Qed.

Lemma window_calls_ext class now w w' :
  metrics_db w = metrics_db w' ->
  window_calls class now w = window_calls class now w'.
Proof. intros H. unfold window_calls. rewrite H. reflexivity. Qed.

Lemma window_samples_reported ms w :
  metrics_status w = Connected ->
  window_samples "shopify" (clock w) (reported ms w)
  = Js.toString ms :: window_samples "shopify" (clock w) w.
Proof.
  intros Hup. unfold reported.
  rewrite (window_samples_recorded "shopify" ms (clock w)
             (with_trace (trace w ++ [ShopifyCallReported ms]) w)).
  - reflexivity.
  - exact Hup.
  - simpl. lia.
Qed.

Lemma window_calls_reported ms w :
  metrics_status w = Connected ->
  window_calls "shopify" (clock w) (reported ms w)
  = window_calls "shopify" (clock w) w + 1.
Proof.
  intros Hup. unfold reported.
  rewrite (window_calls_recorded "shopify" ms (clock w)
             (with_trace (trace w ++ [ShopifyCallReported ms]) w)).
  - reflexivity.
  - exact Hup.
  - simpl. lia.
Qed.

Lemma metrics_db_reported_down ms w :
  metrics_status w <> Connected -> metrics_db (reported ms w) = metrics_db w.
Proof.
  intros H. unfold reported, recorded. simpl.
  destruct (metrics_status w) eqn:E; [congruence | reflexivity | reflexivity].
Qed.

(** ** Settlement of the budget *)

Lemma products_status_posted req took w :
  products_status (posted req took w) = products_status w.
Proof. reflexivity. Qed.

Lemma metrics_status_posted req took w :
  metrics_status (posted req took w) = metrics_status w.
Proof. reflexivity. Qed.

Lemma metrics_db_posted req took w : metrics_db (posted req took w) = metrics_db w.
Proof. reflexivity. Qed.

Lemma clock_posted req took w : clock (posted req took w) = clock w + Z.of_N took.
Proof. reflexivity. Qed.

Lemma persisted_state_down w :
  products_status w <> Connected -> persisted_state w = None.
Proof.
  intros H. unfold persisted_state.
  destruct (products_status w); [congruence | reflexivity | reflexivity].
Qed.

(** After the gate, the bucket reads as refilled, at any later time. *)
Lemma persisted_state_posted_gated req took w :
  products_status w = Connected ->
  persisted_state (posted req took (gated w))
  = Some (mkState (available w) (clock w)).
Proof.
  intros Hup. unfold persisted_state, posted, gated, write_state. simpl.
  rewrite Hup. simpl. rewrite Hup.
  unfold Redis.get, Redis.find, Redis.set. rewrite lookup_insert_eq. reflexivity.
Qed.

Lemma persisted_state_reported ms w :
  persisted_state (reported ms w) = persisted_state w.
Proof.
  apply persisted_state_ext; autorewrite with world; reflexivity.
Qed.

Lemma persisted_state_settled req took cost tr w :
  persisted_state
    (debited cost (with_trace tr (posted req took (gated w))))
  = match products_status w with
    | Connected => Some (mkState (available w - cost)%Q (clock w))
    | _ => None
    end.
Proof.
  destruct (products_status w) eqn:Hup.
  - unfold debited. rewrite persisted_state_with_trace.
    rewrite persisted_state_posted_gated by exact Hup. simpl.
    apply persisted_write_state. simpl.
    rewrite products_status_gated. exact Hup.
  - apply persisted_state_down.
    rewrite products_status_debited. simpl.
    rewrite products_status_gated. congruence.
  - apply persisted_state_down.
    rewrite products_status_debited. simpl.
    rewrite products_status_gated. congruence.
Qed.

(** C7: every query is gated with the estimate of 10 points before it is
    posted; one that gets a 2xx answer carrying [actualQueryCost] is
    settled with the actual cost after: [consume] is called with the
    reported cost, and the persisted points are what the refill of the
    gate made available, less that cost. *)
Theorem C7_gate_estimate_settle_actual
    (shopify : Upstream) (req : Request) (w : World)
    (body : Body) (took : N) (cost : Q)
    (Hex : shopify (clock w) req = mkExchange (Replied body) took)
    (Hcost : actualQueryCost body = Some cost) :
  let w' := snd (ProductService.executeQuery shopify req w) in
  (forall req0 w0, exists rest,
      trace (snd (ProductService.executeQuery shopify req0 w0))
      = trace w0 ++ [Checking 10%Q; Posted req0] ++ rest)
  /\ (exists reports,
        trace w' = trace w ++ [Checking 10%Q; Posted req; Consuming cost] ++ reports
        /\ Forall (fun e => e = ShopifyCallReported (Z.of_N took)) reports)
  /\ persisted_state w'
     = match products_status w with
       | Connected => Some (mkState (available w - cost)%Q (clock w))
       | _ => None
       end.
Proof.
  intros w'. subst w'. split; [|rewrite executeQuery_run; split].
  - intros req0 w0. rewrite executeQuery_run, trace_answered.
    eexists. reflexivity.
  - rewrite trace_answered. unfold settlement. rewrite Hex. simpl.
    rewrite (charged_number _ _ Hcost).
    destruct (errors body); eexists; (split; [reflexivity|]);
      repeat constructor.
  - unfold answered. rewrite Hex. simpl reply. simpl latency. cbv iota beta zeta.
    rewrite (charged_number _ _ Hcost).
    destruct (errors body); unfold snd;
      rewrite ?persisted_state_reported; apply persisted_state_settled.
Qed.

Lemma C7_gate_estimate_settle_actual_witness :
  persisted_state
    (snd (ProductService.executeQuery
            (serving (product_body (Some sample_node) 7) 120)
            (GET_PRODUCT_BY_ID_QUERY "gid://shopify/Product/1")
            (fresh_world 0)))
  = Some (mkState (available (fresh_world 0) - 7)%Q 0).
Proof.
  apply (C7_gate_estimate_settle_actual
           (serving (product_body (Some sample_node) 7) 120)
           (GET_PRODUCT_BY_ID_QUERY "gid://shopify/Product/1")
           (fresh_world 0)
           (product_body (Some sample_node) 7) 120 7).
  - reflexivity.
  - reflexivity.
Defined.

(** ** Reporting of upstream calls *)

(** C10, as stated, fails on two inputs.  A 2xx body with an error list
    and no [extensions] makes [executeQuery] throw before its first
    report, so the call is reported once; and with the metrics client
    down the two reports of a call leave the counter and the sample list
    as they were. *)
Lemma C10_not_always_two_records :
  (let shopify := serving (rejected_body ["Parse error on query"]) 80 in
   let r := ProductService.executeQuery shopify
              (GET_PRODUCT_BY_ID_QUERY "gid://shopify/Product/1") (fresh_world 0) in
   fst r = Thrown TypeError
   /\ shopify_reports (trace (snd r)) = [80]
   /\ window_calls "shopify" 80 (snd r) = 1
   /\ window_samples "shopify" 80 (snd r) = ["80"])
  /\
  (let shopify := serving (failed_body ["Throttled"] 7) 80 in
   let r := ProductService.executeQuery shopify
              (GET_PRODUCT_BY_ID_QUERY "gid://shopify/Product/1")
              (metrics_down_world 0) in
   fst r = Thrown (Error "GraphQL Error: Throttled")
   /\ shopify_reports (trace (snd r)) = [80; 80]
   /\ window_calls "shopify" 80 (snd r) = 0
   /\ window_samples "shopify" 80 (snd r) = []).
Proof. vm_compute. repeat split; reflexivity. Qed.

(** C10, amended: when a 2xx body carries both [actualQueryCost] and an
    error list, [executeQuery] throws the aggregated error and reports the
    elapsed time of that one call twice; with the metrics client
    connected, the upstream call counter gains two and the sample list
    gains the same sample twice, and otherwise the metrics database is
    left as it was. *)
Theorem C10_errors_reported_twice
    (shopify : Upstream) (req : Request) (w : World)
    (body : Body) (took : N) (cost : Q) (errs : list string)
    (Hex : shopify (clock w) req = mkExchange (Replied body) took)
    (Hcost : actualQueryCost body = Some cost)
    (Herrs : errors body = Some errs) :
  let r := ProductService.executeQuery shopify req w in
  let w' := snd r in
  fst r = Thrown (Error ("GraphQL Error: " +:+ Js.join "; " errs))
  /\ posts (trace w') = posts (trace w) ++ [req]
  /\ shopify_reports (trace w')
     = shopify_reports (trace w) ++ [Z.of_N took; Z.of_N took]
  /\ match metrics_status w with
     | Connected =>
         window_calls "shopify" (clock w') w'
         = window_calls "shopify" (clock w') w + 2
         /\ window_samples "shopify" (clock w') w'
            = Js.toString (Z.of_N took) :: Js.toString (Z.of_N took)
              :: window_samples "shopify" (clock w') w
     | _ => metrics_db w' = metrics_db w
     end.
Proof.
  intros r w'. subst w' r.
  split; [|split; [apply executeQuery_posts_once|split]].
  - rewrite executeQuery_run. unfold answered.
    rewrite Hex. simpl reply. cbv iota beta zeta. rewrite (charged_number _ _ Hcost), Herrs.
    reflexivity.
  - rewrite executeQuery_run, trace_answered. unfold settlement.
    rewrite Hex. simpl reply. simpl latency. cbv iota beta zeta.
    rewrite (charged_number _ _ Hcost), Herrs.
    rewrite !shopify_reports_app. reflexivity.
  - rewrite executeQuery_run. unfold answered.
    rewrite Hex. simpl reply. simpl latency. cbv iota beta zeta.
    rewrite (charged_number _ _ Hcost), Herrs. unfold snd.
    set (w2 := debited cost _).
    assert (metrics_status w2 = metrics_status w) as Hst2.
    { unfold w2. rewrite metrics_status_debited. simpl.
      apply metrics_status_gated. }
    assert (metrics_db w2 = metrics_db w) as Hdb.
    { unfold w2. rewrite metrics_db_debited. simpl. apply metrics_db_gated. }
    set (ms := Z.of_N took).
    rewrite !clock_reported.
    destruct (metrics_status w) eqn:Hup.
    + split.
      * rewrite <- (clock_reported ms w2) at 1.
        rewrite window_calls_reported
          by (rewrite metrics_status_reported; exact Hst2).
        rewrite clock_reported, window_calls_reported by exact Hst2.
        rewrite (window_calls_ext _ _ _ _ Hdb). lia.
      * rewrite <- (clock_reported ms w2) at 1.
        rewrite window_samples_reported
          by (rewrite metrics_status_reported; exact Hst2).
        rewrite clock_reported, window_samples_reported by exact Hst2.
        rewrite (window_samples_ext _ _ _ _ Hdb). reflexivity.
    + rewrite !metrics_db_reported_down
        by (rewrite ?metrics_status_reported, Hst2; congruence).
      exact Hdb.
    + rewrite !metrics_db_reported_down
        by (rewrite ?metrics_status_reported, Hst2; congruence).
      exact Hdb.
Qed.

Lemma C10_errors_reported_twice_witness :
  shopify_reports
    (trace (snd (ProductService.executeQuery
                   (serving (failed_body ["Throttled"] 7) 80)
                   (GET_PRODUCT_BY_ID_QUERY "gid://shopify/Product/1")
                   (fresh_world 0))))
  = [80; 80].
Proof.
  apply (C10_errors_reported_twice
           (serving (failed_body ["Throttled"] 7) 80)
           (GET_PRODUCT_BY_ID_QUERY "gid://shopify/Product/1")
           (fresh_world 0) (failed_body ["Throttled"] 7) 80 7 ["Throttled"]).
  - reflexivity.
  - reflexivity.
  - reflexivity.
Defined.

(** ** Upstream failures *)

Lemma answered_failure shopify req w :
  upstream_failure (reply (shopify (clock w) req)) ->
  exists e, fst (answered shopify req w) = Thrown e.
Proof.
  unfold answered, upstream_failure.
  destruct (reply (shopify (clock w) req)) as [reason | status | body];
    intros Hfail; try (eexists; reflexivity).
  destruct Hfail as [errs Herrs]. rewrite Herrs.
  destruct (charged body); eexists; reflexivity.
Qed.

(** Whatever the upstream does, the two entry points return. *)
Lemma getProductById_returns shopify id w :
  exists found, fst (ProductService.getProductById shopify id w) = Returned found.
Proof.
  rewrite getProductById_run. unfold product_found.
  destruct (cached_product _ w); [eexists; reflexivity|].
  destruct (answered shopify _ w) as [[[response|]|e] w'];
    try (eexists; reflexivity).
  destruct (product response); eexists; reflexivity.
Qed.

Lemma listProducts_returns shopify limit cursor w :
  exists page,
    fst (ProductService.listProducts shopify limit cursor w) = Returned page.
Proof.
  rewrite listProducts_run. unfold page_listed.
  destruct (ProductService.usable _ limit); [eexists; reflexivity|].
  destruct (answered shopify _ w) as [[[response|]|e] w'];
    try (eexists; reflexivity).
  destruct (products response); eexists; reflexivity.
Qed.

(** C2, as stated, fails: with the upstream unreachable, or answering with
    a GraphQL error list, [getProductById] returns null, which is what it
    returns when the upstream reports that there is no such product; and
    [listProducts] returns an empty page. *)
Lemma C2_failure_reads_as_not_found :
  let id := "1" in
  let w := fresh_world 0 in
  fst (ProductService.getProductById (serving (product_body None 1) 30) id w)
  = Returned None
  /\ fst (ProductService.getProductById (unreachable 30) id w) = Returned None
  /\ fst (ProductService.getProductById
            (serving (failed_body ["Throttled"; "Try later"] 7) 30) id w)
     = Returned None
  /\ fst (ProductService.executeQuery
            (serving (failed_body ["Throttled"; "Try later"] 7) 30)
            (GET_PRODUCT_BY_ID_QUERY "gid://shopify/Product/1") w)
     = Thrown (Error "GraphQL Error: Throttled; Try later")
  /\ fst (ProductService.listProducts (unreachable 30) 10 None w)
     = Returned (mkPage [] false).
Proof. vm_compute. repeat split; reflexivity. Qed.

(** C2, amended: on an upstream failure [executeQuery] throws one error
    (for a body with [actualQueryCost] and an error list, the messages
    joined with "; " behind "GraphQL Error: "), and its two callers catch
    it: [getProductById] returns what the cache holds, null on a miss, and
    [listProducts] returns the usable cached page, or the empty page. *)
Theorem C2_failures_absorbed
    (shopify : Upstream) (id : string) (limit : Z) (cursor : option string)
    (w : World)
    (Hfail : forall req, upstream_failure (reply (shopify (clock w) req))) :
  (forall req, exists e,
      fst (ProductService.executeQuery shopify req w) = Thrown e)
  /\ (forall req body errs cost,
        reply (shopify (clock w) req) = Replied body ->
        errors body = Some errs ->
        actualQueryCost body = Some cost ->
        fst (ProductService.executeQuery shopify req w)
        = Thrown (Error ("GraphQL Error: " +:+ Js.join "; " errs)))
  /\ fst (ProductService.getProductById shopify id w)
     = Returned (cached_product ("gid://shopify/Product/" +:+ id) w)
  /\ fst (ProductService.listProducts shopify limit cursor w)
     = Returned (default (mkPage [] false)
                   (ProductService.usable (cached_page cursor w) limit)).
Proof.
  split; [|split; [|split]].
  - intros req. rewrite executeQuery_run. apply answered_failure, Hfail.
  - intros req body errs cost Hbody Herrs Hcost.
    rewrite executeQuery_run. unfold answered.
    rewrite Hbody, (charged_number _ _ Hcost), Herrs. reflexivity.
  - rewrite getProductById_run. unfold product_found.
    destruct (cached_product _ w); [reflexivity|].
    destruct (answered_failure shopify
                (GET_PRODUCT_BY_ID_QUERY ("gid://shopify/Product/" +:+ id)) w
                (Hfail _)) as [e He].
    destruct (answered shopify _ w) as [o w']. simpl in He. subst o.
    reflexivity.
  - rewrite listProducts_run. unfold page_listed.
    destruct (ProductService.usable _ limit); [reflexivity|].
    destruct (answered_failure shopify
                (GET_PRODUCTS_QUERY (clamped limit)
                   (ProductService.or_null cursor) "TITLE") w
                (Hfail _)) as [e He].
    destruct (answered shopify _ w) as [o w']. simpl in He. subst o.
    reflexivity.
Qed.

Lemma C2_failures_absorbed_witness :
  fst (ProductService.getProductById (unreachable 30) "1" (fresh_world 0))
  = Returned None.
Proof.
  apply (C2_failures_absorbed (unreachable 30) "1" 10 None (fresh_world 0)).
  intros req. simpl. exact I.
Defined.

(** ** The cache-aside read path *)

Lemma products_status_write_product gid p ttl w :
  products_status (write_product gid p ttl w) = products_status w.
Proof. unfold write_product. crush_world w. Qed.

Lemma clock_write_product gid p ttl w : clock (write_product gid p ttl w) = clock w.
Proof. unfold write_product. crush_world w. Qed.

(** A product written to the cache is read back until its TTL runs out. *)
Lemma cached_product_written gid p ttl gap w :
  products_status w = Connected ->
  0 <= gap < ttl * 1000 ->
  cached_product gid (later gap (write_product gid p ttl w)) = Some p.
Proof.
  intros Hup Hgap. unfold cached_product, later, write_product.
  rewrite Hup. simpl. rewrite Hup.
  apply get_setEx. lia.
Qed.

(** What [listProducts] does, by what the cache holds under the cursor. *)
Lemma listProducts_outcome
    (shopify : Upstream) (limit : Z) (cursor : option string) (w : World) :
  let r := ProductService.listProducts shopify limit cursor w in
  let first := if limit <? 1 then 1 else if 250 <? limit then 250 else limit in
  let query := GET_PRODUCTS_QUERY first (ProductService.or_null cursor) "TITLE" in
  match cached_page cursor w with
  | Some page =>
      if limit <=? Z.of_nat (length (edges page))
      then r = (Returned page, w)
      else posts (trace (snd r)) = posts (trace w) ++ [query]
  | None => posts (trace (snd r)) = posts (trace w) ++ [query]
  end.
Proof.
  intros r first query. subst r.
  assert (clamped limit = first) as Hclamp.
  { unfold clamped, first.
    destruct (limit <? 1) eqn:E1; [apply Z.ltb_lt in E1; lia|].
    apply Z.ltb_ge in E1.
    destruct (250 <? limit) eqn:E2; [apply Z.ltb_lt in E2; lia|].
    apply Z.ltb_ge in E2. lia. }
  assert (ProductService.usable (cached_page cursor w) limit = None ->
          posts (trace (snd (ProductService.listProducts shopify limit cursor w)))
          = posts (trace w) ++ [query]) as Hmiss.
  { intros Hnone. rewrite listProducts_run. unfold page_listed.
    rewrite Hnone, Hclamp. fold query.
    pose proof (trace_answered shopify query w) as Htr.
    destruct (answered shopify query w) as [[[response|]|e] w'];
      cbn [snd] in Htr;
      try (cbn [snd]; rewrite Htr, !posts_app, posts_settlement; reflexivity).
    destruct (products response); cbn [snd];
      rewrite ?trace_write_page, Htr, !posts_app, posts_settlement; reflexivity. }
  destruct (cached_page cursor w) as [page|] eqn:Hpage.
  - destruct (limit <=? Z.of_nat (length (edges page))) eqn:Hlen.
    + rewrite listProducts_run. unfold page_listed. rewrite Hpage. simpl.
      rewrite Hlen. reflexivity.
    + apply Hmiss. simpl. rewrite Hlen. reflexivity.
  - apply Hmiss. reflexivity.
Qed.

(** The page-size variable is within Shopify's bounds. *)
Lemma clamped_bounds limit : 1 <= clamped limit <= 250.
Proof. unfold clamped. lia. Qed.

(** A hit leaves the trace alone and a miss does not: the cached page is
    used if and only if it exists and is long enough. *)
Lemma listProducts_hit_iff shopify limit cursor w :
  posts (trace (snd (ProductService.listProducts shopify limit cursor w)))
  = posts (trace w)
  <-> exists page,
        cached_page cursor w = Some page
        /\ limit <= Z.of_nat (length (edges page)).
Proof.
  pose proof (listProducts_outcome shopify limit cursor w) as H.
  cbv zeta in H.
  assert (forall (l : list Request) q, l ++ [q] <> l) as Hgrow.
  { intros l q Heq. apply (f_equal (@length _)) in Heq.
    rewrite length_app in Heq. simpl in Heq. lia. }
  destruct (cached_page cursor w) as [page|].
  - destruct (limit <=? Z.of_nat (length (edges page))) eqn:Hlen.
    + rewrite H. simpl. split; [|reflexivity].
      intros _. exists page. split; [reflexivity | apply Z.leb_le, Hlen].
    + rewrite H. split.
      * intros Heq. exfalso. exact (Hgrow _ _ Heq).
      * intros [page' [[= <-] Hle]]. apply Z.leb_gt in Hlen. lia.
  - rewrite H. split.
    + intros Heq. exfalso. exact (Hgrow _ _ Heq).
    + intros [page' [[=] _]].
Qed.

(** C5: [listProducts(limit, cursor)] returns the page cached under the
    cursor's key, without any upstream query, exactly when there is one
    with at least [limit] edges; otherwise, also when a shorter page is
    cached, it posts one query whose page size is [limit] clamped to
    [[1, 250]]. *)
Theorem C5_listProducts_cache_rule
    (shopify : Upstream) (limit : Z) (cursor : option string) (w : World) :
  let r := ProductService.listProducts shopify limit cursor w in
  let first := if limit <? 1 then 1 else if 250 <? limit then 250 else limit in
  let query := GET_PRODUCTS_QUERY first (ProductService.or_null cursor) "TITLE" in
  1 <= first <= 250
  /\ match cached_page cursor w with
     | Some page =>
         if limit <=? Z.of_nat (length (edges page))
         then r = (Returned page, w)
         else posts (trace (snd r)) = posts (trace w) ++ [query]
     | None => posts (trace (snd r)) = posts (trace w) ++ [query]
     end.
Proof.
  intros r first query. split.
  - unfold first. destruct (limit <? 1) eqn:E1; [lia|].
    apply Z.ltb_ge in E1.
    destruct (250 <? limit) eqn:E2; [lia|]. apply Z.ltb_ge in E2. lia.
  - apply listProducts_outcome.
Qed.

(** C6: when the first [getProductById(id)] misses the cache and the
    upstream answers with the product, a second call made before the
    300 s TTL of the cache entry has run out returns the product the first
    call cached, and the two calls post one upstream query in all. *)
Theorem C6_cache_aside_idempotence
    (shopify : Upstream) (id : string) (w : World)
    (body : Body) (response : Data) (raw : RawNode) (cost : Q) (took : N)
    (gap : Z)
    (Hup : products_status w = Connected)
    (Hmiss : cached_product ("gid://shopify/Product/" +:+ id) w = None)
    (Hex : shopify (clock w)
             (GET_PRODUCT_BY_ID_QUERY ("gid://shopify/Product/" +:+ id))
           = mkExchange (Replied body) took)
    (Hcost : actualQueryCost body = Some cost)
    (Herrs : errors body = None)
    (Hdata : data body = Some response)
    (Hproduct : product response = Some raw)
    (Hgap : 0 <= gap < 300 * 1000) :
  let gid := "gid://shopify/Product/" +:+ id in
  let r1 := ProductService.getProductById shopify id w in
  let r2 := ProductService.getProductById shopify id (later gap (snd r1)) in
  fst r1 = Returned (Some (ProductService.marshallProduct raw))
  /\ cached_product gid (later gap (snd r1))
     = Some (ProductService.marshallProduct raw)
  /\ fst r2 = Returned (Some (ProductService.marshallProduct raw))
  /\ posts (trace (snd r2)) = posts (trace w) ++ [GET_PRODUCT_BY_ID_QUERY gid].
Proof.
  intros gid r1 r2.
  assert (exists w3,
             r1 = (Returned (Some (ProductService.marshallProduct raw)),
                   write_product gid (ProductService.marshallProduct raw) 300 w3)
             /\ products_status w3 = Connected
             /\ trace w3
                = trace w ++ [Checking 10%Q; Posted (GET_PRODUCT_BY_ID_QUERY gid)]
                  ++ settlement (shopify (clock w) (GET_PRODUCT_BY_ID_QUERY gid)))
    as (w3 & Hr1 & Hup3 & Htr3).
  { unfold r1. rewrite getProductById_run. unfold product_found.
    fold gid. fold gid in Hmiss, Hex. rewrite Hmiss.
    pose proof (trace_answered shopify (GET_PRODUCT_BY_ID_QUERY gid) w) as Htr.
    unfold answered in *. rewrite Hex in *. simpl reply in *.
    cbv iota beta zeta in *. rewrite (charged_number _ _ Hcost), Herrs, Hdata in *.
    cbv iota beta in *. rewrite Hproduct.
    eexists. split; [reflexivity|]. split; [|exact Htr].
    rewrite products_status_reported, products_status_debited.
    simpl. rewrite products_status_gated. exact Hup. }
  assert (cached_product gid (later gap (snd r1))
          = Some (ProductService.marshallProduct raw)) as Hcached.
  { rewrite Hr1. unfold snd. apply cached_product_written; assumption. }
  split; [rewrite Hr1; reflexivity|].
  split; [exact Hcached|].
  unfold r2. rewrite getProductById_run. unfold product_found. fold gid.
  rewrite Hcached. split; [reflexivity|].
  unfold snd at 1. rewrite Hr1. unfold snd, later. simpl trace.
  rewrite trace_write_product, Htr3, !posts_app, posts_settlement.
  reflexivity.
Qed.

Lemma C6_cache_aside_idempotence_witness :
  posts (trace (snd
    (ProductService.getProductById
       (serving (product_body (Some sample_node) 7) 120) "1"
       (later 299999
          (snd (ProductService.getProductById
                  (serving (product_body (Some sample_node) 7) 120) "1"
                  (fresh_world 0)))))))
  = [GET_PRODUCT_BY_ID_QUERY "gid://shopify/Product/1"].
Proof.
  apply (C6_cache_aside_idempotence
           (serving (product_body (Some sample_node) 7) 120) "1" (fresh_world 0)
           (product_body (Some sample_node) 7)
           (mkData (Some sample_node) None) sample_node 7 120 299999).
  - reflexivity.
  - reflexivity.
  - reflexivity.
  - reflexivity.
  - reflexivity.
  - reflexivity.
  - reflexivity.
  - lia.
Defined.

(** ** Metrics snapshots *)

Lemma getMetrics_run w :
  metrics_status w = Connected ->
  MetricsPersistenceService.getMetrics w
  = (Returned (snapshot (window_samples "endpoint" (clock w) w)
                        (window_counter "endpoint" (clock w) w)
                        (window_samples "shopify" (clock w) w)
                        (window_counter "shopify" (clock w) w)),
     w).
Proof.
  intros Hup.
  unfold MetricsPersistenceService.getMetrics, snapshot, bind, try_catch, ret,
    MetricsPersistenceService.failedConnection,
    MetricsPersistenceService.lRange, MetricsPersistenceService.get,
    metrics_command, window_samples, window_counter.
  destruct w as [t ps pdb ms mdb tr ur]. simpl in Hup. subst ms.
  destruct mdb as [sk tk ck]. simpl.
  change ("metrics:" +:+ "endpoint" +:+ ":times") with "metrics:endpoint:times".
  change ("metrics:" +:+ "endpoint" +:+ ":calls") with "metrics:endpoint:calls".
  change ("metrics:" +:+ "shopify" +:+ ":times") with "metrics:shopify:times".
  change ("metrics:" +:+ "shopify" +:+ ":calls") with "metrics:shopify:calls".
  repeat match goal with
         | |- context [if ?c then (_, _, _) else _] => destruct c
         end; reflexivity.
Qed.

Lemma getMetrics_down w :
  metrics_status w <> Connected ->
  MetricsPersistenceService.getMetrics w
  = (Returned MetricsPersistenceService.zero_stats, w).
Proof.
  intros Hdown.
  unfold MetricsPersistenceService.getMetrics, bind, try_catch, ret,
    MetricsPersistenceService.failedConnection,
    MetricsPersistenceService.lRange, metrics_command.
  destruct w as [t ps pdb ms mdb tr ur]. simpl in *.
  destruct ms; [congruence | reflexivity | reflexivity].
Qed.

Lemma recordEndpointCall_run ms w :
  MetricsService.recordEndpointCall ms w
  = (Returned tt,
     recorded "endpoint" ms (with_trace (trace w ++ [EndpointCallReported ms]) w)).
Proof.
  unfold MetricsService.recordEndpointCall, bind, emit, detach.
  rewrite recordEndpointMetric_run. reflexivity.
Qed.

(** One recorded endpoint call, read [gap] ms later within the hour. *)
Lemma window_after_endpoint_call ms gap w :
  metrics_status w = Connected ->
  0 <= gap < 3600 * 1000 ->
  let w' := later gap (snd (MetricsService.recordEndpointCall ms w)) in
  metrics_status w' = Connected
  /\ window_samples "endpoint" (clock w') w'
     = Js.toString ms :: window_samples "endpoint" (clock w) w
  /\ window_calls "endpoint" (clock w') w'
     = window_calls "endpoint" (clock w) w + 1
  /\ window_counter "endpoint" (clock w') w'
     = Some (Js.toString (window_calls "endpoint" (clock w') w')).
Proof.
  intros Hup Hgap w'. subst w'. rewrite recordEndpointCall_run. unfold snd.
  set (w0 := with_trace (trace w ++ [EndpointCallReported ms]) w).
  assert (metrics_status w0 = Connected) as Hup0 by exact Hup.
  assert (clock (later gap (recorded "endpoint" ms w0)) = clock w0 + gap) as Hclock.
  { unfold later. simpl. rewrite clock_recorded. reflexivity. }
  rewrite Hclock.
  assert (Redis.get (clock w0 + gap)
            (calls_keys (metrics_db (later gap (recorded "endpoint" ms w0))))
            ("metrics:" +:+ "endpoint" +:+ ":calls")
          = Some (window_calls "endpoint" (clock w) w + 1)) as Hget.
  { unfold later. simpl metrics_db. unfold recorded. rewrite Hup0.
    change (metrics_db (with_metrics_db ?db w0)) with db.
    rewrite record_db_calls by lia. reflexivity. }
  split; [|split; [|split]].
  - unfold later. simpl. rewrite metrics_status_recorded. exact Hup0.
  - rewrite (window_samples_ext _ _ (later gap (recorded "endpoint" ms w0))
               (recorded "endpoint" ms w0)) by reflexivity.
    rewrite window_samples_recorded by (try exact Hup0; lia). reflexivity.
  - unfold window_calls at 1. rewrite Hget. reflexivity.
  - unfold window_counter, window_calls at 1. rewrite Hget. reflexivity.
Qed.

Lemma resetMetrics_run w :
  MetricsPersistenceService.resetMetrics w = (Returned tt, cleared w).
Proof.
  unfold MetricsPersistenceService.resetMetrics, cleared, bind, try_catch, ret,
    MetricsPersistenceService.failedConnection, MetricsPersistenceService.del,
    metrics_command.
  destruct w as [t ps pdb ms mdb tr ur]; simpl.
  destruct ms; reflexivity.
Qed.

Lemma resetMetrics_then_zero w :
  fst (MetricsService.getMetrics (snd (MetricsService.resetMetrics w)))
  = Returned MetricsPersistenceService.zero_stats.
Proof.
  unfold MetricsService.getMetrics, MetricsService.resetMetrics, detach.
  rewrite resetMetrics_run. unfold snd.
  destruct (metrics_status w) eqn:Hst.
  - assert (metrics_status (cleared w) = Connected) as Hst'.
    { unfold cleared. rewrite Hst. exact Hst. }
    rewrite getMetrics_run by exact Hst'. unfold fst. f_equal.
    set (keys := ["metrics:endpoint:times"; "metrics:endpoint:calls";
                  "metrics:shopify:times"; "metrics:shopify:calls"]).
    assert (forall key now, In key keys ->
              Redis.lRange now (times_keys (metrics_db (cleared w))) key = [])
      as Htimes.
    { intros key now Hin. unfold Redis.lRange, Redis.find, cleared.
      rewrite Hst.
      cbn [times_keys calls_keys metrics_db with_metrics_db]. unfold keys in Hin.
      rewrite (lookup_del_in _ _ _ Hin). reflexivity. }
    assert (forall key now, In key keys ->
              Redis.get now (calls_keys (metrics_db (cleared w))) key = None)
      as Hcalls.
    { intros key now Hin. unfold Redis.get, Redis.find, cleared.
      rewrite Hst.
      cbn [times_keys calls_keys metrics_db with_metrics_db]. unfold keys in Hin.
      rewrite (lookup_del_in _ _ _ Hin). reflexivity. }
    unfold window_samples, window_counter.
    rewrite !Htimes, !Hcalls by (simpl; tauto). reflexivity.
  - rewrite getMetrics_down; [reflexivity|].
    unfold cleared. rewrite Hst. congruence.
  - rewrite getMetrics_down; [reflexivity|].
    unfold cleared. rewrite Hst. congruence.
Qed.

(** C8: three endpoint calls of 100, 200 and 300 ms recorded into an empty
    endpoint window, each read within the hour, give average 200, max 300,
    min 100 and 3 calls; after [resetMetrics] every field is zero. *)
Theorem C8_metrics_snapshot (w : World) (gap1 gap2 gap3 : Z)
    (Hup : metrics_status w = Connected)
    (Hsamples : window_samples "endpoint" (clock w) w = [])
    (Hcalls : window_calls "endpoint" (clock w) w = 0)
    (Hgap1 : 0 <= gap1 < 3600 * 1000)
    (Hgap2 : 0 <= gap2 < 3600 * 1000)
    (Hgap3 : 0 <= gap3 < 3600 * 1000) :
  let w1 := later gap1 (snd (MetricsService.recordEndpointCall 100 w)) in
  let w2 := later gap2 (snd (MetricsService.recordEndpointCall 200 w1)) in
  let w3 := later gap3 (snd (MetricsService.recordEndpointCall 300 w2)) in
  (exists stats,
     fst (MetricsService.getMetrics w3) = Returned stats
     /\ endpoint_average stats = Some 200
     /\ endpoint_max stats = Some 300
     /\ endpoint_min stats = Some 100
     /\ total_endpoint_calls stats = Some 3)
  /\ fst (MetricsService.getMetrics (snd (MetricsService.resetMetrics w3)))
     = Returned (mkStats (Some 0) (Some 0) (Some 0) (Some 0) (Some 0) (Some 0)).
Proof.
  intros w1 w2 w3. split; [|apply resetMetrics_then_zero].
  destruct (window_after_endpoint_call 100 gap1 w Hup Hgap1)
    as (Hup1 & Hs1 & Hn1 & _).
  fold w1 in Hup1, Hs1, Hn1.
  destruct (window_after_endpoint_call 200 gap2 w1 Hup1 Hgap2)
    as (Hup2 & Hs2 & Hn2 & _).
  fold w2 in Hup2, Hs2, Hn2.
  destruct (window_after_endpoint_call 300 gap3 w2 Hup2 Hgap3)
    as (Hup3 & Hs3 & Hn3 & Hc3).
  fold w3 in Hup3, Hs3, Hn3, Hc3.
  unfold MetricsService.getMetrics. rewrite getMetrics_run by exact Hup3.
  rewrite Hc3, Hn3, Hn2, Hn1, Hcalls, Hs3, Hs2, Hs1, Hsamples.
  eexists. split; [reflexivity|].
  repeat split; vm_compute; reflexivity.
Qed.

Lemma C8_metrics_snapshot_witness :
  exists stats,
    fst (MetricsService.getMetrics
           (later 2000
              (snd (MetricsService.recordEndpointCall 300
                 (later 1000
                    (snd (MetricsService.recordEndpointCall 200
                       (later 0
                          (snd (MetricsService.recordEndpointCall 100
                                  (fresh_world 0))))))))))) = Returned stats
    /\ endpoint_average stats = Some 200
    /\ endpoint_max stats = Some 300
    /\ endpoint_min stats = Some 100
    /\ total_endpoint_calls stats = Some 3.
Proof.
  apply (C8_metrics_snapshot (fresh_world 0) 0 1000 2000).
  - reflexivity.
  - reflexivity.
  - reflexivity.
  - lia.
  - lia.
  - lia.
Defined.

(** ** Store outages *)

Lemma available_down w :
  products_status w <> Connected ->
  (available w == RateLimiter.MAX_POINTS)%Q.
Proof.
  intros Hdown. unfold available, refill_base.
  rewrite persisted_state_down by exact Hdown. simpl.
  apply refilled_full. lia.
Qed.

Lemma cached_product_down gid w :
  products_status w <> Connected -> cached_product gid w = None.
Proof.
  intros H. unfold cached_product.
  destruct (products_status w); [congruence | reflexivity | reflexivity].
Qed.

Lemma cached_page_down cursor w :
  products_status w <> Connected -> cached_page cursor w = None.
Proof.
  intros H. unfold cached_page.
  destruct (products_status w); [congruence | reflexivity | reflexivity].
Qed.

Lemma write_state_down s w :
  products_status w = Disconnected -> write_state s w = w.
Proof. intros H. unfold write_state. rewrite H. reflexivity. Qed.

Lemma write_state_erroring s w :
  products_status w = Erroring -> write_state s w = rejected RedisError w.
Proof. intros H. unfold write_state. rewrite H. reflexivity. Qed.

(** With the products client and the metrics client disconnected, every
    operation fails open: cache reads miss, the limiter reads no state,
    refills to a full bucket without sending anything and allows every
    cost up to [MAX_POINTS], and [getMetrics] returns zeros; nothing
    throws and the world is left as it was. *)
Lemma disconnected_store_fails_open (w : World) (gid : string)
    (cursor : option string) (cost : Q) :
  products_status w = Disconnected ->
  metrics_status w = Disconnected ->
  (cost <= RateLimiter.MAX_POINTS)%Q ->
  ProductsPersistenceService.getCachedProduct gid w = (Returned None, w)
  /\ ProductsPersistenceService.getCachedProductsList cursor w = (Returned None, w)
  /\ ProductsPersistenceService.getRateLimitState w = (Returned None, w)
  /\ (exists a,
        RateLimiter.refillBucket w = (Returned a, w)
        /\ (a == RateLimiter.MAX_POINTS)%Q)
  /\ fst (RateLimiter.canExecute cost w) = Returned true
  /\ fst (RateLimiter.getWaitTimeMs cost w) = Returned 0
  /\ MetricsService.getMetrics w
     = (Returned (mkStats (Some 0) (Some 0) (Some 0) (Some 0) (Some 0) (Some 0)), w).
Proof.
  intros Hoff Hmetrics Hcost.
  assert (products_status w <> Connected) as Hproducts by congruence.
  pose proof (available_down w Hproducts) as Hfull.
  assert (Js.geq (available w) cost = true) as Hgeq.
  { apply geq_true. rewrite Hfull. exact Hcost. }
  split; [|split; [|split; [|split; [|split; [|split]]]]].
  - rewrite getCachedProduct_run, cached_product_down by exact Hproducts.
    reflexivity.
  - rewrite getCachedProductsList_run, cached_page_down by exact Hproducts.
    reflexivity.
  - rewrite getRateLimitState_run, persisted_state_down by exact Hproducts.
    reflexivity.
  - exists (available w). split; [|exact Hfull].
    rewrite refillBucket_run, write_state_down by exact Hoff. reflexivity.
  - rewrite canExecute_run. unfold fst. rewrite Hgeq. reflexivity.
  - rewrite getWaitTimeMs_run. unfold fst. rewrite Hgeq. reflexivity.
  - unfold MetricsService.getMetrics. apply getMetrics_down. congruence.
Qed.

(** With the products client erroring, the awaited reads are caught and
    fall back as well, and [canExecute] allows every cost up to
    [MAX_POINTS]; but the write of [refillBucket] is not awaited, so its
    rejection passes by the [catch] of [updateRateLimitState] and is
    left unhandled. *)
Lemma erroring_store_rejects (w : World) (gid : string) (cost : Q) :
  products_status w = Erroring ->
  (cost <= RateLimiter.MAX_POINTS)%Q ->
  ProductsPersistenceService.getCachedProduct gid w = (Returned None, w)
  /\ ProductsPersistenceService.getRateLimitState w = (Returned None, w)
  /\ ProductsPersistenceService.updateRateLimitState cost (clock w) w
     = (Returned tt, rejected RedisError w)
  /\ fst (RateLimiter.canExecute cost w) = Returned true
  /\ snd (RateLimiter.canExecute cost w)
     = rejected RedisError (with_trace (trace w ++ [Checking cost]) w).
Proof.
  intros Herr Hcost.
  assert (products_status w <> Connected) as Hproducts by congruence.
  pose proof (available_down w Hproducts) as Hfull.
  assert (Js.geq (available w) cost = true) as Hgeq.
  { apply geq_true. rewrite Hfull. exact Hcost. }
  split; [|split; [|split; [|split]]].
  - rewrite getCachedProduct_run, cached_product_down by exact Hproducts.
    reflexivity.
  - rewrite getRateLimitState_run, persisted_state_down by exact Hproducts.
    reflexivity.
  - rewrite updateRateLimitState_run, write_state_erroring by exact Herr.
    reflexivity.
  - rewrite canExecute_run. unfold fst. rewrite Hgeq. reflexivity.
  - rewrite canExecute_run. unfold snd.
    rewrite write_state_erroring by exact Herr. reflexivity.
Qed.

(** C9 fails for the erroring store.  With the products client erroring,
    the state read returns null and [canExecute(10)] resolves to true, as
    the claim says; but [refillBucket] has called [updateRateLimitState],
    whose [client.set] is not awaited inside its [try]: the promise
    rejects past the [catch] that was meant to log the failure, and the
    rejection is left unhandled.  Every miss of the read path ends the
    same way, with one rejection for the gate and one for the cache
    write. *)
Theorem C9_erroring_store_rejects_unhandled :
  ProductsPersistenceService.getRateLimitState (erroring_world 0)
  = (Returned None, erroring_world 0)
  /\ fst (RateLimiter.canExecute 10 (erroring_world 0)) = Returned true
  /\ unhandled (snd (RateLimiter.canExecute 10 (erroring_world 0)))
     = [RedisError]
  /\ fst (ProductService.getProductById
            (serving (product_body (Some sample_node) 7) 120) "1"
            (erroring_world 0))
     = Returned (Some (ProductService.marshallProduct sample_node))
  /\ unhandled
       (snd (ProductService.getProductById
               (serving (product_body (Some sample_node) 7) 120) "1"
               (erroring_world 0)))
     = [RedisError; RedisError].
Proof. repeat split; reflexivity. Qed.

(** During an outage of both stores a request is still answered from the
    upstream, and each call goes upstream. *)
Lemma outage_still_serves shopify id w body response raw cost took :
  products_status w <> Connected ->
  shopify (clock w) (GET_PRODUCT_BY_ID_QUERY ("gid://shopify/Product/" +:+ id))
  = mkExchange (Replied body) took ->
  actualQueryCost body = Some cost ->
  errors body = None ->
  data body = Some response ->
  product response = Some raw ->
  fst (ProductService.getProductById shopify id w)
  = Returned (Some (ProductService.marshallProduct raw))
  /\ posts (trace (snd (ProductService.getProductById shopify id w)))
     = posts (trace w)
       ++ [GET_PRODUCT_BY_ID_QUERY ("gid://shopify/Product/" +:+ id)].
Proof.
  intros Hdown Hex Hcost Herrs Hdata Hproduct.
  rewrite getProductById_run. unfold product_found.
  rewrite cached_product_down by exact Hdown.
  pose proof (trace_answered shopify
                (GET_PRODUCT_BY_ID_QUERY ("gid://shopify/Product/" +:+ id)) w)
    as Htr.
  unfold answered in *. rewrite Hex in *. simpl reply in *.
  cbv iota beta zeta in *. rewrite (charged_number _ _ Hcost), Herrs, Hdata in *.
  cbv iota beta in *. rewrite Hproduct.
  split; [reflexivity|].
  unfold snd in *. rewrite trace_write_product, Htr, !posts_app, posts_settlement.
  reflexivity.
Qed.

(** ** Scenarios of the specification *)

(** Refill is capped: from an empty bucket, 20 seconds at 50 points per
    second make exactly [MAX_POINTS] available. *)
Lemma refill_after_20_seconds t0 :
  (RateLimiter.refilled (t0 + 20000) (mkState 0 t0) == RateLimiter.MAX_POINTS)%Q.
Proof.
  unfold RateLimiter.refilled, Js.Math_min, RateLimiter.MAX_POINTS,
    RateLimiter.REFILL_RATE. simpl.
  replace (t0 + 20000 - t0) with 20000 by lia. reflexivity.
Qed.

(** With 100 points available, a cost of 150 waits 1000 ms. *)
Lemma getWaitTimeMs_example :
  fst (RateLimiter.getWaitTimeMs 150 (world_with_bucket 0 (mkState 100 0)))
  = Returned 1000.
Proof. reflexivity. Qed.

Lemma getWaitTimeMs_zero cost w :
  (cost <= available w)%Q -> fst (RateLimiter.getWaitTimeMs cost w) = Returned 0.
Proof.
  intros H. rewrite getWaitTimeMs_run. unfold fst.
  rewrite geq_true by exact H. reflexivity.
Qed.

Lemma getWaitTimeMs_positive cost w :
  (available w < cost)%Q ->
  fst (RateLimiter.getWaitTimeMs cost w)
  = Returned (Qceiling ((cost - available w) / 50 * 1000)%Q).
Proof.
  intros H. rewrite getWaitTimeMs_run. unfold fst.
  rewrite geq_false by exact H. reflexivity.
Qed.

Lemma products_status_write_page cursor pg ttl w :
  products_status (write_page cursor pg ttl w) = products_status w.
Proof. unfold write_page. crush_world w. Qed.

Lemma cached_page_written cursor pg ttl gap w :
  products_status w = Connected ->
  0 <= gap < ttl * 1000 ->
  cached_page cursor (later gap (write_page cursor pg ttl w)) = Some pg.
Proof.
  intros Hup Hgap. unfold cached_page, later, write_page.
  rewrite Hup. simpl. rewrite Hup.
  apply get_setEx. lia.
Qed.

(** X9. A first [listProducts(limit, cursor)] that gets a full page from
    the upstream caches it under the cursor's key; the same call, repeated
    within the TTL, returns the same edges without going upstream. *)
Lemma listProducts_twice shopify limit cursor w body response connection
    cost took gap :
  products_status w = Connected ->
  ProductService.usable (cached_page cursor w) limit = None ->
  shopify (clock w)
    (GET_PRODUCTS_QUERY (clamped limit) (ProductService.or_null cursor) "TITLE")
  = mkExchange (Replied body) took ->
  actualQueryCost body = Some cost ->
  errors body = None ->
  data body = Some response ->
  products response = Some connection ->
  limit <= Z.of_nat (length (raw_edges connection)) ->
  0 <= gap < 300 * 1000 ->
  let r1 := ProductService.listProducts shopify limit cursor w in
  let r2 := ProductService.listProducts shopify limit cursor (later gap (snd r1)) in
  fst r1 = Returned (marshalled_page connection)
  /\ fst r2 = Returned (marshalled_page connection)
  /\ posts (trace (snd r2))
     = posts (trace w)
       ++ [GET_PRODUCTS_QUERY (clamped limit) (ProductService.or_null cursor) "TITLE"].
Proof.
  intros Hup Hmiss Hex Hcost Herrs Hdata Hproducts Hlen Hgap r1 r2.
  set (query := GET_PRODUCTS_QUERY (clamped limit)
                  (ProductService.or_null cursor) "TITLE") in *.
  assert (exists w3,
             r1 = (Returned (marshalled_page connection),
                   write_page cursor (marshalled_page connection) 300 w3)
             /\ products_status w3 = Connected
             /\ trace w3
                = trace w ++ [Checking 10%Q; Posted query]
                  ++ settlement (shopify (clock w) query))
    as (w3 & Hr1 & Hup3 & Htr3).
  { unfold r1. rewrite listProducts_run. unfold page_listed.
    rewrite Hmiss. fold query.
    pose proof (trace_answered shopify query w) as Htr.
    unfold answered in *. rewrite Hex in *. simpl reply in *.
    cbv iota beta zeta in *. rewrite (charged_number _ _ Hcost), Herrs, Hdata in *.
    cbv iota beta in *. rewrite Hproducts.
    eexists. split; [reflexivity|]. split; [|exact Htr].
    rewrite products_status_reported, products_status_debited.
    simpl. rewrite products_status_gated. exact Hup. }
  assert (cached_page cursor (later gap (snd r1))
          = Some (marshalled_page connection)) as Hcached.
  { rewrite Hr1. unfold snd. apply cached_page_written; assumption. }
  split; [rewrite Hr1; reflexivity|].
  unfold r2. rewrite listProducts_run. unfold page_listed.
  rewrite Hcached. unfold ProductService.usable.
  assert ((limit <=? Z.of_nat (length (edges (marshalled_page connection))))
          = true) as ->.
  { apply Z.leb_le. unfold marshalled_page. simpl. rewrite length_map. exact Hlen. }
  split; [reflexivity|].
  unfold snd at 1. rewrite Hr1. unfold snd, later. simpl trace.
  rewrite trace_write_page, Htr3, !posts_app, posts_settlement.
  reflexivity.
Qed.

(** ** Decimal text of integers *)

Lemma digits_string_of_uint d acc :
  Js.digits (NilEmpty.string_of_uint d) (Some acc) = Some (decimal_value d acc).
Proof.
  revert acc. induction d; intros acc; simpl; try reflexivity; apply IHd.
Qed.

Lemma decimal_value_pos d (acc : positive) :
  decimal_value d (Z.pos acc) = Z.pos (Pos.of_uint_acc d acc).
Proof.
  revert acc. induction d; intros acc; simpl; try reflexivity;
    rewrite <- IHd; f_equal; lia.
Qed.

Lemma decimal_value_zero d : decimal_value d 0 = Z.of_N (Pos.of_uint d).
Proof.
  induction d; simpl; try reflexivity; try exact IHd;
    apply (decimal_value_pos d).
Qed.

Lemma parseInt_uint d :
  d <> Nil -> Js.parseInt (NilEmpty.string_of_uint d) = Some (Z.of_uint d).
Proof.
  intros Hd. unfold Z.of_uint. rewrite <- decimal_value_zero.
  rewrite <- digits_string_of_uint.
  destruct d; [congruence|..]; reflexivity.
Qed.

Lemma string_of_uint_nonnil d :
  d <> Nil -> NilZero.string_of_uint d = NilEmpty.string_of_uint d.
Proof. destruct d; [congruence|..]; reflexivity. Qed.

(** [parseInt] reads back what [toString] printed. *)
Lemma parseInt_toString z : Js.parseInt (Js.toString z) = Some z.
Proof.
  unfold Js.toString. destruct z as [|p|p].
  - reflexivity.
  - simpl Z.to_int. simpl NilZero.string_of_int.
    pose proof (DecimalPos.Unsigned.to_uint_nonnil p) as Hnil.
    rewrite string_of_uint_nonnil, parseInt_uint by exact Hnil.
    unfold Z.of_uint. rewrite DecimalPos.Unsigned.of_to. reflexivity.
  - simpl Z.to_int. simpl NilZero.string_of_int.
    pose proof (DecimalPos.Unsigned.to_uint_nonnil p) as Hnil.
    rewrite string_of_uint_nonnil by exact Hnil.
    pose proof (parseInt_uint _ Hnil) as Hparse.
    unfold Z.of_uint in Hparse. rewrite DecimalPos.Unsigned.of_to in Hparse.
    unfold Js.parseInt in *.
    destruct (Pos.to_uint p); [congruence|..]; simpl in *;
      rewrite Hparse; reflexivity.
Qed.

(** The decimal text of an integer is never the empty string, so the
    fallback of [text || fallback] is not taken. *)
Lemma or_string_toString z fallback :
  or_string (Some (Js.toString z)) fallback = Js.toString z.
Proof.
  unfold Js.toString. destruct z as [|p|p]; try reflexivity.
  simpl Z.to_int. simpl NilZero.string_of_int.
  pose proof (DecimalPos.Unsigned.to_uint_nonnil p) as Hnil.
  rewrite string_of_uint_nonnil by exact Hnil.
  destruct (Pos.to_uint p); [congruence|..]; reflexivity.
Qed.

Lemma map_parseInt_toString l :
  map Js.parseInt (map Js.toString l) = map Some l.
Proof.
  induction l as [|x l IH]; [reflexivity|].
  simpl. rewrite parseInt_toString, IH. reflexivity.
Qed.

(** ** Aggregates over a window *)

Lemma fold_add_some l acc :
  fold_left Js.add (map Some l) (Some acc) = Some (acc + sum_of l).
Proof.
  revert acc. induction l as [|x l IH]; intros acc; simpl.
  - f_equal. lia.
  - rewrite IH. f_equal. lia.
Qed.

Lemma sum_of_app l1 l2 : sum_of (l1 ++ l2) = sum_of l1 + sum_of l2.
Proof.
  induction l1 as [|x l1 IH]; simpl; [reflexivity|]. rewrite IH. lia.
Qed.

Lemma sum_of_rev l : sum_of (rev l) = sum_of l.
Proof.
  induction l as [|x l IH]; simpl; [reflexivity|].
  rewrite sum_of_app, IH. simpl. lia.
Qed.

Lemma average_some l :
  MetricsPersistenceService.average (map Some l)
  = Some (inject_Z (sum_of l) / inject_Z (Z.of_nat (length l)))%Q.
Proof.
  unfold MetricsPersistenceService.average.
  rewrite fold_add_some, length_map. reflexivity.
Qed.

Lemma fold_max_some l a :
  exists m,
    fold_left (fun x y =>
      match x, y with Some u, Some v => Some (Z.max u v) | _, _ => None end)
      (map Some l) (Some a) = Some m
    /\ (m = a \/ In m l) /\ a <= m /\ Forall (fun x => x <= m) l.
Proof.
  revert a. induction l as [|x l IH]; intros a; simpl.
  - exists a. repeat split; [left; reflexivity | lia | constructor].
  - destruct (IH (Z.max a x)) as (m & Hm & Hin & Hle & Hall).
    exists m. split; [exact Hm|]. split; [|split].
    + destruct Hin as [->|Hin]; [|right; right; exact Hin].
      destruct (Z.max_spec a x) as [[_ ->]|[_ ->]];
        [right; left; reflexivity | left; reflexivity].
    + lia.
    + constructor; [lia | exact Hall].
Qed.

Lemma fold_min_some l a :
  exists m,
    fold_left (fun x y =>
      match x, y with Some u, Some v => Some (Z.min u v) | _, _ => None end)
      (map Some l) (Some a) = Some m
    /\ (m = a \/ In m l) /\ m <= a /\ Forall (fun x => m <= x) l.
Proof.
  revert a. induction l as [|x l IH]; intros a; simpl.
  - exists a. repeat split; [left; reflexivity | lia | constructor].
  - destruct (IH (Z.min a x)) as (m & Hm & Hin & Hle & Hall).
    exists m. split; [exact Hm|]. split; [|split].
    + destruct Hin as [->|Hin]; [|right; right; exact Hin].
      destruct (Z.min_spec a x) as [[_ ->]|[_ ->]];
        [left; reflexivity | right; left; reflexivity].
    + lia.
    + constructor; [lia | exact Hall].
Qed.

Lemma max_of_some l :
  l <> [] ->
  exists m, Js.max_of (map Some l) = Some m
            /\ In m l /\ Forall (fun x => x <= m) l.
Proof.
  destruct l as [|a l]; [congruence|]. intros _. simpl.
  destruct (fold_max_some l a) as (m & Hm & Hin & Hle & Hall).
  exists m. split; [exact Hm|]. split.
  - destruct Hin as [->|Hin]; [left; reflexivity | right; exact Hin].
  - constructor; assumption.
Qed.

Lemma min_of_some l :
  l <> [] ->
  exists m, Js.min_of (map Some l) = Some m
            /\ In m l /\ Forall (fun x => m <= x) l.
Proof.
  destruct l as [|a l]; [congruence|]. intros _. simpl.
  destruct (fold_min_some l a) as (m & Hm & Hin & Hle & Hall).
  exists m. split; [exact Hm|]. split.
  - destruct Hin as [->|Hin]; [left; reflexivity | right; exact Hin].
  - constructor; assumption.
Qed.

(** One recorded endpoint call, read at the same instant. *)
Lemma window_after_record ms w :
  metrics_status w = Connected ->
  let w' := snd (MetricsService.recordEndpointCall ms w) in
  metrics_status w' = Connected
  /\ clock w' = clock w
  /\ window_samples "endpoint" (clock w) w'
     = Js.toString ms :: window_samples "endpoint" (clock w) w
  /\ Redis.get (clock w) (calls_keys (metrics_db w')) "metrics:endpoint:calls"
     = Some (window_calls "endpoint" (clock w) w + 1).
Proof.
  intros Hup w'. subst w'. rewrite recordEndpointCall_run. unfold snd.
  set (w0 := with_trace (trace w ++ [EndpointCallReported ms]) w).
  assert (metrics_status w0 = Connected) as Hup0 by exact Hup.
  assert (clock w <= clock w < clock w + 3600 * 1000) as Ht by lia.
  split; [|split; [|split]].
  - rewrite metrics_status_recorded. exact Hup0.
  - rewrite clock_recorded. reflexivity.
  - apply (window_samples_recorded "endpoint" ms (clock w) w0 Hup0 Ht).
  - unfold recorded. rewrite Hup0.
    change (metrics_db (with_metrics_db ?db w0)) with db.
    apply (record_db_calls "endpoint" (clock w) (clock w) ms (metrics_db w) Ht).
Qed.

Lemma window_after_records samples w :
  metrics_status w = Connected ->
  let w' := record_endpoint_calls samples w in
  metrics_status w' = Connected
  /\ clock w' = clock w
  /\ window_samples "endpoint" (clock w) w'
     = map Js.toString (rev samples) ++ window_samples "endpoint" (clock w) w
  /\ window_calls "endpoint" (clock w) w'
     = window_calls "endpoint" (clock w) w + Z.of_nat (length samples)
  /\ (samples <> [] ->
      window_counter "endpoint" (clock w) w'
      = Some (Js.toString (window_calls "endpoint" (clock w) w'))).
Proof.
  revert w. induction samples as [|ms rest IH]; intros w Hup;
    cbn [record_endpoint_calls length rev map].
  - simpl. repeat split; try assumption; try lia. congruence.
  - destruct (window_after_record ms w Hup) as (Hup1 & Hclock1 & Hs1 & Hc1).
    set (w1 := snd (MetricsService.recordEndpointCall ms w)) in *.
    destruct (IH w1 Hup1) as (Hup' & Hclock' & Hs' & Hc' & Hcounter').
    rewrite Hclock1 in Hclock', Hs', Hc', Hcounter'.
    assert (window_calls "endpoint" (clock w) w1
            = window_calls "endpoint" (clock w) w + 1) as Hn1.
    { unfold window_calls.
      change ("metrics:" +:+ "endpoint" +:+ ":calls") with "metrics:endpoint:calls".
      rewrite Hc1. reflexivity. }
    split; [exact Hup'|]. split; [exact Hclock'|].
    split; [|split].
    + rewrite Hs', Hs1, map_app, <- app_assoc. reflexivity.
    + rewrite Hc', Hn1. lia.
    + intros _. destruct rest as [|ms' rest'].
      * cbn [record_endpoint_calls]. unfold window_counter, window_calls.
        change ("metrics:" +:+ "endpoint" +:+ ":calls")
          with "metrics:endpoint:calls".
        fold w1. rewrite Hc1. reflexivity.
      * apply Hcounter'. congruence.
Qed.

(** Any samples recorded into an empty endpoint window are aggregated as
    the rounded mean, the greatest, the least and their number. *)
Theorem metrics_snapshot_of_samples (samples : list Z) (w : World) :
  metrics_status w = Connected ->
  window_samples "endpoint" (clock w) w = [] ->
  window_calls "endpoint" (clock w) w = 0 ->
  samples <> [] ->
  exists stats greatest least,
    fst (MetricsService.getMetrics (record_endpoint_calls samples w))
    = Returned stats
    /\ endpoint_average stats
       = Some (Js.Math_round
                 (inject_Z (sum_of samples)
                  / inject_Z (Z.of_nat (length samples)))%Q)
    /\ endpoint_max stats = Some greatest
    /\ In greatest samples /\ Forall (fun x => x <= greatest) samples
    /\ endpoint_min stats = Some least
    /\ In least samples /\ Forall (fun x => least <= x) samples
    /\ total_endpoint_calls stats = Some (Z.of_nat (length samples)).
Proof.
  intros Hup Hempty Hcalls Hne.
  destruct (window_after_records samples w Hup)
    as (Hup' & Hclock' & Hs' & Hc' & Hcounter').
  specialize (Hcounter' Hne).
  set (w' := record_endpoint_calls samples w) in *.
  assert (rev samples <> []) as Hrev.
  { intros Hnil. apply Hne. apply (f_equal (@rev Z)) in Hnil.
    rewrite rev_involutive in Hnil. exact Hnil. }
  destruct (max_of_some (rev samples) Hrev) as (greatest & Hmax & Hin_max & Hall_max).
  destruct (min_of_some (rev samples) Hrev) as (least & Hmin & Hin_min & Hall_min).
  unfold MetricsService.getMetrics. rewrite getMetrics_run by exact Hup'.
  rewrite Hclock', Hcounter', Hc', Hcalls, Hs', Hempty, app_nil_r.
  unfold snapshot.
  assert ((0 <? length (map Js.toString (rev samples)))%nat = true) as ->.
  { apply Nat.ltb_lt. rewrite length_map, length_rev.
    destruct samples; [congruence | simpl; lia]. }
  rewrite map_parseInt_toString, average_some, Hmax, Hmin.
  rewrite sum_of_rev, length_rev.
  eexists _, greatest, least. split; [reflexivity|].
  simpl.
  split; [reflexivity|]. split; [reflexivity|].
  split; [apply in_rev; exact Hin_max|].
  split.
  { rewrite Forall_forall in *. intros x Hx. apply Hall_max.
    apply list_elem_of_In, in_rev. rewrite rev_involutive.
    apply list_elem_of_In. exact Hx. }
  split; [reflexivity|].
  split; [apply in_rev; exact Hin_min|].
  split.
  { rewrite Forall_forall in *. intros x Hx. apply Hall_min.
    apply list_elem_of_In, in_rev. rewrite rev_involutive.
    apply list_elem_of_In. exact Hx. }
  fold (or_string (Some (Js.toString (0 + Z.of_nat (length samples)))) "0").
  rewrite or_string_toString, parseInt_toString. reflexivity.
Qed.

(** ** More on the token bucket *)

Lemma persisted_state_later_write s gap w :
  products_status w = Connected ->
  persisted_state (later gap (write_state s w)) = Some s.
Proof.
  intros Hup. unfold persisted_state, later, write_state. rewrite Hup. simpl.
  rewrite Hup. unfold Redis.get, Redis.find, Redis.set.
  rewrite lookup_insert_eq. reflexivity.
Qed.

Lemma persisted_state_later_down gap w :
  products_status w <> Connected -> persisted_state (later gap w) = None.
Proof.
  intros Hdown. apply persisted_state_down. exact Hdown.
Qed.








(** X2. A cost above [MAX_POINTS] never passes [canExecute], in any world,
    and [getWaitTimeMs] then asks for a positive wait that cannot help. *)
Theorem X2_cost_above_cap_never_executes (w : World) (cost : Q) (pause : Z)
    (Hcost : (RateLimiter.MAX_POINTS < cost)%Q) :
  fst (RateLimiter.canExecute cost w) = Returned false
  /\ (exists wait,
        fst (RateLimiter.getWaitTimeMs cost w) = Returned wait /\ 0 < wait)
  /\ fst (RateLimiter.canExecute cost
            (later pause (snd (RateLimiter.getWaitTimeMs cost w))))
     = Returned false.
Proof.
  assert (forall w', Js.geq (available w') cost = false) as Hnever.
  { intros w'. apply geq_false.
    eapply Qle_lt_trans; [apply refilled_le_max | exact Hcost]. }
  split; [rewrite canExecute_run; unfold fst; rewrite Hnever; reflexivity|].
  split.
  - rewrite getWaitTimeMs_run. unfold fst. rewrite Hnever.
    eexists. split; [reflexivity|].
    set (x := ((cost - available w) / RateLimiter.REFILL_RATE * 1000)%Q).
    assert (0 < x)%Q as Hx.
    { unfold x, RateLimiter.REFILL_RATE.
      pose proof (refilled_le_max (clock w) (refill_base w)) as Hcap.
      fold (available w) in Hcap.
      apply Qmult_lt_0_compat; [|lra]. apply Qlt_shift_div_l; lra. }
    pose proof (Qle_ceiling x) as Hceil.
    assert (0 < inject_Z (Js.Math_ceil x))%Q as Hpos
      by (unfold Js.Math_ceil; lra).
    change 0%Q with (inject_Z 0) in Hpos. rewrite <- Zlt_Qlt in Hpos. exact Hpos.
  - rewrite canExecute_run. unfold fst. rewrite Hnever. reflexivity.
Qed.

Lemma X2_cost_above_cap_never_executes_witness :
  fst (RateLimiter.canExecute 1001 (fresh_world 0)) = Returned false.
Proof.
  apply (X2_cost_above_cap_never_executes (fresh_world 0) 1001 0).
  unfold RateLimiter.MAX_POINTS, Qlt. simpl. lia.
Defined.





(** ** More on the persistence layer *)

Lemma cached_product_after_write gid p ttl gap w :
  products_status w = Connected ->
  cached_product gid (later gap (write_product gid p ttl w))
  = if gap <? ttl * 1000 then Some p else None.
Proof.
  intros Hup. unfold cached_product, later, write_product.
  rewrite Hup. simpl. rewrite Hup.
  unfold Redis.get, Redis.setEx. rewrite find_insert_eq.
  unfold Redis.live. simpl.
  destruct (gap <? ttl * 1000) eqn:Hgap.
  - apply Z.ltb_lt in Hgap.
    assert ((clock w + gap <? clock w + ttl * 1000) = true) as ->
      by (apply Z.ltb_lt; lia).
    reflexivity.
  - apply Z.ltb_ge in Hgap.
    assert ((clock w + gap <? clock w + ttl * 1000) = false) as ->
      by (apply Z.ltb_ge; lia).
    reflexivity.
Qed.

(** X5. A product cached with a TTL is read back unchanged until the TTL
    has run out and is a miss from that instant on; caching again
    under the same id replaces the value and restarts the TTL. *)
Theorem X5_product_cache_round_trip
    (w : World) (gid : string) (p p' : Product) (ttl ttl' gap gap' : Z)
    (Hup : products_status w = Connected)
    (Httl : 0 < ttl /\ 0 < ttl') :
  let w1 := later gap (snd (ProductsPersistenceService.cacheProduct gid p ttl w)) in
  let w2 := later gap'
              (snd (ProductsPersistenceService.cacheProduct gid p' ttl' w1)) in
  fst (ProductsPersistenceService.getCachedProduct gid w1)
  = Returned (if gap <? ttl * 1000 then Some p else None)
  /\ fst (ProductsPersistenceService.getCachedProduct gid w2)
     = Returned (if gap' <? ttl' * 1000 then Some p' else None).
Proof.
  intros w1 w2. subst w2 w1.
  rewrite !cacheProduct_run. unfold snd.
  rewrite !getCachedProduct_run. unfold fst.
  split; f_equal.
  - apply cached_product_after_write. exact Hup.
  - apply cached_product_after_write.
    unfold later. simpl. rewrite products_status_write_product. exact Hup.
Qed.

Lemma X5_product_cache_round_trip_witness :
  fst (ProductsPersistenceService.getCachedProduct "gid://shopify/Product/1"
         (later 300000
            (snd (ProductsPersistenceService.cacheProduct
                    "gid://shopify/Product/1"
                    (ProductService.marshallProduct sample_node) 300
                    (fresh_world 0)))))
  = Returned None.
Proof.
  apply (X5_product_cache_round_trip (fresh_world 0) "gid://shopify/Product/1"
           (ProductService.marshallProduct sample_node)
           (ProductService.marshallProduct sample_node) 300 300 300000 0).
  - reflexivity.
  - lia.
Defined.

Lemma product_keys_differ gid gid' :
  gid <> gid' -> "product:" +:+ gid <> "product:" +:+ gid'.
Proof.
  intros Hne Heq. apply Hne.
  apply (inj (String.app "product:")) in Heq. exact Heq.
Qed.

(** X6. Caching a product touches its own key only: the other products,
    the list pages and the rate-limit state read as before. *)
Theorem X6_product_cache_isolated
    (w : World) (gid gid' : string) (p : Product) (ttl : Z)
    (cursor : option string)
    (Hne : gid <> gid') :
  let w' := snd (ProductsPersistenceService.cacheProduct gid p ttl w) in
  fst (ProductsPersistenceService.getCachedProduct gid' w')
  = fst (ProductsPersistenceService.getCachedProduct gid' w)
  /\ fst (ProductsPersistenceService.getCachedProductsList cursor w')
     = fst (ProductsPersistenceService.getCachedProductsList cursor w)
  /\ fst (ProductsPersistenceService.getRateLimitState w')
     = fst (ProductsPersistenceService.getRateLimitState w)
  /\ metrics_db w' = metrics_db w.
Proof.
  intros w'. subst w'. rewrite cacheProduct_run. unfold snd.
  rewrite !getCachedProduct_run, !getCachedProductsList_run,
    !getRateLimitState_run. unfold fst.
  pose proof (product_keys_differ gid gid' Hne) as Hkeys.
  unfold cached_product, cached_page, persisted_state, write_product.
  destruct w as [t ps pdb ms mdb tr ur]. simpl.
  destruct ps; simpl; repeat split.
  unfold Redis.get, Redis.setEx. rewrite find_insert_ne by exact Hkeys.
  reflexivity.
Qed.

Lemma X6_product_cache_isolated_witness :
  fst (ProductsPersistenceService.getCachedProduct "b"
         (snd (ProductsPersistenceService.cacheProduct "a"
                 (ProductService.marshallProduct sample_node) 300
                 (fresh_world 0))))
  = fst (ProductsPersistenceService.getCachedProduct "b" (fresh_world 0)).
Proof.
  apply (X6_product_cache_isolated (fresh_world 0) "a" "b"
           (ProductService.marshallProduct sample_node) 300 None).
  discriminate.
Defined.

(** X7. The rate-limit state is stored without a TTL: what
    [updateRateLimitState] wrote is what [getRateLimitState] returns at
    any time after, until the next write. *)
Theorem X7_rate_limit_state_round_trip
    (w : World) (points0 : Q) (lastRefillTime0 gap : Z)
    (Hup : products_status w = Connected) :
  fst (ProductsPersistenceService.getRateLimitState
         (later gap
            (snd (ProductsPersistenceService.updateRateLimitState
                    points0 lastRefillTime0 w))))
  = Returned (Some (mkState points0 lastRefillTime0)).
Proof.
  rewrite updateRateLimitState_run. unfold snd.
  rewrite getRateLimitState_run. unfold fst. f_equal.
  apply persisted_state_later_write. exact Hup.
Qed.

Lemma X7_rate_limit_state_round_trip_witness :
  fst (ProductsPersistenceService.getRateLimitState
         (later 86400000
            (snd (ProductsPersistenceService.updateRateLimitState 12 0
                    (fresh_world 0)))))
  = Returned (Some (mkState 12 0)).
Proof.
  apply (X7_rate_limit_state_round_trip (fresh_world 0) 12 0 86400000).
  reflexivity.
Defined.

(** X8. While the products client is disconnected, reads miss and writes
    are dropped, not queued; the data stays in the store, so after a
    successful [connect] every read is what it was, and after a failed
    one the client stays disconnected. *)
Theorem X8_disconnect_then_connect
    (w : World) (gid : string) (p : Product) (ttl : Z)
    (Hup : products_status w = Connected) :
  let off := snd (ProductsPersistenceService.disconnect w) in
  fst (ProductsPersistenceService.disconnect w) = Returned tt
  /\ ProductsPersistenceService.getCachedProduct gid off = (Returned None, off)
  /\ ProductsPersistenceService.getRateLimitState off = (Returned None, off)
  /\ ProductsPersistenceService.cacheProduct gid p ttl off = (Returned tt, off)
  /\ ProductsPersistenceService.connect true off = (Returned tt, w)
  /\ ProductsPersistenceService.connect false off = (Returned tt, off)
  /\ ProductsPersistenceService.connect true w = (Returned tt, w).
Proof.
  intros off. subst off.
  rewrite getCachedProduct_run, getRateLimitState_run, cacheProduct_run.
  unfold ProductsPersistenceService.disconnect,
    ProductsPersistenceService.connect, cached_product, persisted_state,
    write_product.
  destruct w as [t ps pdb ms mdb tr ur]. simpl in Hup. subst ps. simpl.
  repeat split.
Qed.

Lemma X8_disconnect_then_connect_witness :
  ProductsPersistenceService.connect true
    (snd (ProductsPersistenceService.disconnect (fresh_world 0)))
  = (Returned tt, fresh_world 0).
Proof.
  apply (X8_disconnect_then_connect (fresh_world 0) "gid://shopify/Product/1"
           (ProductService.marshallProduct sample_node) 300).
  reflexivity.
Defined.

(** ** What an upstream query leaves alone *)

Lemma cache_keys_write_state s w :
  product_keys (products_db (write_state s w)) = product_keys (products_db w)
  /\ list_keys (products_db (write_state s w)) = list_keys (products_db w).
Proof. unfold write_state. destruct w as [? [] ? ? ? ? ?]; split; reflexivity. Qed.

Lemma cache_keys_debited cost w :
  product_keys (products_db (debited cost w)) = product_keys (products_db w)
  /\ list_keys (products_db (debited cost w)) = list_keys (products_db w).
Proof.
  unfold debited.
  destruct (persisted_state w); [apply cache_keys_write_state | split; reflexivity].
Qed.

Lemma cache_keys_gated w :
  product_keys (products_db (gated w)) = product_keys (products_db w)
  /\ list_keys (products_db (gated w)) = list_keys (products_db w).
Proof.
  unfold gated.
  apply (cache_keys_write_state _ (with_trace (trace w ++ [Checking 10%Q]) w)).
Qed.

(** [executeQuery] changes neither the state of the two clients nor the
    cached products and pages, and takes the time of the exchange. *)
Lemma answered_frame shopify req w :
  let w' := snd (answered shopify req w) in
  products_status w' = products_status w
  /\ metrics_status w' = metrics_status w
  /\ product_keys (products_db w') = product_keys (products_db w)
  /\ list_keys (products_db w') = list_keys (products_db w)
  /\ clock w' = clock w + Z.of_N (latency (shopify (clock w) req)).
Proof.
  intros w'. subst w'. unfold answered.
  set (exchange := shopify (clock w) req).
  set (w2 := posted req (latency exchange) (gated w)).
  destruct (cache_keys_gated w) as [Hpk Hlk].
  assert (products_status w2 = products_status w
          /\ metrics_status w2 = metrics_status w
          /\ product_keys (products_db w2) = product_keys (products_db w)
          /\ list_keys (products_db w2) = list_keys (products_db w)
          /\ clock w2 = clock w + Z.of_N (latency exchange))
    as (H1 & H2 & H3 & H4 & H5).
  { unfold w2, posted. simpl.
    rewrite products_status_gated, metrics_status_gated, clock_gated.
    repeat split; assumption. }
  assert (forall ms w0,
             products_status w0 = products_status w
             /\ metrics_status w0 = metrics_status w
             /\ product_keys (products_db w0) = product_keys (products_db w)
             /\ list_keys (products_db w0) = list_keys (products_db w)
             /\ clock w0 = clock w + Z.of_N (latency exchange) ->
             products_status (reported ms w0) = products_status w
             /\ metrics_status (reported ms w0) = metrics_status w
             /\ product_keys (products_db (reported ms w0))
                = product_keys (products_db w)
             /\ list_keys (products_db (reported ms w0))
                = list_keys (products_db w)
             /\ clock (reported ms w0) = clock w + Z.of_N (latency exchange))
    as Hreported.
  { intros ms w0 (G1 & G2 & G3 & G4 & G5).
    rewrite products_status_reported, metrics_status_reported,
      products_db_reported, clock_reported.
    repeat split; assumption. }
  destruct (reply exchange) as [reason | status | body]; unfold snd.
  - apply Hreported. repeat split; assumption.
  - apply Hreported. repeat split; assumption.
  - destruct (charged body) as [cost|].
    + set (w3 := debited cost (with_trace (trace w2 ++ [Consuming cost]) w2)).
      assert (products_status w3 = products_status w
              /\ metrics_status w3 = metrics_status w
              /\ product_keys (products_db w3) = product_keys (products_db w)
              /\ list_keys (products_db w3) = list_keys (products_db w)
              /\ clock w3 = clock w + Z.of_N (latency exchange)) as Hw3.
      { unfold w3.
        destruct (cache_keys_debited cost
                    (with_trace (trace w2 ++ [Consuming cost]) w2)) as [K1 K2].
        rewrite products_status_debited, metrics_status_debited, clock_debited,
          K1, K2.
        repeat split; assumption. }
      destruct (errors body); unfold snd.
      * apply Hreported, Hreported, Hw3.
      * apply Hreported, Hw3.
    + apply Hreported. repeat split; assumption.
Qed.

Lemma find_none_later {A} now now' (m : gmap string (Redis.Entry A)) key :
  Redis.find now m key = None -> now <= now' -> Redis.find now' m key = None.
Proof.
  unfold Redis.find, Redis.live. intros Hnone Hle.
  destruct (m !! key) as [e|]; [|reflexivity].
  destruct (Redis.deadline e) as [d|]; [|discriminate].
  destruct (now <? d) eqn:Hlive; [discriminate|].
  apply Z.ltb_ge in Hlive.
  assert ((now' <? d) = false) as -> by (apply Z.ltb_ge; lia).
  reflexivity.
Qed.

(** A miss stays a miss as time passes, as long as nothing is written
    under the key. *)
Lemma cached_product_none_later gid w w' :
  cached_product gid w = None ->
  products_status w' = products_status w ->
  product_keys (products_db w') = product_keys (products_db w) ->
  clock w <= clock w' ->
  cached_product gid w' = None.
Proof.
  unfold cached_product. intros Hmiss Hst Hkeys Hclock. rewrite Hst, Hkeys.
  destruct (products_status w); try reflexivity.
  unfold Redis.get in *.
  destruct (Redis.find (clock w) _ _) eqn:Hfind; [discriminate|].
  rewrite (find_none_later _ _ _ _ Hfind Hclock). reflexivity.
Qed.

(** ** More on the cache-aside read path *)

Lemma listProducts_twice_witness :
  fst (ProductService.listProducts (serving (page_body sample_connection 3) 90)
         1 None
         (later 1000
            (snd (ProductService.listProducts
                    (serving (page_body sample_connection 3) 90)
                    1 None (fresh_world 0)))))
  = Returned (marshalled_page sample_connection).
Proof.
  apply (listProducts_twice (serving (page_body sample_connection 3) 90)
           1 None (fresh_world 0) (page_body sample_connection 3)
           (mkData None (Some sample_connection)) sample_connection 3 90 1000).
  - reflexivity.
  - reflexivity.
  - reflexivity.
  - reflexivity.
  - reflexivity.
  - reflexivity.
  - reflexivity.
  - simpl. lia.
  - lia.
Defined.

Lemma cached_page_after_write cursor pg ttl gap w :
  products_status w = Connected ->
  cached_page cursor (later gap (write_page cursor pg ttl w))
  = if gap <? ttl * 1000 then Some pg else None.
Proof.
  intros Hup. unfold cached_page, later, write_page.
  rewrite Hup. simpl. rewrite Hup.
  unfold Redis.get, Redis.setEx. rewrite find_insert_eq.
  unfold Redis.live. simpl.
  destruct (gap <? ttl * 1000) eqn:Hgap.
  - apply Z.ltb_lt in Hgap.
    assert ((clock w + gap <? clock w + ttl * 1000) = true) as ->
      by (apply Z.ltb_lt; lia).
    reflexivity.
  - apply Z.ltb_ge in Hgap.
    assert ((clock w + gap <? clock w + ttl * 1000) = false) as ->
      by (apply Z.ltb_ge; lia).
    reflexivity.
Qed.

Lemma posts_page_listed_miss shopify limit cursor w :
  ProductService.usable (cached_page cursor w) limit = None ->
  posts (trace (snd (page_listed shopify limit cursor w)))
  = posts (trace w)
    ++ [GET_PRODUCTS_QUERY (clamped limit) (ProductService.or_null cursor) "TITLE"].
Proof.
  intros Hnone. unfold page_listed. rewrite Hnone.
  set (query := GET_PRODUCTS_QUERY (clamped limit)
                  (ProductService.or_null cursor) "TITLE").
  pose proof (trace_answered shopify query w) as Htr.
  destruct (answered shopify query w) as [[[response|]|e] w'];
    cbn [snd] in Htr;
    try (cbn [snd]; rewrite Htr, !posts_app, posts_settlement; reflexivity).
  destruct (products response); cbn [snd];
    rewrite ?trace_write_page, Htr, !posts_app, posts_settlement; reflexivity.
Qed.

(** X10. A page shorter than the limit it was asked with is cached but
    never served for that limit: when the upstream answers a
    [listProducts(limit, cursor)] with fewer than [limit] edges (the last
    page of the catalogue), the same call repeated at any time goes
    upstream again. *)
Theorem X10_short_page_is_fetched_again
    (shopify : Upstream) (limit : Z) (cursor : option string) (w : World)
    (body : Body) (response : Data) (connection : RawConnection)
    (cost : Q) (took : N) (gap : Z)
    (Hmiss : ProductService.usable (cached_page cursor w) limit = None)
    (Hex : shopify (clock w)
             (GET_PRODUCTS_QUERY (clamped limit)
                (ProductService.or_null cursor) "TITLE")
           = mkExchange (Replied body) took)
    (Hcost : actualQueryCost body = Some cost)
    (Herrs : errors body = None)
    (Hdata : data body = Some response)
    (Hproducts : products response = Some connection)
    (Hshort : Z.of_nat (length (raw_edges connection)) < limit) :
  let query := GET_PRODUCTS_QUERY (clamped limit)
                 (ProductService.or_null cursor) "TITLE" in
  let r1 := ProductService.listProducts shopify limit cursor w in
  let r2 := ProductService.listProducts shopify limit cursor (later gap (snd r1)) in
  fst r1 = Returned (marshalled_page connection)
  /\ posts (trace (snd r2)) = posts (trace w) ++ [query; query].
Proof.
  intros query r1 r2.
  assert (exists w3,
             r1 = (Returned (marshalled_page connection),
                   write_page cursor (marshalled_page connection) 300 w3)
             /\ products_status w3 = products_status w
             /\ posts (trace w3) = posts (trace w) ++ [query])
    as (w3 & Hr1 & Hst3 & Htr3).
  { unfold r1. rewrite listProducts_run. unfold page_listed.
    rewrite Hmiss. fold query.
    pose proof (trace_answered shopify query w) as Htr.
    destruct (answered_frame shopify query w) as (Hst & _).
    unfold answered in *. fold query in Hex. rewrite Hex in *. simpl reply in *.
    cbv iota beta zeta in *. rewrite (charged_number _ _ Hcost), Herrs, Hdata in *.
    cbv iota beta in *. rewrite Hproducts.
    eexists. split; [reflexivity|]. split; [exact Hst|].
    unfold snd in Htr. rewrite Htr, !posts_app, posts_settlement. reflexivity. }
  split; [rewrite Hr1; reflexivity|].
  assert (ProductService.usable (cached_page cursor (later gap (snd r1))) limit
          = None) as Hagain.
  { rewrite Hr1. unfold snd.
    destruct (products_status w3) eqn:Hup.
    - rewrite cached_page_after_write by exact Hup.
      destruct (gap <? 300 * 1000); [|reflexivity].
      unfold ProductService.usable, marshalled_page. simpl. rewrite length_map.
      destruct (limit <=? Z.of_nat (length (raw_edges connection))) eqn:Hle;
        [apply Z.leb_le in Hle; lia | reflexivity].
    - rewrite cached_page_down; [reflexivity|].
      unfold later. simpl. rewrite products_status_write_page. congruence.
    - rewrite cached_page_down; [reflexivity|].
      unfold later. simpl. rewrite products_status_write_page. congruence. }
  unfold r2. rewrite listProducts_run.
  rewrite (posts_page_listed_miss _ _ _ _ Hagain). fold query.
  rewrite Hr1. unfold snd, later. simpl trace.
  rewrite trace_write_page, Htr3, <- app_assoc. reflexivity.
Qed.

Lemma X10_short_page_is_fetched_again_witness :
  posts (trace (snd
    (ProductService.listProducts (serving (page_body sample_connection 3) 90)
       10 None
       (later 1000
          (snd (ProductService.listProducts
                  (serving (page_body sample_connection 3) 90)
                  10 None (fresh_world 0)))))))
  = [GET_PRODUCTS_QUERY 10 None "TITLE"; GET_PRODUCTS_QUERY 10 None "TITLE"].
Proof.
  apply (X10_short_page_is_fetched_again
           (serving (page_body sample_connection 3) 90) 10 None (fresh_world 0)
           (page_body sample_connection 3)
           (mkData None (Some sample_connection)) sample_connection 3 90 1000).
  - reflexivity.
  - reflexivity.
  - reflexivity.
  - reflexivity.
  - reflexivity.
  - reflexivity.
  - simpl. lia.
Defined.

Lemma posts_product_found_miss shopify id w :
  cached_product ("gid://shopify/Product/" +:+ id) w = None ->
  posts (trace (snd (product_found shopify id w)))
  = posts (trace w)
    ++ [GET_PRODUCT_BY_ID_QUERY ("gid://shopify/Product/" +:+ id)].
Proof.
  intros Hmiss. unfold product_found. rewrite Hmiss.
  set (query := GET_PRODUCT_BY_ID_QUERY ("gid://shopify/Product/" +:+ id)).
  pose proof (trace_answered shopify query w) as Htr.
  destruct (answered shopify query w) as [[[response|]|e] w'];
    cbn [snd] in Htr;
    try (cbn [snd]; rewrite Htr, !posts_app, posts_settlement; reflexivity).
  destruct (product response); cbn [snd];
    rewrite ?trace_write_product, Htr, !posts_app, posts_settlement; reflexivity.
Qed.

(** X12. Only a product that was found is cached: when [getProductById]
    misses the cache and returns null, because the upstream reports no such
    product or because the query failed, the cached products and pages
    are as before, and the same call repeated later goes upstream again. *)
Theorem X12_null_is_not_cached
    (shopify : Upstream) (id : string) (w : World) (gap : Z)
    (Hmiss : cached_product ("gid://shopify/Product/" +:+ id) w = None)
    (Hnull : fst (ProductService.getProductById shopify id w) = Returned None)
    (Hgap : 0 <= gap) :
  let query := GET_PRODUCT_BY_ID_QUERY ("gid://shopify/Product/" +:+ id) in
  let w1 := snd (ProductService.getProductById shopify id w) in
  product_keys (products_db w1) = product_keys (products_db w)
  /\ list_keys (products_db w1) = list_keys (products_db w)
  /\ posts (trace (snd (ProductService.getProductById shopify id (later gap w1))))
     = posts (trace w) ++ [query; query].
Proof.
  intros query w1.
  pose proof (posts_product_found_miss shopify id w Hmiss) as Hposts.
  fold query in Hposts. rewrite <- getProductById_run in Hposts. fold w1 in Hposts.
  assert (w1 = snd (answered shopify query w)) as Hw1.
  { unfold w1. rewrite getProductById_run in *. unfold product_found in *.
    fold query in Hnull |- *. rewrite Hmiss in *.
    destruct (answered shopify query w) as [[[response|]|e] w']; try reflexivity.
    destruct (product response); [discriminate | reflexivity]. }
  destruct (answered_frame shopify query w) as (Hst & _ & Hpk & Hlk & Hclock).
  rewrite <- Hw1 in Hst, Hpk, Hlk, Hclock.
  split; [exact Hpk|]. split; [exact Hlk|].
  assert (cached_product ("gid://shopify/Product/" +:+ id) (later gap w1) = None)
    as Hstill.
  { apply (cached_product_none_later _ w); try assumption.
    unfold later. simpl. rewrite Hclock. lia. }
  rewrite getProductById_run.
  rewrite (posts_product_found_miss _ _ _ Hstill). fold query.
  unfold later. simpl trace. rewrite Hposts, <- app_assoc. reflexivity.
Qed.

Lemma X12_null_is_not_cached_witness :
  posts (trace (snd
    (ProductService.getProductById (serving (product_body None 1) 30) "1"
       (later 5
          (snd (ProductService.getProductById
                  (serving (product_body None 1) 30) "1" (fresh_world 0)))))))
  = [GET_PRODUCT_BY_ID_QUERY "gid://shopify/Product/1";
     GET_PRODUCT_BY_ID_QUERY "gid://shopify/Product/1"].
Proof.
  apply (X12_null_is_not_cached (serving (product_body None 1) 30) "1"
           (fresh_world 0) 5).
  - reflexivity.
  - reflexivity.
  - lia.
Defined.

Lemma cached_product_of_write gid p ttl w w' :
  products_status w = Connected ->
  products_status w' = Connected ->
  products_db w' = products_db (write_product gid p ttl w) ->
  cached_product gid w'
  = if clock w' <? clock w + ttl * 1000 then Some p else None.
Proof.
  intros Hup Hup' Hdb. unfold cached_product. rewrite Hup', Hdb.
  unfold write_product. rewrite Hup. simpl.
  unfold Redis.get, Redis.setEx. rewrite find_insert_eq.
  unfold Redis.live. simpl.
  destruct (clock w' <? clock w + ttl * 1000); reflexivity.
Qed.

(** X13. A cache hit has no effect at all: [getProductById] returns the
    cached product without touching the limiter, the metrics or the
    upstream; in particular a read does not extend the TTL, so 300 s
    after the product was fetched the next call goes upstream again
    however often it was read in between. *)
Theorem X13_hit_has_no_effect
    (shopify : Upstream) (id : string) (w : World)
    (body : Body) (response : Data) (raw : RawNode) (cost : Q) (took : N)
    (gap1 gap2 : Z)
    (Hup : products_status w = Connected)
    (Hmiss : cached_product ("gid://shopify/Product/" +:+ id) w = None)
    (Hex : shopify (clock w)
             (GET_PRODUCT_BY_ID_QUERY ("gid://shopify/Product/" +:+ id))
           = mkExchange (Replied body) took)
    (Hcost : actualQueryCost body = Some cost)
    (Herrs : errors body = None)
    (Hdata : data body = Some response)
    (Hproduct : product response = Some raw)
    (Hgap1 : 0 <= gap1 < 300 * 1000)
    (Hgap2 : 300 * 1000 <= gap1 + gap2) :
  let query := GET_PRODUCT_BY_ID_QUERY ("gid://shopify/Product/" +:+ id) in
  let w1 := later gap1 (snd (ProductService.getProductById shopify id w)) in
  let r2 := ProductService.getProductById shopify id w1 in
  let r3 := ProductService.getProductById shopify id (later gap2 (snd r2)) in
  r2 = (Returned (Some (ProductService.marshallProduct raw)), w1)
  /\ posts (trace (snd r3)) = posts (trace w) ++ [query; query].
Proof.
  intros query w1 r2 r3.
  set (p := ProductService.marshallProduct raw).
  assert (exists w3,
             snd (ProductService.getProductById shopify id w)
             = write_product ("gid://shopify/Product/" +:+ id) p 300 w3
             /\ products_status w3 = Connected
             /\ posts (trace w3) = posts (trace w) ++ [query])
    as (w3 & Hw & Hup3 & Htr3).
  { rewrite getProductById_run. unfold product_found. rewrite Hmiss.
    fold query in Hex |- *.
    pose proof (trace_answered shopify query w) as Htr.
    destruct (answered_frame shopify query w) as (Hst & _).
    unfold answered in *. rewrite Hex in *. simpl reply in *.
    cbv iota beta zeta in *. rewrite (charged_number _ _ Hcost), Herrs, Hdata in *.
    cbv iota beta in *. rewrite Hproduct.
    cbn [snd] in Hst, Htr.
    eexists. split; [reflexivity|]. split; [rewrite Hst; exact Hup|].
    rewrite Htr, !posts_app, posts_settlement. reflexivity. }
  assert (cached_product ("gid://shopify/Product/" +:+ id) w1 = Some p) as Hhit.
  { unfold w1. rewrite Hw.
    rewrite cached_product_after_write by exact Hup3.
    assert ((gap1 <? 300 * 1000) = true) as -> by (apply Z.ltb_lt; lia).
    reflexivity. }
  assert (r2 = (Returned (Some p), w1)) as Hr2.
  { unfold r2. rewrite getProductById_run. unfold product_found.
    rewrite Hhit. reflexivity. }
  split; [exact Hr2|].
  assert (cached_product ("gid://shopify/Product/" +:+ id) (later gap2 (snd r2))
          = None) as Hexpired.
  { rewrite Hr2. unfold snd.
    rewrite (cached_product_of_write _ p 300 w3).
    - unfold w1. rewrite Hw. unfold later. simpl. rewrite clock_write_product.
      assert ((clock w3 + gap1 + gap2 <? clock w3 + 300 * 1000) = false) as ->
        by (apply Z.ltb_ge; lia).
      reflexivity.
    - exact Hup3.
    - unfold w1. rewrite Hw. unfold later. simpl.
      rewrite products_status_write_product. exact Hup3.
    - unfold w1. rewrite Hw. reflexivity. }
  unfold r3. rewrite getProductById_run.
  rewrite (posts_product_found_miss _ _ _ Hexpired). fold query.
  rewrite Hr2. unfold snd, later, w1. simpl trace. rewrite Hw.
  rewrite trace_write_product, Htr3, <- app_assoc. reflexivity.
Qed.

Lemma X13_hit_has_no_effect_witness :
  posts (trace (snd
    (ProductService.getProductById
       (serving (product_body (Some sample_node) 7) 120) "1"
       (later 200000
          (snd (ProductService.getProductById
                  (serving (product_body (Some sample_node) 7) 120) "1"
                  (later 100000
                     (snd (ProductService.getProductById
                             (serving (product_body (Some sample_node) 7) 120)
                             "1" (fresh_world 0))))))))))
  = [GET_PRODUCT_BY_ID_QUERY "gid://shopify/Product/1";
     GET_PRODUCT_BY_ID_QUERY "gid://shopify/Product/1"].
Proof.
  apply (X13_hit_has_no_effect
           (serving (product_body (Some sample_node) 7) 120) "1" (fresh_world 0)
           (product_body (Some sample_node) 7)
           (mkData (Some sample_node) None) sample_node 7 120 100000 200000).
  - reflexivity.
  - reflexivity.
  - reflexivity.
  - reflexivity.
  - reflexivity.
  - reflexivity.
  - reflexivity.
  - lia.
  - lia.
Defined.

(** X14. A query that fails in transport costs no points: on a network
    failure or a status outside 2xx, [executeQuery] throws the axios
    error, reports the call once to the metrics, does not call [consume],
    and leaves in the bucket what the refill of the gate made available. *)
Theorem X14_transport_failure_costs_nothing
    (shopify : Upstream) (req : Request) (w : World)
    (Hfail : forall body, reply (shopify (clock w) req) <> Replied body) :
  let r := ProductService.executeQuery shopify req w in
  fst r = Thrown (AxiosError (reply (shopify (clock w) req)))
  /\ debits (trace (snd r)) = debits (trace w)
  /\ shopify_reports (trace (snd r))
     = shopify_reports (trace w) ++ [Z.of_N (latency (shopify (clock w) req))]
  /\ persisted_state (snd r)
     = match products_status w with
       | Connected => Some (mkState (available w) (clock w))
       | _ => None
       end.
Proof.
  intros r. subst r. rewrite executeQuery_run.
  pose proof (trace_answered shopify req w) as Htr.
  unfold answered, settlement in *.
  set (exchange := shopify (clock w) req) in *.
  assert (forall tr1 tr2, debits (tr1 ++ tr2) = debits tr1 ++ debits tr2) as Happ.
  { intros tr1 tr2. induction tr1 as [|e tr1 IH]; [reflexivity|].
    destruct e; simpl; rewrite IH; reflexivity. }
  assert (persisted_state
            (reported (Z.of_N (latency exchange))
               (posted req (latency exchange) (gated w)))
          = match products_status w with
            | Connected => Some (mkState (available w) (clock w))
            | _ => None
            end) as Hstate.
  { rewrite persisted_state_reported.
    destruct (products_status w) eqn:Hup.
    - apply persisted_state_posted_gated. exact Hup.
    - apply persisted_state_down. simpl. rewrite products_status_gated. congruence.
    - apply persisted_state_down. simpl. rewrite products_status_gated. congruence. }
  destruct (reply exchange) as [reason | status | body] eqn:Hreply.
  - unfold fst, snd in *. rewrite Htr, Happ, shopify_reports_app.
    simpl. rewrite !app_nil_r. repeat split. exact Hstate.
  - unfold fst, snd in *. rewrite Htr, Happ, shopify_reports_app.
    simpl. rewrite !app_nil_r. repeat split. exact Hstate.
  - exfalso. exact (Hfail body eq_refl).
Qed.

Lemma X14_transport_failure_costs_nothing_witness :
  debits (trace (snd
    (ProductService.executeQuery (unreachable 30)
       (GET_PRODUCT_BY_ID_QUERY "gid://shopify/Product/1") (fresh_world 0))))
  = [].
Proof.
  apply (X14_transport_failure_costs_nothing (unreachable 30)
           (GET_PRODUCT_BY_ID_QUERY "gid://shopify/Product/1") (fresh_world 0)).
  intros body. simpl. discriminate.
Defined.

(** ** The HTTP routes *)

Lemma endpoint_reports_app tr1 tr2 :
  endpoint_reports (tr1 ++ tr2) = endpoint_reports tr1 ++ endpoint_reports tr2.
Proof.
  induction tr1 as [|e tr1 IH]; [reflexivity|].
  destruct e; simpl; rewrite IH; reflexivity.
Qed.

Lemma endpoint_reports_settlement exchange :
  endpoint_reports (settlement exchange) = [].
Proof.
  unfold settlement. destruct (reply exchange) as [| |body]; try reflexivity.
  destruct (charged body); [destruct (errors body)|]; reflexivity.
Qed.

Lemma clock_write_page cursor pg ttl w : clock (write_page cursor pg ttl w) = clock w.
Proof. unfold write_page. crush_world w. Qed.

(** What a query leaves of the endpoint reports and of the clock. *)
Lemma answered_timing shopify req w :
  endpoint_reports (trace (snd (answered shopify req w)))
  = endpoint_reports (trace w)
  /\ clock w <= clock (snd (answered shopify req w)).
Proof.
  split.
  - rewrite trace_answered, !endpoint_reports_app, endpoint_reports_settlement.
    simpl. rewrite app_nil_r. reflexivity.
  - destruct (answered_frame shopify req w) as (_ & _ & _ & _ & Hclock).
    rewrite Hclock. lia.
Qed.

Lemma product_found_timing shopify id w :
  exists found,
    fst (product_found shopify id w) = Returned found
    /\ endpoint_reports (trace (snd (product_found shopify id w)))
       = endpoint_reports (trace w)
    /\ clock w <= clock (snd (product_found shopify id w)).
Proof.
  unfold product_found.
  destruct (cached_product _ w) as [p|].
  { exists (Some p). repeat split. simpl. lia. }
  destruct (answered_timing shopify
              (GET_PRODUCT_BY_ID_QUERY ("gid://shopify/Product/" +:+ id)) w)
    as [Hreports Hclock].
  destruct (answered shopify _ w) as [[[response|]|e] w']; cbn [snd] in *.
  - destruct (product response) as [raw|]; eexists; cbn [fst snd];
      rewrite ?trace_write_product, ?clock_write_product; repeat split; assumption.
  - exists None. repeat split; assumption.
  - exists None. repeat split; assumption.
Qed.

Lemma page_listed_timing shopify limit after w :
  exists page,
    fst (page_listed shopify limit after w) = Returned page
    /\ endpoint_reports (trace (snd (page_listed shopify limit after w)))
       = endpoint_reports (trace w)
    /\ clock w <= clock (snd (page_listed shopify limit after w)).
Proof.
  unfold page_listed.
  destruct (ProductService.usable _ limit) as [page|].
  { exists page. repeat split. simpl. lia. }
  destruct (answered_timing shopify
              (GET_PRODUCTS_QUERY (clamped limit) (ProductService.or_null after)
                 "TITLE") w)
    as [Hreports Hclock].
  destruct (answered shopify _ w) as [[[response|]|e] w']; cbn [snd] in *.
  - destruct (products response) as [connection|]; eexists; cbn [fst snd];
      rewrite ?trace_write_page, ?clock_write_page; repeat split; assumption.
  - eexists. repeat split; assumption.
  - eexists. repeat split; assumption.
Qed.

Lemma getMetrics_returns w :
  exists stats, MetricsPersistenceService.getMetrics w = (Returned stats, w).
Proof.
  destruct (metrics_status w) eqn:Hst.
  - eexists. apply getMetrics_run. exact Hst.
  - eexists. apply getMetrics_down. congruence.
  - eexists. apply getMetrics_down. congruence.
Qed.

Lemma trace_cleared w : trace (cleared w) = trace w.
Proof. unfold cleared. crush_world w. Qed.

Lemma clock_cleared w : clock (cleared w) = clock w.
Proof. unfold cleared. crush_world w. Qed.

Lemma metrics_status_cleared w : metrics_status (cleared w) = metrics_status w.
Proof. unfold cleared. crush_world w. Qed.

(** The handlers in straight-line form. *)
Lemma handler_products_run shopify limit_query cursor_query w :
  App.handler shopify (App.GET_products limit_query cursor_query) w
  = match Js.parseInt (or_string limit_query "10") with
    | None =>
        (Returned (App.mkResponse 400 (App.error_json "Invalid limit parameter")),
         w)
    | Some limit =>
        if limit <? 1
        then (Returned
                (App.mkResponse 400 (App.error_json "Invalid limit parameter")),
              w)
        else
          match page_listed shopify limit
                  (ProductService.or_null cursor_query) w with
          | (Returned page, w') =>
              (Returned
                 (App.mkResponse 200
                    (App.products_json (map node (edges page))
                       (cursor <$> last (edges page)))),
               w')
          | (Thrown e, w') => (Thrown e, w')
          end
    end.
Proof.
  unfold App.handler.
  destruct (Js.parseInt (or_string limit_query "10")) as [limit|]; [|reflexivity].
  destruct (limit <? 1); [reflexivity|].
  unfold bind at 1. rewrite listProducts_run.
  destruct (page_listed shopify limit _ w) as [[page|e] w']; reflexivity.
Qed.

Lemma handler_product_run shopify id w :
  App.handler shopify (App.GET_products_id id) w
  = match product_found shopify id w with
    | (Returned (Some p), w') =>
        (Returned (App.mkResponse 200 (App.product_json p)), w')
    | (Returned None, w') =>
        (Returned (App.mkResponse 404 (App.error_json "Product not found")), w')
    | (Thrown e, w') => (Thrown e, w')
    end.
Proof.
  unfold App.handler. unfold bind at 1. rewrite getProductById_run.
  destruct (product_found shopify id w) as [[[p|]|e] w']; reflexivity.
Qed.

Lemma handler_stats_run shopify w :
  App.handler shopify App.GET_api_stats w
  = (Returned
       (App.mkResponse 200
          (App.stats_json
             (match fst (MetricsPersistenceService.getMetrics w) with
              | Returned stats => stats
              | Thrown _ => MetricsPersistenceService.zero_stats
              end))),
     w).
Proof.
  unfold App.handler, MetricsService.getMetrics. unfold bind at 1.
  destruct (getMetrics_returns w) as [stats ->]. reflexivity.
Qed.

Lemma handler_reset_run shopify w :
  App.handler shopify App.POST_reset_stats w
  = (Returned (App.mkResponse 200 (App.text "Metrics reset successfully")),
     cleared w).
Proof.
  unfold App.handler, MetricsService.resetMetrics, detach. unfold bind at 1.
  rewrite resetMetrics_run. reflexivity.
Qed.

Lemma handler_timing shopify req w :
  exists response,
    fst (App.handler shopify req w) = Returned response
    /\ endpoint_reports (trace (snd (App.handler shopify req w)))
       = endpoint_reports (trace w)
    /\ clock w <= clock (snd (App.handler shopify req w)).
Proof.
  destruct req as [limit_query cursor_query | id | | ].
  - rewrite handler_products_run.
    destruct (Js.parseInt (or_string limit_query "10")) as [limit|].
    + destruct (limit <? 1).
      * eexists. repeat split. simpl. lia.
      * destruct (page_listed_timing shopify limit
                    (ProductService.or_null cursor_query) w)
          as (page & Hfst & Hreports & Hclock).
        destruct (page_listed shopify limit _ w) as [[page'|e] w'];
          cbn [fst snd] in *; [|discriminate].
        eexists. repeat split; assumption.
    + eexists. repeat split. simpl. lia.
  - rewrite handler_product_run.
    destruct (product_found_timing shopify id w)
      as (found & Hfst & Hreports & Hclock).
    destruct (product_found shopify id w) as [[[p|]|e] w'];
      cbn [fst snd] in *; [| |discriminate];
      eexists; repeat split; assumption.
  - rewrite handler_stats_run. eexists. repeat split. simpl. lia.
  - rewrite handler_reset_run. eexists. cbn [fst snd].
    rewrite trace_cleared, clock_cleared. repeat split. lia.
Qed.

Lemma middleware_run shopify req w :
  App.middleware shopify req w
  = match App.handler shopify req w with
    | (Returned response, w') =>
        (Returned response,
         snd (MetricsService.recordEndpointCall (clock w' - clock w) w'))
    | (Thrown e, w') => (Thrown e, w')
    end.
Proof.
  unfold App.middleware, App.postProcess, Date_now.
  unfold bind at 1. unfold bind at 1.
  destruct (App.handler shopify req w) as [[response|e] w']; [|reflexivity].
  unfold bind, detach, ret. rewrite recordEndpointCall_run. reflexivity.
Qed.

(** X15. Every request is answered, and answering it reports exactly one
    endpoint call, whose response time is the time that passed between
    [preProcess] and [postProcess]; this holds on every route and for the
    400 and 404 answers as well. *)
Theorem X15_every_request_is_timed
    (shopify : Upstream) (req : App.HttpRequest) (w : World) :
  let r := App.middleware shopify req w in
  (exists response, fst r = Returned response)
  /\ fst r = fst (App.handler shopify req w)
  /\ 0 <= clock (snd r) - clock w
  /\ endpoint_reports (trace (snd r))
     = endpoint_reports (trace w) ++ [clock (snd r) - clock w].
Proof.
  intros r. subst r. rewrite middleware_run.
  destruct (handler_timing shopify req w) as (response & Hfst & Hreports & Hclock).
  destruct (App.handler shopify req w) as [[response'|e] w'];
    cbn [fst snd] in *; [|discriminate].
  rewrite recordEndpointCall_run. cbn [fst snd].
  rewrite clock_recorded, trace_recorded.
  change (clock (with_trace ?tr w')) with (clock w').
  rewrite trace_with_trace, endpoint_reports_app, Hreports.
  split; [eexists; reflexivity|]. split; [reflexivity|].
  split; [lia | reflexivity].
Qed.

(** X16. [GET /products] validates [limit]: a limit given as the decimal
    text of an integer below 1 is answered 400 and nothing else happens;
    from 1 on the route answers 200 with the nodes of the page that
    [listProducts] returns for that limit; a limit that is absent or empty
    is read as 10. *)
Theorem X16_limit_is_validated
    (shopify : Upstream) (z : Z) (after : option string) (w : World) :
  let r := App.handler shopify (App.GET_products (Some (Js.toString z)) after) w in
  (if z <? 1
   then r = (Returned
               (App.mkResponse 400 (App.error_json "Invalid limit parameter")),
             w)
   else exists page,
       ProductService.listProducts shopify z (ProductService.or_null after) w
       = (Returned page, snd r)
       /\ fst r = Returned
                    (App.mkResponse 200
                       (App.products_json (map node (edges page))
                          (cursor <$> last (edges page)))))
  /\ App.handler shopify (App.GET_products None after) w
     = App.handler shopify (App.GET_products (Some "10") after) w
  /\ App.handler shopify (App.GET_products (Some "") after) w
     = App.handler shopify (App.GET_products (Some "10") after) w.
Proof.
  intros r. subst r. split; [|split; reflexivity].
  rewrite handler_products_run, or_string_toString, parseInt_toString.
  destruct (z <? 1); [reflexivity|].
  rewrite listProducts_run.
  destruct (page_listed_timing shopify z (ProductService.or_null after) w)
    as (page & Hfst & _).
  destruct (page_listed shopify z _ w) as [[page'|e] w'];
    cbn [fst] in Hfst; [|discriminate].
  exists page'. split; reflexivity.
Qed.

Lemma or_null_idem after :
  ProductService.or_null (ProductService.or_null after)
  = ProductService.or_null after.
Proof. destruct after as [[|a s]|]; reflexivity. Qed.

(** X17. The [nextPage] of [GET /products] is the cursor of the last edge
    of the page, whatever [hasNextPage] says: on a page fetched from the
    upstream it is null only when the upstream sent no edge, so the last
    page of a listing still carries a cursor. *)
Theorem X17_nextPage_is_last_cursor
    (shopify : Upstream) (limit_query after : option string) (limit : Z)
    (w : World) (body : Body) (response : Data) (connection : RawConnection)
    (cost : Q) (took : N)
    (Hlimit : Js.parseInt (or_string limit_query "10") = Some limit)
    (Hvalid : 1 <= limit)
    (Hmiss : ProductService.usable
               (cached_page (ProductService.or_null after) w) limit = None)
    (Hex : shopify (clock w)
             (GET_PRODUCTS_QUERY (clamped limit) (ProductService.or_null after)
                "TITLE")
           = mkExchange (Replied body) took)
    (Hcost : actualQueryCost body = Some cost)
    (Herrs : errors body = None)
    (Hdata : data body = Some response)
    (Hproducts : products response = Some connection) :
  fst (App.handler shopify (App.GET_products limit_query after) w)
  = Returned
      (App.mkResponse 200
         (App.products_json
            (map (fun edge => ProductService.marshallProduct (raw_node edge))
               (raw_edges connection))
            (raw_cursor <$> last (raw_edges connection)))).
Proof.
  rewrite handler_products_run, Hlimit.
  assert ((limit <? 1) = false) as -> by (apply Z.ltb_ge; lia).
  unfold page_listed. rewrite Hmiss, or_null_idem.
  unfold answered. rewrite Hex. simpl reply.
  cbv iota beta zeta. rewrite (charged_number _ _ Hcost), Herrs, Hdata.
  cbv iota beta. rewrite Hproducts.
  cbn [fst]. unfold marshalled_page. cbn [edges].
  rewrite map_map. cbn [node].
  do 3 f_equal.
  generalize (raw_edges connection) as l.
  induction l as [|e [|e' l] IH]; [reflexivity | reflexivity |].
  exact IH.
Qed.

Lemma X17_nextPage_is_last_cursor_witness :
  fst (App.handler
         (serving
            (page_body
               (mkRawConnection [mkRawEdge "cursor-1" sample_node] false) 5)
            80)
         (App.GET_products (Some "2") None) (fresh_world 0))
  = Returned
      (App.mkResponse 200
         (App.products_json
            [ProductService.marshallProduct sample_node] (Some "cursor-1"))).
Proof.
  apply (X17_nextPage_is_last_cursor
           (serving
              (page_body
                 (mkRawConnection [mkRawEdge "cursor-1" sample_node] false) 5)
              80)
           (Some "2") None 2 (fresh_world 0)
           (page_body
              (mkRawConnection [mkRawEdge "cursor-1" sample_node] false) 5)
           (mkData None
              (Some (mkRawConnection [mkRawEdge "cursor-1" sample_node] false)))
           (mkRawConnection [mkRawEdge "cursor-1" sample_node] false) 5 80).
  - reflexivity.
  - lia.
  - reflexivity.
  - reflexivity.
  - reflexivity.
  - reflexivity.
  - reflexivity.
  - reflexivity.
Defined.

(** X18. [GET /products/:id] turns an upstream failure into an ordinary
    answer: when the query fails (no connection, a status outside 2xx, a
    GraphQL error list) the route answers 200 with the cached product if
    there is one and 404 "Product not found" otherwise; it never answers
    with a server error. *)
Theorem X18_upstream_failure_is_404
    (shopify : Upstream) (id : string) (w : World)
    (Hfail : upstream_failure
               (reply (shopify (clock w)
                         (GET_PRODUCT_BY_ID_QUERY
                            ("gid://shopify/Product/" +:+ id))))) :
  fst (App.handler shopify (App.GET_products_id id) w)
  = Returned
      match cached_product ("gid://shopify/Product/" +:+ id) w with
      | Some p => App.mkResponse 200 (App.product_json p)
      | None => App.mkResponse 404 (App.error_json "Product not found")
      end.
Proof.
  rewrite handler_product_run. unfold product_found.
  destruct (cached_product _ w) as [p|]; [reflexivity|].
  destruct (answered_failure shopify _ w Hfail) as [e He].
  destruct (answered shopify _ w) as [[response|e'] w'];
    cbn [fst] in He; [discriminate|]. reflexivity.
Qed.

Lemma X18_upstream_failure_is_404_witness :
  fst (App.handler (unreachable 30) (App.GET_products_id "1") (fresh_world 0))
  = Returned (App.mkResponse 404 (App.error_json "Product not found")).
Proof.
  apply (X18_upstream_failure_is_404 (unreachable 30) "1" (fresh_world 0)).
  exact I.
Defined.

(** ** More on the metric windows *)

Lemma find_expire_other {A} now now' (m : gmap string (Redis.Entry A))
    key key' seconds :
  key <> key' ->
  Redis.find now' (Redis.expire now m key seconds) key' = Redis.find now' m key'.
Proof.
  intros H. unfold Redis.find. rewrite lookup_expire_ne by exact H. reflexivity.
Qed.

Lemma find_lPush_ne now now' m key key' x :
  key <> key' ->
  Redis.find now' (Redis.lPush now m key x) key' = Redis.find now' m key'.
Proof.
  intros H. unfold Redis.lPush.
  destruct (Redis.find now m key); apply find_insert_ne; exact H.
Qed.

Lemma find_incr_ne now now' m key key' :
  key <> key' ->
  Redis.find now' (Redis.incr now m key) key' = Redis.find now' m key'.
Proof.
  intros H. unfold Redis.incr.
  destruct (Redis.find now m key); apply find_insert_ne; exact H.
Qed.

(** After EXPIRE, a key that was there is gone once the TTL is over. *)
Lemma find_expire_over {A} now now' (m : gmap string (Redis.Entry A))
    key seconds (e : Redis.Entry A) :
  Redis.find now m key = Some e ->
  now + seconds * 1000 <= now' ->
  Redis.find now' (Redis.expire now m key seconds) key = None.
Proof.
  intros Hfind Ht. unfold Redis.expire. rewrite Hfind, find_insert_eq.
  unfold Redis.live. simpl.
  assert ((now' <? now + seconds * 1000) = false) as -> by (apply Z.ltb_ge; lia).
  reflexivity.
Qed.

(** Recording a metric touches the list and the counter of its class
    only. *)
Lemma record_db_other class now now' ms db key :
  key <> "metrics:" +:+ class +:+ ":times" ->
  key <> "metrics:" +:+ class +:+ ":calls" ->
  Redis.find now' (times_keys (record_db class now ms db)) key
  = Redis.find now' (times_keys db) key
  /\ Redis.find now' (calls_keys (record_db class now ms db)) key
     = Redis.find now' (calls_keys db) key.
Proof.
  intros Htimes Hcalls. unfold record_db. cbv zeta.
  cbn [times_keys calls_keys sample_keys].
  split.
  - rewrite !find_expire_other by congruence.
    apply find_lPush_ne. congruence.
  - rewrite find_expire_other by congruence.
    rewrite find_incr_ne by congruence.
    apply find_expire_other. congruence.
Qed.

(** A full hour after a metric was recorded, its list and its counter
    are gone. *)
Lemma record_db_over class now now' ms db :
  now + 3600 * 1000 <= now' ->
  Redis.find now' (times_keys (record_db class now ms db))
    ("metrics:" +:+ class +:+ ":times") = None
  /\ Redis.find now' (calls_keys (record_db class now ms db))
       ("metrics:" +:+ class +:+ ":calls") = None.
Proof.
  intros Ht. unfold record_db. cbv zeta.
  cbn [times_keys calls_keys sample_keys].
  pose proof (times_calls_differ class) as Hne.
  set (times := "metrics:" +:+ class +:+ ":times") in *.
  set (calls := "metrics:" +:+ class +:+ ":calls") in *.
  split.
  - rewrite find_expire_other by congruence.
    destruct (find_lPush now (times_keys db) times (Js.toString ms)) as [d Hpush].
    apply (find_expire_over _ _ _ _ _ _ Hpush Ht).
  - destruct (find_incr now (Redis.expire now (calls_keys db) times 3600) calls)
      as [d Hincr].
    apply (find_expire_over _ _ _ _ _ _ Hincr Ht).
Qed.

Lemma snapshot_totals endpointTimes endpointCalls shopifyTimes shopifyCalls :
  total_endpoint_calls
    (snapshot endpointTimes endpointCalls shopifyTimes shopifyCalls)
  = Js.parseInt (or_string endpointCalls "0")
  /\ total_shopify_api_calls
       (snapshot endpointTimes endpointCalls shopifyTimes shopifyCalls)
     = Js.parseInt (or_string shopifyCalls "0").
Proof.
  unfold snapshot.
  destruct (0 <? length endpointTimes)%nat; split; reflexivity.
Qed.

Lemma window_cleared class now w :
  metrics_status w = Connected ->
  class = "endpoint" \/ class = "shopify" ->
  window_samples class now (cleared w) = []
  /\ window_counter class now (cleared w) = None.
Proof.
  intros Hst Hclass. unfold window_samples, window_counter, cleared.
  rewrite Hst. cbn [times_keys calls_keys metrics_db with_metrics_db].
  unfold Redis.lRange, Redis.get, Redis.find.
  destruct Hclass as [-> | ->];
    rewrite !lookup_del_in by (simpl; tauto); split; reflexivity.
Qed.

(** X19. The two metric classes do not touch each other: reporting a
    Shopify call leaves the endpoint samples and counter as they were, at
    any time of reading, and reporting an endpoint call leaves those of
    the Shopify calls. *)
Theorem X19_metric_classes_are_independent (ms now : Z) (w : World) :
  let w1 := snd (MetricsService.recordShopifyCall ms w) in
  let w2 := snd (MetricsService.recordEndpointCall ms w) in
  window_samples "endpoint" now w1 = window_samples "endpoint" now w
  /\ window_counter "endpoint" now w1 = window_counter "endpoint" now w
  /\ window_samples "shopify" now w2 = window_samples "shopify" now w
  /\ window_counter "shopify" now w2 = window_counter "shopify" now w.
Proof.
  intros w1 w2. subst w1 w2.
  rewrite recordShopifyCall_run, recordEndpointCall_run. cbn [snd].
  unfold reported, recorded, window_samples, window_counter,
    Redis.lRange, Redis.get.
  change (metrics_status (with_trace ?tr w)) with (metrics_status w).
  destruct (metrics_status w); cbn [metrics_db with_metrics_db with_trace];
    try (repeat split; reflexivity).
  destruct (record_db_other "shopify" (clock w) now ms (metrics_db w)
              "metrics:endpoint:times") as [Het _]; [discriminate..|].
  destruct (record_db_other "shopify" (clock w) now ms (metrics_db w)
              "metrics:endpoint:calls") as [_ Hec]; [discriminate..|].
  destruct (record_db_other "endpoint" (clock w) now ms (metrics_db w)
              "metrics:shopify:times") as [Hst _]; [discriminate..|].
  destruct (record_db_other "endpoint" (clock w) now ms (metrics_db w)
              "metrics:shopify:calls") as [_ Hsc]; [discriminate..|].
  change ("metrics:" +:+ "endpoint" +:+ ":times") with "metrics:endpoint:times".
  change ("metrics:" +:+ "endpoint" +:+ ":calls") with "metrics:endpoint:calls".
  change ("metrics:" +:+ "shopify" +:+ ":times") with "metrics:shopify:times".
  change ("metrics:" +:+ "shopify" +:+ ":calls") with "metrics:shopify:calls".
  change (clock (with_trace ?tr w)) with (clock w).
  rewrite Het, Hec, Hst, Hsc. repeat split; reflexivity.
Qed.

Lemma sum_of_bounds lo hi l :
  Forall (fun x => lo <= x) l ->
  Forall (fun x => x <= hi) l ->
  lo * Z.of_nat (length l) <= sum_of l <= hi * Z.of_nat (length l).
Proof.
  intros Hlo Hhi. induction l as [|x l IH].
  - simpl. lia.
  - apply Forall_cons_1 in Hlo as [Hx Hlo]. apply Forall_cons_1 in Hhi as [Hx' Hhi].
    specialize (IH Hlo Hhi). unfold sum_of in *. cbn [fold_right length].
    lia.
Qed.

(** Rounding a mean of integers keeps it between their bounds. *)
Lemma round_mean_bounds lo hi sum n :
  0 < n -> lo * n <= sum <= hi * n ->
  lo <= Js.Math_round (inject_Z sum / inject_Z n)%Q <= hi.
Proof.
  intros Hn [Hlo Hhi]. unfold Js.Math_round.
  assert (0 < inject_Z n)%Q as Hpos.
  { change 0%Q with (inject_Z 0). rewrite <- Zlt_Qlt. exact Hn. }
  assert (inject_Z lo <= inject_Z sum / inject_Z n)%Q as Hlow.
  { apply Qle_shift_div_l; [exact Hpos|].
    rewrite <- inject_Z_mult, <- Zle_Qle. exact Hlo. }
  assert (inject_Z sum / inject_Z n <= inject_Z hi)%Q as Hhigh.
  { apply Qle_shift_div_r; [exact Hpos|].
    rewrite <- inject_Z_mult, <- Zle_Qle. exact Hhi. }
  split.
  - rewrite <- (Qfloor_Z lo). apply Qfloor_resp_le.
    apply Qle_trans with (inject_Z sum / inject_Z n)%Q; [exact Hlow|].
    rewrite <- (Qplus_0_r (inject_Z sum / inject_Z n)) at 1.
    apply Qplus_le_r. discriminate.
  - apply Z.lt_succ_r. rewrite Zlt_Qlt.
    apply Qle_lt_trans with (inject_Z sum / inject_Z n + (1 # 2))%Q;
      [apply Qfloor_le|].
    unfold Z.succ. rewrite inject_Z_plus.
    rewrite (Qplus_comm _ (1 # 2)), (Qplus_comm (inject_Z hi)).
    apply Qplus_lt_le_compat; [reflexivity | exact Hhigh].
Qed.

(** X20. The statistics of the endpoint window are consistent.  Take
    response times that JavaScript stores and adds up exactly: whole
    milliseconds, none negative, at most 10000 of them, with twice their
    sum plus their number below 2^53 (so that each prints in plain
    decimal and the mean is rounded as the exact quotient is).  Recorded
    into an empty window, [getMetrics] gives their number, the greatest
    and the least of them, and the mean rounded by [Math.round], which
    lies between the least and the greatest. *)
Theorem X20_snapshot_is_consistent (samples : list Z) (w : World)
    (Hup : metrics_status w = Connected)
    (Hempty : window_samples "endpoint" (clock w) w = [])
    (Hcalls : window_calls "endpoint" (clock w) w = 0)
    (Hsome : samples <> [])
    (Hnonneg : Forall (fun x => 0 <= x) samples)
    (Hexact : 2 * sum_of samples + Z.of_nat (length samples) < 2 ^ 53)
    (Hfew : Z.of_nat (length samples) <= 10000) :
  exists stats mean greatest least,
    fst (MetricsService.getMetrics (record_endpoint_calls samples w))
    = Returned stats
    /\ endpoint_average stats = Some mean
    /\ endpoint_max stats = Some greatest
    /\ endpoint_min stats = Some least
    /\ total_endpoint_calls stats = Some (Z.of_nat (length samples))
    /\ mean = Js.Math_round
                (inject_Z (sum_of samples)
                 / inject_Z (Z.of_nat (length samples)))%Q
    /\ In greatest samples /\ Forall (fun x => x <= greatest) samples
    /\ In least samples /\ Forall (fun x => least <= x) samples
    /\ 0 <= least <= mean /\ mean <= greatest.
Proof.
  destruct (metrics_snapshot_of_samples samples w Hup Hempty Hcalls Hsome)
    as (stats & greatest & least & Hstats & Hmean & Hmax & Hin_max & Hall_max
        & Hmin & Hin_min & Hall_min & Htotal).
  exists stats, (Js.Math_round
                   (inject_Z (sum_of samples)
                    / inject_Z (Z.of_nat (length samples)))%Q), greatest, least.
  repeat (split; [assumption || reflexivity|]).
  assert (least <= Js.Math_round
                     (inject_Z (sum_of samples)
                      / inject_Z (Z.of_nat (length samples)))%Q
          <= greatest) as [Hlow Hhigh].
  { apply round_mean_bounds.
    - destruct samples; [congruence | simpl; lia].
    - apply sum_of_bounds; assumption. }
  split; [|exact Hhigh]. split; [|exact Hlow].
  rewrite Forall_forall in Hnonneg. apply Hnonneg.
  apply list_elem_of_In. exact Hin_min.
Qed.

Lemma X20_snapshot_is_consistent_witness :
  exists stats mean greatest least,
    fst (MetricsService.getMetrics
           (record_endpoint_calls [120; 80; 101] (fresh_world 0)))
    = Returned stats
    /\ endpoint_average stats = Some mean
    /\ endpoint_max stats = Some greatest
    /\ endpoint_min stats = Some least
    /\ total_endpoint_calls stats = Some (Z.of_nat (length [120; 80; 101]))
    /\ mean = Js.Math_round
                (inject_Z (sum_of [120%Z; 80%Z; 101%Z])
                 / inject_Z (Z.of_nat (length [120%Z; 80%Z; 101%Z])))%Q
    /\ In greatest [120; 80; 101]
    /\ Forall (fun x => x <= greatest) [120; 80; 101]
    /\ In least [120; 80; 101]
    /\ Forall (fun x => least <= x) [120; 80; 101]
    /\ 0 <= least <= mean /\ mean <= greatest.
Proof.
  apply (X20_snapshot_is_consistent [120; 80; 101] (fresh_world 0)).
  - reflexivity.
  - reflexivity.
  - reflexivity.
  - discriminate.
  - repeat constructor; lia.
  - vm_compute. reflexivity.
  - simpl. lia.
Defined.

(** X21. The hour of retention restarts with every call: as long as each
    endpoint call comes less than an hour after the one before, no sample
    leaves the window and the counter keeps counting, however long ago
    the first one was recorded. *)
Theorem X21_traffic_keeps_every_sample (calls : list (Z * Z)) (w : World)
    (Hup : metrics_status w = Connected)
    (Hpauses : Forall (fun call => 0 <= snd call < 3600 * 1000) calls) :
  let w' := record_spaced calls w in
  clock w' = clock w + sum_of (map snd calls)
  /\ window_samples "endpoint" (clock w') w'
     = map Js.toString (rev (map fst calls))
       ++ window_samples "endpoint" (clock w) w
  /\ window_calls "endpoint" (clock w') w'
     = window_calls "endpoint" (clock w) w + Z.of_nat (length calls).
Proof.
  revert w Hup. induction Hpauses as [|[ms pause] rest Hpause Hrest IH];
    intros w Hup; cbn [record_spaced map rev length sum_of fold_right fst snd].
  - simpl. repeat split; lia.
  - cbn [snd] in Hpause.
    destruct (window_after_endpoint_call ms pause w Hup Hpause)
      as (Hup1 & Hs1 & Hc1 & _).
    set (w1 := later pause (snd (MetricsService.recordEndpointCall ms w))) in *.
    assert (clock w1 = clock w + pause) as Hclock1.
    { unfold w1. rewrite recordEndpointCall_run. unfold later. cbn [snd].
      simpl. rewrite clock_recorded. reflexivity. }
    destruct (IH w1 Hup1) as (Hclock & Hs & Hc).
    split; [|split].
    + rewrite Hclock, Hclock1. fold (sum_of (map snd rest)). lia.
    + rewrite Hs, Hs1, map_app, <- app_assoc. reflexivity.
    + rewrite Hc, Hc1. lia.
Qed.

Lemma X21_traffic_keeps_every_sample_witness :
  clock (record_spaced [(100, 3000000); (200, 3000000)] (fresh_world 0))
  = 0 + sum_of (map snd [(100, 3000000); (200, 3000000)])
  /\ window_samples "endpoint"
       (clock (record_spaced [(100, 3000000); (200, 3000000)] (fresh_world 0)))
       (record_spaced [(100, 3000000); (200, 3000000)] (fresh_world 0))
     = map Js.toString (rev (map fst [(100, 3000000); (200, 3000000)]))
       ++ window_samples "endpoint" 0 (fresh_world 0)
  /\ window_calls "endpoint"
       (clock (record_spaced [(100, 3000000); (200, 3000000)] (fresh_world 0)))
       (record_spaced [(100, 3000000); (200, 3000000)] (fresh_world 0))
     = window_calls "endpoint" 0 (fresh_world 0)
       + Z.of_nat (length [(100, 3000000); (200, 3000000)]).
Proof.
  apply (X21_traffic_keeps_every_sample
           [(100, 3000000); (200, 3000000)] (fresh_world 0)).
  - reflexivity.
  - repeat constructor; simpl; lia.
Defined.

(** X22. An hour without endpoint calls forgets them all at once: read
    3600 s or more after the last recorded call, the endpoint list and
    counter are gone, whatever they held, and [getMetrics] reports zero
    for the endpoint average, maximum, minimum and total. *)
Theorem X22_idle_hour_empties_window (ms gap : Z) (w : World)
    (Hup : metrics_status w = Connected)
    (Hgap : 3600 * 1000 <= gap) :
  let w' := later gap (snd (MetricsService.recordEndpointCall ms w)) in
  window_samples "endpoint" (clock w') w' = []
  /\ window_counter "endpoint" (clock w') w' = None
  /\ exists stats,
       fst (MetricsService.getMetrics w') = Returned stats
       /\ endpoint_average stats = Some 0
       /\ endpoint_max stats = Some 0
       /\ endpoint_min stats = Some 0
       /\ total_endpoint_calls stats = Some 0.
Proof.
  intros w'.
  assert (metrics_status w' = Connected) as Hup'.
  { unfold w'. rewrite recordEndpointCall_run. unfold later. cbn [snd].
    simpl. rewrite metrics_status_recorded. exact Hup. }
  assert (window_samples "endpoint" (clock w') w' = []
          /\ window_counter "endpoint" (clock w') w' = None) as [Hs Hc].
  { unfold w'. rewrite recordEndpointCall_run. cbn [snd].
    unfold later, window_samples, window_counter, recorded.
    change (metrics_status (with_trace ?tr w)) with (metrics_status w).
    rewrite Hup. cbn [metrics_db with_metrics_db with_clock clock with_trace].
    destruct (record_db_over "endpoint" (clock w) (clock w + gap) ms
                (metrics_db w)) as [Htimes Hcalls]; [lia|].
    unfold Redis.lRange, Redis.get. rewrite Htimes, Hcalls.
    split; reflexivity. }
  split; [exact Hs|]. split; [exact Hc|].
  unfold MetricsService.getMetrics. rewrite getMetrics_run by exact Hup'.
  rewrite Hs, Hc. eexists. split; [reflexivity|].
  unfold snapshot. cbn [length Nat.ltb Nat.leb].
  destruct (0 <? length (window_samples "shopify" (clock w') w'))%nat;
    repeat split; reflexivity.
Qed.

Lemma X22_idle_hour_empties_window_witness :
  window_samples "endpoint" 3600000
    (later 3600000
       (snd (MetricsService.recordEndpointCall 120 (fresh_world 0))))
  = [].
Proof.
  apply (X22_idle_hour_empties_window 120 3600000 (fresh_world 0)).
  - reflexivity.
  - lia.
Defined.

(** After a reset and the endpoint call that follows it, nothing is
    held for the Shopify calls. *)
Lemma shopify_window_after_reset ms gap now w :
  metrics_status w = Connected ->
  let w1 := later gap (snd (MetricsService.recordEndpointCall ms (cleared w))) in
  window_samples "shopify" now w1 = []
  /\ window_counter "shopify" now w1 = None.
Proof.
  intros Hup w1. subst w1.
  destruct (window_cleared "shopify" now w Hup (or_intror eq_refl)) as [Hs Hc].
  rewrite recordEndpointCall_run. cbn [snd].
  unfold later, window_samples, window_counter, recorded in *.
  change (metrics_status (with_trace ?tr (cleared w)))
    with (metrics_status (cleared w)).
  rewrite metrics_status_cleared, Hup.
  cbn [metrics_db with_metrics_db with_clock with_trace].
  destruct (record_db_other "endpoint" (clock (cleared w)) now ms
              (metrics_db (cleared w)) "metrics:shopify:times")
    as [Hst _]; [discriminate..|].
  destruct (record_db_other "endpoint" (clock (cleared w)) now ms
              (metrics_db (cleared w)) "metrics:shopify:calls")
    as [_ Hsc]; [discriminate..|].
  change ("metrics:" +:+ "shopify" +:+ ":times") with "metrics:shopify:times" in *.
  change ("metrics:" +:+ "shopify" +:+ ":calls") with "metrics:shopify:calls" in *.
  unfold Redis.lRange, Redis.get in *.
  change (clock (with_trace ?tr (cleared w))) with (clock (cleared w)).
  rewrite Hst, Hsc. split; assumption.
Qed.

(** X23. [POST /reset-stats] is itself an endpoint call and is recorded
    after the keys were deleted: the statistics read within the hour
    after a reset show one endpoint call, not none, and no Shopify
    call. *)
Theorem X23_reset_counts_itself
    (shopify : Upstream) (gap : Z) (w : World)
    (Hup : metrics_status w = Connected)
    (Hgap : 0 <= gap < 3600 * 1000) :
  let w1 := later gap (snd (App.middleware shopify App.POST_reset_stats w)) in
  exists stats,
    fst (App.middleware shopify App.GET_api_stats w1)
    = Returned (App.mkResponse 200 (App.stats_json stats))
    /\ total_endpoint_calls stats = Some 1
    /\ total_shopify_api_calls stats = Some 0
    /\ average_shopify_call_responsetime_ms stats = Some 0.
Proof.
  intros w1.
  assert (metrics_status (cleared w) = Connected) as Hup0
    by (rewrite metrics_status_cleared; exact Hup).
  set (ms := clock (cleared w) - clock w).
  assert (w1 = later gap (snd (MetricsService.recordEndpointCall ms (cleared w))))
    as Hw1.
  { unfold w1. rewrite middleware_run, handler_reset_run. reflexivity. }
  destruct (window_after_endpoint_call ms gap (cleared w) Hup0 Hgap)
    as (Hup1 & _ & Hcalls & Hcounter).
  rewrite <- Hw1 in Hup1, Hcalls, Hcounter.
  destruct (window_cleared "endpoint" (clock (cleared w)) w Hup (or_introl eq_refl))
    as [_ Hec].
  assert (window_calls "endpoint" (clock (cleared w)) (cleared w) = 0) as Hzero.
  { unfold window_calls. unfold window_counter in Hec.
    destruct (Redis.get _ _ _); [discriminate | reflexivity]. }
  rewrite Hzero in Hcalls. rewrite Hcalls in Hcounter.
  destruct (shopify_window_after_reset ms gap (clock w1) w Hup) as [Hst Hsc].
  rewrite <- Hw1 in Hst, Hsc.
  rewrite middleware_run, handler_stats_run. cbn [fst].
  rewrite getMetrics_run by exact Hup1. cbn [fst].
  eexists. split; [reflexivity|].
  destruct (snapshot_totals (window_samples "endpoint" (clock w1) w1)
              (window_counter "endpoint" (clock w1) w1)
              (window_samples "shopify" (clock w1) w1)
              (window_counter "shopify" (clock w1) w1)) as [-> ->].
  rewrite Hcounter, Hsc. split; [reflexivity|]. split; [reflexivity|].
  unfold snapshot. rewrite Hst.
  destruct (0 <? length (window_samples "endpoint" (clock w1) w1))%nat;
    reflexivity.
Qed.

Lemma X23_reset_counts_itself_witness :
  exists stats,
    fst (App.middleware (unreachable 30) App.GET_api_stats
           (later 1000
              (snd (App.middleware (unreachable 30) App.POST_reset_stats
                      (record_endpoint_calls [120; 80] (fresh_world 0))))))
    = Returned (App.mkResponse 200 (App.stats_json stats))
    /\ total_endpoint_calls stats = Some 1
    /\ total_shopify_api_calls stats = Some 0
    /\ average_shopify_call_responsetime_ms stats = Some 0.
Proof.
  apply (X23_reset_counts_itself (unreachable 30) 1000
           (record_endpoint_calls [120; 80] (fresh_world 0))).
  - reflexivity.
  - lia.
Defined.

(** ** The page cache *)

(** X24. Pages are cached under the cursor, and no cursor is the key
    ["start"]: a page written for a cursor is read back for every cursor
    with the same key until its TTL has run out, so the cursor "start"
    reads the first page; under any other key the cache reads as if
    nothing had been written. *)
Theorem X24_page_cache_keys
    (after after' : option string) (page : ProductResponse)
    (ttl gap : Z) (w : World)
    (Hup : products_status w = Connected)
    (Httl : 0 < ttl) :
  let w1 := later gap
              (snd (ProductsPersistenceService.cacheProductsList
                      after page ttl w)) in
  fst (ProductsPersistenceService.getCachedProductsList after' w1)
  = Returned
      (if String.eqb (or_string after "start") (or_string after' "start")
       then if gap <? ttl * 1000 then Some page else None
       else cached_page after' (later gap w)).
Proof.
  intros w1. subst w1.
  rewrite cacheProductsList_run. cbn [snd].
  rewrite getCachedProductsList_run. cbn [fst]. f_equal.
  destruct (String.eqb_spec (or_string after "start") (or_string after' "start"))
    as [Hsame | Hother].
  - unfold cached_page, later, write_page. rewrite Hup. simpl. rewrite Hup.
    rewrite <- Hsame.
    unfold Redis.get, Redis.setEx. rewrite find_insert_eq.
    unfold Redis.live. simpl.
    destruct (gap <? ttl * 1000) eqn:Hgap.
    + apply Z.ltb_lt in Hgap.
      assert ((clock w + gap <? clock w + ttl * 1000) = true) as ->
        by (apply Z.ltb_lt; lia).
      reflexivity.
    + apply Z.ltb_ge in Hgap.
      assert ((clock w + gap <? clock w + ttl * 1000) = false) as ->
        by (apply Z.ltb_ge; lia).
      reflexivity.
  - unfold cached_page, later, write_page. rewrite Hup. simpl. rewrite Hup.
    unfold Redis.get, Redis.setEx. rewrite find_insert_ne; [reflexivity|].
    intros Heq. apply Hother.
    apply (inj (String.app "products:list:")) in Heq. exact Heq.
Qed.

Lemma X24_page_cache_keys_witness :
  fst (ProductsPersistenceService.getCachedProductsList (Some "start")
         (later 1000
            (snd (ProductsPersistenceService.cacheProductsList None
                    (marshalled_page sample_connection) 300 (fresh_world 0)))))
  = Returned (Some (marshalled_page sample_connection)).
Proof.
  apply (X24_page_cache_keys None (Some "start")
           (marshalled_page sample_connection) 300 1000 (fresh_world 0)).
  - reflexivity.
  - lia.
Defined.

(** ** The metrics client going away *)

(** X25. Calls reported while the metrics client is disconnected are
    lost, not queued: [getMetrics] reads zeros during the outage, and
    after a successful [connect] the store holds what it held before the
    outage, without the endpoint and Shopify calls reported in between. *)
Theorem X25_metrics_outage_loses_calls (ms ms' : Z) (w : World)
    (Hup : metrics_status w = Connected) :
  let off := snd (MetricsPersistenceService.disconnect w) in
  let w1 := snd (MetricsService.recordEndpointCall ms off) in
  let w2 := snd (MetricsService.recordShopifyCall ms' w1) in
  fst (MetricsPersistenceService.disconnect w) = Returned tt
  /\ MetricsService.getMetrics w2
     = (Returned MetricsPersistenceService.zero_stats, w2)
  /\ MetricsPersistenceService.connect true w2
     = (Returned tt,
        with_trace
          (trace w ++ [EndpointCallReported ms; ShopifyCallReported ms']) w).
Proof.
  intros off w1 w2. subst w2 w1 off.
  rewrite recordShopifyCall_run, recordEndpointCall_run.
  unfold MetricsService.getMetrics.
  destruct w as [t ps pdb mst mdb tr ur]. simpl in Hup. subst mst.
  cbn [MetricsPersistenceService.disconnect metrics_status with_metrics_status
       fst snd].
  split; [reflexivity|]. split.
  - apply getMetrics_down. unfold reported, recorded. simpl. discriminate.
  - unfold MetricsPersistenceService.connect, reported, recorded. simpl.
    rewrite <- app_assoc. reflexivity.
Qed.

Lemma X25_metrics_outage_loses_calls_witness :
  fst (MetricsPersistenceService.disconnect
         (record_endpoint_calls [120] (fresh_world 0)))
  = Returned tt
  /\ MetricsService.getMetrics
       (snd (MetricsService.recordShopifyCall 45
               (snd (MetricsService.recordEndpointCall 60
                       (snd (MetricsPersistenceService.disconnect
                               (record_endpoint_calls [120] (fresh_world 0))))))))
     = (Returned MetricsPersistenceService.zero_stats,
        snd (MetricsService.recordShopifyCall 45
               (snd (MetricsService.recordEndpointCall 60
                       (snd (MetricsPersistenceService.disconnect
                               (record_endpoint_calls [120] (fresh_world 0))))))))
  /\ MetricsPersistenceService.connect true
       (snd (MetricsService.recordShopifyCall 45
               (snd (MetricsService.recordEndpointCall 60
                       (snd (MetricsPersistenceService.disconnect
                               (record_endpoint_calls [120] (fresh_world 0))))))))
     = (Returned tt,
        with_trace
          (trace (record_endpoint_calls [120] (fresh_world 0))
           ++ [EndpointCallReported 60; ShopifyCallReported 45])
          (record_endpoint_calls [120] (fresh_world 0))).
Proof.
  apply (X25_metrics_outage_loses_calls 60 45
           (record_endpoint_calls [120] (fresh_world 0))).
  reflexivity.
Defined.
